(** * Refiners: attention layers and cross-attention blocks

    Shallow embedding of
      - [src/refiners/fluxion/layers/attentions.py]
      - [src/refiners/foundationals/latent_diffusion/cross_attention.py]

    Tensors are row-major arrays: a shape (list of sizes) and the flat
    list of elements.  Sizes, head counts and feature counts are
    naturals.  Python exceptions are the constructors of [Error]; a
    fallible computation returns a [result]. *)

From Stdlib Require Import String List Arith ZArith Lia Bool PeanoNat.
Import ListNotations.
Open Scope string_scope.
Open Scope nat_scope.
Open Scope list_scope.

(* ================================================================== *)
(** ** Exceptions and results *)

Inductive Error : Type :=
| AssertionError (what : string)
| ZeroDivisionError
| RuntimeError (what : string)
| IndexError
| TypeError
| ValueError (what : string)
| ContextNotFound (context key : string).

Inductive result (X : Type) : Type :=
| Ok (x : X)
| Err (e : Error).

Arguments Ok {X} x.
Arguments Err {X} e.

Definition rbind {X Y} (m : result X) (k : X -> result Y) : result Y :=
  match m with
  | Ok x => k x
  | Err e => Err e
  end.

Declare Scope result_scope.
Delimit Scope result_scope with res.
Notation "x <- m ;; k" := (rbind m (fun x => k))
  (at level 61, m at next level, right associativity) : result_scope.

(** Python's [a % b] and [a // b] on non-negative integers. *)
Definition py_mod (a b : nat) : result nat :=
  if b =? 0 then Err ZeroDivisionError else Ok (a mod b).

Definition py_floordiv (a b : nat) : result nat :=
  if b =? 0 then Err ZeroDivisionError else Ok (a / b).

(** [a or b] where [a : int | None]: [None] and [0] are falsy. *)
Definition py_or (a : option nat) (b : nat) : nat :=
  match a with
  | Some (S _ as n) => n
  | _ => b
  end.

(* ================================================================== *)
(** ** Index arithmetic of row-major arrays *)

Definition prod_list (s : list nat) : nat := fold_right Nat.mul 1 s.

(** Flat position of a multi-index. *)
Fixpoint ravel (s idx : list nat) : nat :=
  match s, idx with
  | _ :: s', i :: idx' => i * prod_list s' + ravel s' idx'
  | _, _ => 0
  end.

(** Multi-index of a flat position. *)
Fixpoint unravel (s : list nat) (n : nat) : list nat :=
  match s with
  | [] => []
  | _ :: s' => n / prod_list s' :: unravel s' (n mod prod_list s')
  end.

Fixpoint list_set {X} (i : nat) (x : X) (l : list X) : list X :=
  match l, i with
  | [], _ => []
  | _ :: l', 0 => x :: l'
  | y :: l', S i' => y :: list_set i' x l'
  end.

(** Exchange positions [d0] and [d1] of a list (of sizes or indices). *)
Definition swap_dims {X} (d0 d1 : nat) (l : list X) : list X :=
  match nth_error l d0, nth_error l d1 with
  | Some a, Some b => list_set d0 b (list_set d1 a l)
  | _, _ => l
  end.

Definition tabulate {X} (n : nat) (f : nat -> X) : list X :=
  map f (seq 0 n).

(** Python slice [l[start:stop]] for non-negative bounds. *)
Definition py_slice {X} (start stop : nat) (l : list X) : list X :=
  firstn (stop - start) (skipn start l).

(* ================================================================== *)
(** ** Tensors *)

Record Tensor (A : Type) : Type := mkTensor { shape : list nat; data : list A }.

Arguments mkTensor {A} shape data.
Arguments shape {A} t.
Arguments data {A} t.

(** A leaf layer is identified by its position in the module tree, so
    that two layers of the same configuration own different weights. *)
Definition site : Type := list nat.

(** Modelled from the spec: the external numeric collaborator (element
    arithmetic, projections, normalisations, convolution, the fused
    attention primitive).  Element arithmetic and the kernels of the
    weighted layers are left abstract: a kernel gives element [n]
    (row-major) of the layer's output for a given input.  The
    attention kernel works on one (sequence x feature) matrix triple
    and gives element [(i, j)] of its output. *)
Class Numeric (A : Type) : Type := {
  zero : A;
  add : A -> A -> A;
  mul : A -> A -> A;
  gelu : A -> A;
  linear_k : site -> nat -> nat -> bool -> Tensor A -> nat -> A;
  layer_norm_k : site -> nat -> Tensor A -> nat -> A;
  group_norm_k : site -> nat -> nat -> Tensor A -> nat -> A;
  conv2d_k : site -> nat -> nat -> nat -> Tensor A -> nat -> A;
  attention_k :
    bool -> nat -> nat -> nat -> nat ->
    list A -> list A -> list A -> nat -> nat -> A
}.

Section Tensors.

Context {A : Type} `{Numeric A}.

Definition numel (t : Tensor A) : nat := prod_list (shape t).

Definition rank (t : Tensor A) : nat := length (shape t).

(** A tensor holds exactly as many elements as its shape says. *)
Definition wf (t : Tensor A) : Prop := length (data t) = numel t.

Definition get (t : Tensor A) (idx : list nat) : A :=
  nth (ravel (shape t) idx) (data t) zero.

(** [x.reshape(s)]: same elements in the same row-major order. *)
Definition reshape (s : list nat) (t : Tensor A) : result (Tensor A) :=
  if prod_list s =? numel t
  then Ok (mkTensor s (data t))
  else Err (RuntimeError "shape is invalid for input size").

(** [x.transpose(d0, d1)]: element [idx] of the result is element
    [swap idx] of [x]. *)
Definition transpose (d0 d1 : nat) (t : Tensor A) : result (Tensor A) :=
  if (d0 <? rank t) && (d1 <? rank t)
  then
    let s' := swap_dims d0 d1 (shape t) in
    Ok (mkTensor s'
          (tabulate (prod_list s')
             (fun n => get t (swap_dims d0 d1 (unravel s' n)))))
  else Err IndexError.

Definition zeros_like (t : Tensor A) : Tensor A :=
  mkTensor (shape t) (repeat zero (numel t)).

Fixpoint zip_with {X Y Z} (f : X -> Y -> Z) (l : list X) (l' : list Y)
  : list Z :=
  match l, l' with
  | x :: r, y :: r' => f x y :: zip_with f r r'
  | _, _ => []
  end.

(** Modelled from the spec: the elementwise addition of the numeric
    collaborator, on tensors of one shape (the branches of a Sum must
    produce congruent shapes; broadcasting is not modelled). *)
Definition tensor_add (a b : Tensor A) : result (Tensor A) :=
  if list_eq_dec Nat.eq_dec (shape a) (shape b)
  then Ok (mkTensor (shape a) (zip_with add (data a) (data b)))
  else Err (RuntimeError "shapes differ").

(* ---------------------------------------------------------------- *)
(** *** attentions.py: the attention primitive *)

(** Rows [i*len .. (i+1)*len) of a flat array. *)
Definition chunk (len i : nat) (l : list A) : list A :=
  firstn len (skipn (i * len) l).

(** [scaled_dot_product_attention(query, key, value, is_causal)]: a
    call of the fused primitive of the numeric collaborator, which is
    modelled from the spec.  Shapes are
    [(batch.., L, E)], [(batch.., S, E)], [(batch.., S, Ev)] and the
    result is [(batch.., L, Ev)]; every batch index is computed on its
    own by [attention_k]. *)
Definition scaled_dot_product_attention
    (query key value : Tensor A) (is_causal : bool) : result (Tensor A) :=
  let bq := firstn (rank query - 2) (shape query) in
  let bk := firstn (rank key - 2) (shape key) in
  let bv := firstn (rank value - 2) (shape value) in
  match skipn (rank query - 2) (shape query),
        skipn (rank key - 2) (shape key),
        skipn (rank value - 2) (shape value) with
  | [l; e], [s; e'], [s'; ev] =>
      if (e =? e') && (s =? s')
         && (if list_eq_dec Nat.eq_dec bq bk then true else false)
         && (if list_eq_dec Nat.eq_dec bq bv then true else false)
      then
        Ok (mkTensor (bq ++ [l; ev])
              (tabulate (prod_list bq * (l * ev))
                 (fun n =>
                    let b := n / (l * ev) in
                    let r := n mod (l * ev) in
                    attention_k is_causal l s e ev
                      (chunk (l * e) b (data query))
                      (chunk (s * e) b (data key))
                      (chunk (s * ev) b (data value))
                      (r / ev) (r mod ev))))
      else Err (RuntimeError "attention shapes do not match")
  | _, _, _ => Err (RuntimeError "attention needs matrices")
  end.

(* ---------------------------------------------------------------- *)
(** *** attentions.py: ScaledDotProductAttention *)

Local Open Scope result_scope.

(** [split_to_multi_head]: both assertions, then
    [x.reshape(b, s, num_heads, e // num_heads).transpose(1, 2)]. *)
Definition split_to_multi_head (num_heads : nat) (x : Tensor A)
  : result (Tensor A) :=
  match shape x with
  | [b; s; e] =>
      r <- py_mod e num_heads ;;
      if r =? 0
      then
        d <- py_floordiv e num_heads ;;
        y <- reshape [b; s; num_heads; d] x ;;
        transpose 1 2 y
      else Err (AssertionError "Embedding dim must be divisible by num heads")
  | _ => Err (AssertionError "Expected tensor with shape (batch_size sequence_length embedding_dim)")
  end.

(** [merge_multi_head]:
    [x.transpose(1, 2).reshape(x.shape[0], x.shape[2], num_heads * x.shape[-1])]. *)
Definition merge_multi_head (num_heads : nat) (x : Tensor A)
  : result (Tensor A) :=
  xt <- transpose 1 2 x ;;
  match nth_error (shape x) 0, nth_error (shape x) 2 with
  | Some d0, Some d2 =>
      reshape [d0; d2; num_heads * last (shape x) 0] xt
  | _, _ => Err IndexError
  end.

(** The conditional expression of [forward], as written:
    [is_causal if is_causal is not None else
       (self.is_causal if self.is_causal is not None else False)]. *)
Definition effective_is_causal (self_is_causal is_causal : option bool)
  : bool :=
  if match is_causal with Some _ => true | None => false end
  then match is_causal with Some b => b | None => false end
  else
    if match self_is_causal with Some _ => true | None => false end
    then match self_is_causal with Some b => b | None => false end
    else false.

(** The resolution order in the specification's words: the first flag
    that is given, among the call-time one and the instance one, and
    [false] when there is none. *)
Definition first_given_flag (candidates : list (option bool)) : bool :=
  match flat_map (fun c => match c with Some b => [b] | None => [] end)
          candidates with
  | b :: _ => b
  | [] => false
  end.

(** [ScaledDotProductAttention.forward(query, key, value, is_causal)]. *)
Definition sdpa_forward (num_heads : nat) (self_is_causal : option bool)
    (query key value : Tensor A) (is_causal : option bool)
  : result (Tensor A) :=
  q <- split_to_multi_head num_heads query ;;
  k <- split_to_multi_head num_heads key ;;
  v <- split_to_multi_head num_heads value ;;
  o <- scaled_dot_product_attention q k v
         (effective_is_causal self_is_causal is_causal) ;;
  merge_multi_head num_heads o.

End Tensors.

(* ================================================================== *)
(** ** Values, contexts and the forward monad *)

(** What flows between layers and what a context entry holds. *)
Inductive Value (A : Type) : Type :=
| VNone
| VInt (n : nat)
| VSize (size : list nat)
| VSizes (stack : list (list nat))
| VTensor (t : Tensor A).

Arguments VNone {A}.
Arguments VInt {A} n.
Arguments VSize {A} size.
Arguments VSizes {A} stack.
Arguments VTensor {A} t.

(** A Python [dict] with string keys: insertion-ordered, one binding
    per key. *)
Definition dict (V : Type) : Type := list (string * V).

Fixpoint dict_get {V} (k : string) (d : dict V) : option V :=
  match d with
  | [] => None
  | (k', v) :: d' => if String.eqb k k' then Some v else dict_get k d'
  end.

Fixpoint dict_set {V} (k : string) (v : V) (d : dict V) : dict V :=
  match d with
  | [] => [(k, v)]
  | (k', v') :: d' =>
      if String.eqb k k' then (k, v) :: d' else (k', v') :: dict_set k v d'
  end.

Definition dict_values {V} (d : dict V) : list V := map snd d.

(** Ghost trace of a forward pass: the numeric kernels that ran and
    the pushes and pops on stack-valued context entries. *)
Inductive Event : Type :=
| EvKernel (layer : string) (at_site : site)
| EvPush (context key : string) (size : list nat)
| EvPop (context key : string) (size : list nat).

Record State (A : Type) : Type := mkState {
  contexts : dict (dict (Value A));
  trace : list Event
}.

Arguments mkState {A} contexts trace.
Arguments contexts {A} s.
Arguments trace {A} s.

Inductive outcome (A X : Type) : Type :=
| Done (x : X) (st : State A)
| Fail (e : Error) (st : State A).

Arguments Done {A X} x st.
Arguments Fail {A X} e st.

(** A forward computation threads the context store and may raise. *)
Definition M (A X : Type) : Type := State A -> outcome A X.

Definition ret {A X} (x : X) : M A X := fun st => Done x st.

Definition bind {A X Y} (m : M A X) (k : X -> M A Y) : M A Y :=
  fun st =>
    match m st with
    | Done x st' => k x st'
    | Fail e st' => Fail e st'
    end.

Definition fail {A X} (e : Error) : M A X := fun st => Fail e st.

Definition lift {A X} (r : result X) : M A X :=
  match r with
  | Ok x => ret x
  | Err e => fail e
  end.

Definition emit {A} (ev : Event) : M A unit :=
  fun st => Done tt (mkState (contexts st) (trace st ++ [ev])).

Declare Scope forward_scope.
Delimit Scope forward_scope with fwd.
Notation "x <- m ;; k" := (bind m (fun x => k))
  (at level 61, m at next level, right associativity) : forward_scope.
Notation "m ;; k" := (bind m (fun _ => k))
  (at level 61, right associativity) : forward_scope.

(* ================================================================== *)
(** ** The module tree *)

(** The function composed onto a [UseContext]: the default identity,
    or [lambda x: x.pop()]. *)
Inductive UseFunc : Type :=
| UseValue
| UsePop.

(** The callback of a [SetContext]: [StatefulFlatten.push] bound to an
    instance with the given [start_dim] and [end_dim]. *)
Inductive Callback : Type :=
| PushSizes (start_dim end_dim : Z).

(** The bound methods wrapped in a [Lambda] by [SelfAttention2d]. *)
Inductive LambdaFn : Type :=
| Tensor2dToSequence
| SequenceToTensor2d.

#[warnings="-register-all"] Inductive Module : Type :=
| Identity
| Linear (in_features out_features : nat) (bias : bool)
| LayerNorm (normalized_shape : nat)
| GroupNorm (channels num_groups : nat)
| Conv2d (in_channels out_channels kernel_size : nat)
| GeLU
| GLU (activation : Module)
| Flatten (start_dim end_dim : Z)
| Unflatten (dim : nat)
| Transpose (dim0 dim1 : nat)
| ScaledDotProductAttention (num_heads : nat) (is_causal : option bool)
| UseContext (context key : string) (func : UseFunc)
| SetContext (context key : string) (callback : option Callback)
| Lambda (func : LambdaFn)
| Chain (children : list Module)
| Parallel (children : list Module)
| Distribute (children : list Module)
| Sum (children : list Module).

(** Modelled from the spec: [Chain.insert(index, module)] and
    [Chain.append(module)] (fluxion/layers/chain.py is not part of the
    sources), on the ordered list of children. *)
Definition chain_insert (index : nat) (m : Module) (c : Module)
  : result Module :=
  match c with
  | Chain cs => Ok (Chain (firstn index cs ++ m :: skipn index cs))
  | _ => Err TypeError
  end.

Definition chain_append (m : Module) (c : Module) : result Module :=
  match c with
  | Chain cs => Ok (Chain (cs ++ [m]))
  | _ => Err TypeError
  end.

(** Modelled from the spec: the constructor of [GroupNorm]
    (fluxion/layers/norm.py is not part of the sources).  Group
    normalisation splits the channels into [num_groups] groups; the
    constructor is taken to refuse a channel count that the groups do
    not divide, which only narrows the statements below. *)
Definition GroupNorm_init (channels num_groups : nat) : result Module :=
  (r <- py_mod channels num_groups ;;
   if r =? 0
   then Ok (GroupNorm channels num_groups)
   else Err (ValueError "num_channels must be divisible by num_groups"))%res.

(* ---------------------------------------------------------------- *)
(** *** attentions.py: constructors *)

Section Constructors.

Local Open Scope result_scope.

(** [ScaledDotProductAttention.__init__]: stores its two arguments. *)
Definition ScaledDotProductAttention_init
    (num_heads : nat) (is_causal : option bool) : result Module :=
  Ok (ScaledDotProductAttention num_heads is_causal).

(** [Attention.__init__]. *)
Definition Attention (embedding_dim num_heads : nat)
    (key_embedding_dim value_embedding_dim : option nat)
    (use_bias : bool) (is_causal : option bool) : result Module :=
  r <- py_mod embedding_dim num_heads ;;
  if r =? 0
  then
    let key_embedding_dim := py_or key_embedding_dim embedding_dim in
    let value_embedding_dim := py_or value_embedding_dim embedding_dim in
    sdpa <- ScaledDotProductAttention_init num_heads is_causal ;;
    Ok (Chain
          [ Distribute
              [ Linear embedding_dim embedding_dim use_bias;
                Linear key_embedding_dim embedding_dim use_bias;
                Linear value_embedding_dim embedding_dim use_bias ];
            sdpa;
            Linear embedding_dim embedding_dim true ])
  else Err (AssertionError "embedding_dim must be divisible by num_heads").

(** [SelfAttention.__init__]. *)
Definition SelfAttention (embedding_dim num_heads : nat)
    (use_bias : bool) (is_causal : option bool) : result Module :=
  self <- Attention embedding_dim num_heads None None use_bias is_causal ;;
  chain_insert 0 (Parallel [Identity; Identity; Identity]) self.

(** [SelfAttention2d.__init__]. *)
Definition SelfAttention2d (channels num_heads : nat)
    (use_bias : bool) (is_causal : option bool) : result Module :=
  r <- py_mod channels num_heads ;;
  if r =? 0
  then
    self <- SelfAttention channels num_heads use_bias is_causal ;;
    self <- chain_insert 0 (Lambda Tensor2dToSequence) self ;;
    chain_append (Lambda SequenceToTensor2d) self
  else Err (AssertionError "channels must be divisible by num_heads").

(* ---------------------------------------------------------------- *)
(** *** cross_attention.py: constructors *)

(** The three residual branches of [CrossAttentionBlock], in the order
    of the source. *)
Definition self_attention_branch (embedding_dim num_heads : nat)
    (use_bias : bool) : result Module :=
  sa <- SelfAttention embedding_dim num_heads use_bias None ;;
  Ok (Chain [LayerNorm embedding_dim; sa]).

Definition conditioning_branch
    (embedding_dim context_embedding_dim : nat) (context_key : string)
    (num_heads : nat) (use_bias : bool) : result Module :=
  att <- Attention embedding_dim num_heads
           (Some context_embedding_dim) (Some context_embedding_dim)
           use_bias None ;;
  Ok (Chain
        [ LayerNorm embedding_dim;
          Parallel
            [ Identity;
              UseContext "cross_attention_block" context_key UseValue;
              UseContext "cross_attention_block" context_key UseValue ];
          att ]).

Definition feed_forward_branch (embedding_dim : nat) : Module :=
  Chain
    [ LayerNorm embedding_dim;
      Linear embedding_dim (2 * 4 * embedding_dim) true;
      GLU GeLU;
      Linear (4 * embedding_dim) embedding_dim true ].

(** [CrossAttentionBlock.__init__]. *)
Definition CrossAttentionBlock
    (embedding_dim context_embedding_dim : nat) (context_key : string)
    (num_heads : nat) (use_bias : bool) : result Module :=
  b1 <- self_attention_branch embedding_dim num_heads use_bias ;;
  b2 <- conditioning_branch embedding_dim context_embedding_dim
          context_key num_heads use_bias ;;
  Ok (Chain
        [ Sum [Identity; b1];
          Sum [Identity; b2];
          Sum [Identity; feed_forward_branch embedding_dim] ]).

(** [StatefulFlatten.__init__]. *)
Definition StatefulFlatten (context key : string) (start_dim end_dim : Z)
  : Module :=
  Chain
    [ SetContext context key (Some (PushSizes start_dim end_dim));
      Flatten start_dim end_dim ].

(** [f() for _ in range(n)], stopping at the first exception. *)
Fixpoint repeat_init {X} (n : nat) (f : result X) : result (list X) :=
  match n with
  | 0 => Ok []
  | S n' => x <- f ;; xs <- repeat_init n' f ;; Ok (x :: xs)
  end.

(** The in-projection of [CrossAttentionBlock2d]: the local
    [in_block] of its constructor, given the group norm. *)
Definition in_block (norm : Module) (channels : nat)
    (use_linear_projection : bool) : Module :=
  if use_linear_projection
  then Chain
         [ norm;
           StatefulFlatten "flatten" "sizes" 2 (-1);
           Transpose 1 2;
           Linear channels channels true ]
  else Chain
         [ norm;
           Conv2d channels channels 1;
           StatefulFlatten "flatten" "sizes" 2 (-1);
           Transpose 1 2 ].

(** The out-projection: the local [out_block] of the constructor. *)
Definition out_block (channels : nat) (use_linear_projection : bool)
  : Module :=
  if use_linear_projection
  then Chain
         [ Linear channels channels true;
           Transpose 1 2;
           Parallel [Identity; UseContext "flatten" "sizes" UsePop];
           Unflatten 2 ]
  else Chain
         [ Transpose 1 2;
           Parallel [Identity; UseContext "flatten" "sizes" UsePop];
           Unflatten 2;
           Conv2d channels channels 1 ].

(** [CrossAttentionBlock2d.__init__]. *)
Definition CrossAttentionBlock2d
    (channels context_embedding_dim : nat) (context_key : string)
    (num_attention_heads num_attention_layers num_groups : nat)
    (use_bias use_linear_projection : bool) : result Module :=
  r <- py_mod channels num_attention_heads ;;
  if r =? 0
  then
    norm <- GroupNorm_init channels num_groups ;;
    layers <- repeat_init num_attention_layers
                (CrossAttentionBlock channels context_embedding_dim
                   context_key num_attention_heads use_bias) ;;
    Ok (Sum
          [ Identity;
            Chain
              [ in_block norm channels use_linear_projection;
                Chain layers;
                out_block channels use_linear_projection ] ])
  else Err (AssertionError "in_channels must be divisible by num_attention_heads").

End Constructors.

(* ================================================================== *)
(** ** Forward semantics *)

Section Forward.

Context {A : Type} `{Numeric A}.

Local Open Scope forward_scope.

(* ---------------------------------------------------------------- *)
(** *** The context store *)

(** Modelled from the spec: [Module.use_context] (fluxion/layers/module.py
    is not part of the sources).  Returns the named context; a miss is
    a context-not-found error. *)
Definition use_context (context : string) : M A (dict (Value A)) :=
  fun st =>
    match dict_get context (contexts st) with
    | Some c => Done c st
    | None => Fail (ContextNotFound context "") st
    end.

(** Modelled from the spec: [Module.set_context] (fluxion/layers/module.py
    is not part of the sources).  Replaces the named context. *)
Definition set_context (context : string) (value : dict (Value A))
  : M A unit :=
  fun st => Done tt (mkState (dict_set context value (contexts st)) (trace st)).

(** Python slice bound: negative positions count from the end, and
    every position is clamped to the list. *)
Definition slice_bound (len : nat) (i : Z) : nat :=
  if (i <? 0)%Z
  then Z.to_nat (Z.max 0 (Z.of_nat len + i))
  else Nat.min (Z.to_nat i) len.

Definition py_slice_int {X} (start stop : Z) (l : list X) : list X :=
  py_slice (slice_bound (length l) start) (slice_bound (length l) stop) l.

(** The slice of [x.shape] taken by [StatefulFlatten.push]:
    [x.shape[slice(start_dim,
       end_dim + 1 if end_dim >= 0 else x.ndim + end_dim + 1)]]. *)
Definition pushed_size (start_dim end_dim : Z) (x : Tensor A) : list nat :=
  py_slice_int start_dim
    (if (0 <=? end_dim)%Z
     then end_dim + 1
     else Z.of_nat (rank x) + end_dim + 1)%Z
    (shape x).

(** [StatefulFlatten.push(sizes, x)]: [sizes.append] of that slice. *)
Definition push (start_dim end_dim : Z) (sizes : list (list nat))
    (x : Tensor A) : list (list nat) :=
  sizes ++ [pushed_size start_dim end_dim x].

(** Modelled from the spec: the [UseContext] layer (fluxion/layers/chain.py
    is not part of the sources).  It ignores its input and returns the
    value stored under [key], passed through the composed function; a
    missing context, a missing key or an unset ([None]) entry is a
    context-not-found error.  [x.pop()] removes the last element of
    the stored list itself. *)
Definition forward_UseContext (context key : string) (func : UseFunc)
  : M A (list (Value A)) :=
  c <- (fun st =>
          match dict_get context (contexts st) with
          | Some c => Done c st
          | None => Fail (ContextNotFound context key) st
          end) ;;
  match dict_get key c with
  | None | Some VNone => fail (ContextNotFound context key)
  | Some v =>
      match func with
      | UseValue => ret [v]
      | UsePop =>
          match v with
          | VSizes stack =>
              match rev stack with
              | [] => fail IndexError
              | top :: rest =>
                  set_context context (dict_set key (VSizes (rev rest)) c) ;;
                  emit (EvPop context key top) ;;
                  ret [VSize top]
              end
          | _ => fail TypeError
          end
      end
  end.

(** Modelled from the spec: the [SetContext] layer (fluxion/layers/chain.py
    is not part of the sources).  Without a callback it stores its input
    under [key]; with one, the callback updates the stored entry from
    the input.  The input is passed through unchanged. *)
Definition forward_SetContext (context key : string)
    (callback : option Callback) (x : Tensor A) : M A (list (Value A)) :=
  match callback with
  | None =>
      (fun st =>
         let c := match dict_get context (contexts st) with
                  | Some c => c
                  | None => []
                  end in
         set_context context (dict_set key (VTensor x) c) st) ;;
      ret [VTensor x]
  | Some (PushSizes start_dim end_dim) =>
      c <- use_context context ;;
      match dict_get key c with
      | Some (VSizes sizes) =>
          set_context context
            (dict_set key (VSizes (push start_dim end_dim sizes x)) c) ;;
          emit (EvPush context key (pushed_size start_dim end_dim x)) ;;
          ret [VTensor x]
      | Some _ => fail TypeError
      | None => fail (ContextNotFound context key)
      end
  end.

(* ---------------------------------------------------------------- *)
(** *** attentions.py: SelfAttention2d's reshape pair *)

(** [SelfAttention2d.init_context]. *)
Definition SelfAttention2d_init_context : dict (dict (Value A)) :=
  [("reshape", [("height", VNone); ("width", VNone)])].

(** [SelfAttention2d.tensor_2d_to_sequence]. *)
Definition tensor_2d_to_sequence (x : Tensor A) : M A (Tensor A) :=
  match skipn (rank x - 2) (shape x) with
  | [height; width] =>
      set_context "reshape" [("height", VInt height); ("width", VInt width)] ;;
      lift
        (match nth_error (shape x) 0, nth_error (shape x) 1 with
         | Some d0, Some d1 =>
             (r <- reshape [d0; d1; height * width] x ;; transpose 1 2 r)%res
         | _, _ => Err IndexError
         end)
  | _ => fail (ValueError "not enough values to unpack")
  end.

(** [SelfAttention2d.sequence_to_tensor_2d]. *)
Definition sequence_to_tensor_2d (x : Tensor A) : M A (Tensor A) :=
  c <- use_context "reshape" ;;
  match dict_values c with
  | [VInt height; VInt width] =>
      lift
        (xt <- transpose 1 2 x ;;
         match nth_error (shape x) 0, nth_error (shape x) 2 with
         | Some d0, Some d2 => reshape [d0; d2; height; width] xt
         | _, _ => Err IndexError
         end)%res
  | [_; _] => fail TypeError
  | _ => fail (ValueError "wrong number of values to unpack")
  end.

(* ---------------------------------------------------------------- *)
(** *** Leaf layers of the numeric collaborator *)

(** Modelled from the spec: [Linear] (fluxion/layers/linear.py is not
    part of the sources).  Affine map over the last axis:
    [(.., in) -> (.., out)]. *)
Definition forward_Linear (s : site) (in_features out_features : nat)
    (bias : bool) (x : Tensor A) : M A (Tensor A) :=
  if (0 <? rank x) && (last (shape x) 0 =? in_features)
  then
    emit (EvKernel "Linear" s) ;;
    let out := removelast (shape x) ++ [out_features] in
    ret (mkTensor out
           (tabulate (prod_list out)
              (linear_k s in_features out_features bias x)))
  else fail (RuntimeError "Linear: wrong number of input features").

(** Modelled from the spec: [LayerNorm] (fluxion/layers/norm.py is not
    part of the sources).  Normalisation over the last axis; the shape
    is kept. *)
Definition forward_LayerNorm (s : site) (normalized_shape : nat)
    (x : Tensor A) : M A (Tensor A) :=
  if (0 <? rank x) && (last (shape x) 0 =? normalized_shape)
  then
    emit (EvKernel "LayerNorm" s) ;;
    ret (mkTensor (shape x)
           (tabulate (numel x) (layer_norm_k s normalized_shape x)))
  else fail (RuntimeError "LayerNorm: wrong normalized shape").

(** Modelled from the spec: [GroupNorm].  Normalisation over groups of
    channels (axis 1); the shape is kept. *)
Definition forward_GroupNorm (s : site) (channels num_groups : nat)
    (x : Tensor A) : M A (Tensor A) :=
  match nth_error (shape x) 1 with
  | Some c =>
      if c =? channels
      then
        emit (EvKernel "GroupNorm" s) ;;
        ret (mkTensor (shape x)
               (tabulate (numel x) (group_norm_k s channels num_groups x)))
      else fail (RuntimeError "GroupNorm: wrong number of channels")
  | None => fail (RuntimeError "GroupNorm: no channel axis")
  end.

(** Modelled from the spec: [Conv2d] (fluxion/layers/conv.py is not
    part of the sources).  Convolution with unit stride and no padding:
    [(b, in, h, w) -> (b, out, h - k + 1, w - k + 1)]. *)
Definition forward_Conv2d (s : site) (in_channels out_channels kernel_size : nat)
    (x : Tensor A) : M A (Tensor A) :=
  match shape x with
  | [b; c; h; w] =>
      if (c =? in_channels) && (kernel_size <=? h) && (kernel_size <=? w)
      then
        emit (EvKernel "Conv2d" s) ;;
        let out := [b; out_channels; h - kernel_size + 1; w - kernel_size + 1] in
        ret (mkTensor out
               (tabulate (prod_list out)
                  (conv2d_k s in_channels out_channels kernel_size x)))
      else fail (RuntimeError "Conv2d: wrong input shape")
  | _ => fail (RuntimeError "Conv2d: expected a batch of feature maps")
  end.

(** Modelled from the spec: [GeLU] (fluxion/layers/activations.py is
    not part of the sources), an elementwise activation. *)
Definition forward_GeLU (s : site) (x : Tensor A) : M A (Tensor A) :=
  emit (EvKernel "GeLU" s) ;;
  ret (mkTensor (shape x) (map gelu (data x))).

(** Modelled from the spec: the halves of the gated linear unit, which
    splits its input in half along the feature axis ([which = 0] for
    the first half). *)
Definition half_chunk (which : nat) (x : Tensor A) : Tensor A :=
  let width := last (shape x) 0 in
  let half := width / 2 in
  let out := removelast (shape x) ++ [half] in
  mkTensor out
    (tabulate (prod_list out)
       (fun n => nth ((n / half) * width + which * half + n mod half)
                   (data x) zero)).

(** Modelled from the spec: the elementwise product of the gated
    linear unit. *)
Definition tensor_mul (a b : Tensor A) : result (Tensor A) :=
  if list_eq_dec Nat.eq_dec (shape a) (shape b)
  then Ok (mkTensor (shape a) (zip_with mul (data a) (data b)))
  else Err (RuntimeError "shapes differ").

(** Normalised axis of [Flatten]/[Unflatten]. *)
Definition norm_dim (ndim : nat) (d : Z) : result nat :=
  if (d <? 0)%Z
  then if (0 <=? Z.of_nat ndim + d)%Z
       then Ok (Z.to_nat (Z.of_nat ndim + d))
       else Err IndexError
  else if (d <? Z.of_nat ndim)%Z
       then Ok (Z.to_nat d)
       else Err IndexError.

(** Modelled from the spec: [Flatten] (fluxion/layers/basics.py is not
    part of the sources), [x.flatten(start_dim, end_dim)]: the axes
    from [start_dim] to [end_dim] collapse into one, the elements keep
    their order. *)
Definition flatten (start_dim end_dim : Z) (x : Tensor A)
  : result (Tensor A) :=
  (s <- norm_dim (rank x) start_dim ;;
   e <- norm_dim (rank x) end_dim ;;
   if s <=? e
   then Ok (mkTensor
              (firstn s (shape x)
               ++ [prod_list (py_slice s (e + 1) (shape x))]
               ++ skipn (e + 1) (shape x))
              (data x))
   else Err (RuntimeError "flatten: start_dim cannot come after end_dim"))%res.

(** Modelled from the spec: [Unflatten], [x.unflatten(dim, sizes)]:
    axis [dim] is restored to the axes [sizes], the elements keep their
    order. *)
Definition unflatten (dim : nat) (sizes : list nat) (x : Tensor A)
  : result (Tensor A) :=
  match nth_error (shape x) dim with
  | Some d =>
      if prod_list sizes =? d
      then Ok (mkTensor
                 (firstn dim (shape x) ++ sizes ++ skipn (dim + 1) (shape x))
                 (data x))
      else Err (RuntimeError "unflatten: sizes do not multiply to the axis")
  | None => Err IndexError
  end.

Definition forward_ScaledDotProductAttention (s : site) (num_heads : nat)
    (is_causal : option bool) (query key value : Tensor A) : M A (Tensor A) :=
  o <- lift (sdpa_forward num_heads is_causal query key value None) ;;
  emit (EvKernel "ScaledDotProductAttention" s) ;;
  ret o.

End Forward.

(* ---------------------------------------------------------------- *)
(** *** Combinators *)

Section Combinators.

Context {A : Type} `{Numeric A}.

Local Open Scope forward_scope.

(** The forward function of the children, at a site and on a tuple of
    inputs. *)
Variable fwd : Module -> site -> list (Value A) -> M A (list (Value A)).

(** Modelled from the spec: [Chain] (fluxion/layers/chain.py is not part
    of the sources).  The input tuple goes to the first child, each
    later child receives the previous child's output tuple, and the
    last output is the result.  Child [i] sits at site [s ++ [i]]. *)
Fixpoint chain_run (s : site) (i : nat) (children : list Module)
    (args : list (Value A)) : M A (list (Value A)) :=
  match children with
  | [] => ret args
  | c :: rest =>
      out <- fwd c (s ++ [i]) args ;;
      chain_run s (S i) rest out
  end.

(** Modelled from the spec: [Parallel].  Every child receives the same
    input tuple; the outputs are collected in child order. *)
Fixpoint parallel_run (s : site) (i : nat) (children : list Module)
    (args : list (Value A)) : M A (list (Value A)) :=
  match children with
  | [] => ret []
  | c :: rest =>
      out <- fwd c (s ++ [i]) args ;;
      outs <- parallel_run s (S i) rest args ;;
      ret (out ++ outs)
  end.

(** Modelled from the spec: [Distribute].  The input tuple has one
    element per child; child [i] receives element [i] only. *)
Fixpoint distribute_run (s : site) (i : nat) (children : list Module)
    (args : list (Value A)) : M A (list (Value A)) :=
  match children, args with
  | [], [] => ret []
  | c :: rest, a :: args' =>
      out <- fwd c (s ++ [i]) [a] ;;
      outs <- distribute_run s (S i) rest args' ;;
      ret (out ++ outs)
  | _, _ => fail TypeError
  end.

(** Modelled from the spec: [Sum].  Every branch consumes the same
    input tuple, in declared order; the outputs are accumulated by
    elementwise addition, left to right. *)
Fixpoint sum_run (s : site) (i : nat) (children : list Module)
    (args : list (Value A)) (acc : option (Tensor A))
  : M A (list (Value A)) :=
  match children with
  | [] =>
      ret [match acc with Some t => VTensor t | None => VNone end]
  | c :: rest =>
      out <- fwd c (s ++ [i]) args ;;
      match out with
      | [VTensor t] =>
          acc' <- lift (match acc with
                        | None => Ok t
                        | Some a => tensor_add a t
                        end) ;;
          sum_run s (S i) rest args (Some acc')
      | _ => fail TypeError
      end
  end.

End Combinators.

Section ForwardPass.

Context {A : Type} `{Numeric A}.

Local Open Scope forward_scope.

(** A layer of one tensor input and one tensor output. *)
Definition unary (f : Tensor A -> M A (Tensor A)) (args : list (Value A))
  : M A (list (Value A)) :=
  match args with
  | [VTensor x] => y <- f x ;; ret [VTensor y]
  | _ => fail TypeError
  end.

(** [module(args)] for a module at site [s] of the tree.  The cases of
    [ScaledDotProductAttention] and of the two [Lambda]s run the code
    of attentions.py; the other leaves and the four combinators are
    modelled from the spec ([Identity] hands its input on, the gated
    linear unit multiplies its first half by its activated second
    half). *)
Fixpoint forward (m : Module) (s : site) (args : list (Value A)) {struct m}
  : M A (list (Value A)) :=
  match m with
  | Identity =>
      match args with
      | [x] => ret [x]
      | _ => fail TypeError
      end
  | Linear i o b => unary (forward_Linear s i o b) args
  | LayerNorm n => unary (forward_LayerNorm s n) args
  | GroupNorm c g => unary (forward_GroupNorm s c g) args
  | Conv2d i o k => unary (forward_Conv2d s i o k) args
  | GeLU => unary (forward_GeLU s) args
  | GLU activation =>
      match args with
      | [VTensor x] =>
          if 0 <? rank x
          then
            if last (shape x) 0 mod 2 =? 0
            then
              gate <- forward activation (s ++ [0]) [VTensor (half_chunk 1 x)] ;;
              match gate with
              | [VTensor g] =>
                  y <- lift (tensor_mul (half_chunk 0 x) g) ;;
                  emit (EvKernel "GLU" s) ;;
                  ret [VTensor y]
              | _ => fail TypeError
              end
            else fail (AssertionError "Non-batch input dimension must be divisible by 2")
          else fail IndexError
      | _ => fail TypeError
      end
  | Flatten start_dim end_dim =>
      unary (fun x => lift (flatten start_dim end_dim x)) args
  | Unflatten dim =>
      match args with
      | [VTensor x; VSize sizes] =>
          y <- lift (unflatten dim sizes x) ;; ret [VTensor y]
      | _ => fail TypeError
      end
  | Transpose d0 d1 => unary (fun x => lift (transpose d0 d1 x)) args
  | ScaledDotProductAttention num_heads is_causal =>
      match args with
      | [VTensor q; VTensor k; VTensor v] =>
          y <- forward_ScaledDotProductAttention s num_heads is_causal q k v ;;
          ret [VTensor y]
      | _ => fail TypeError
      end
  | UseContext context key func => forward_UseContext context key func
  | SetContext context key callback =>
      match args with
      | [VTensor x] => forward_SetContext context key callback x
      | _ => fail TypeError
      end
  | Lambda Tensor2dToSequence => unary tensor_2d_to_sequence args
  | Lambda SequenceToTensor2d => unary sequence_to_tensor_2d args
  | Chain children => chain_run forward s 0 children args
  | Parallel children => parallel_run forward s 0 children args
  | Distribute children => distribute_run forward s 0 children args
  | Sum children => sum_run forward s 0 children args None
  end.

(** [CrossAttentionBlock2d.init_context]. *)
Definition CrossAttentionBlock2d_init_context : dict (dict (Value A)) :=
  [("flatten", [("sizes", VSizes [])])].

(** Modelled from the spec: the context store of one top-level forward
    invocation.  It is created fresh from the composite's schema, and
    holds the contexts the caller has set on the module. *)
Definition fresh_state (init user : dict (dict (Value A))) : State A :=
  mkState (fold_left (fun d kv => dict_set (fst kv) (snd kv) d) user init) [].

(** A top-level call [module(x)]. *)
Definition call (init user : dict (dict (Value A))) (m : Module) (x : Tensor A)
  : outcome A (list (Value A)) :=
  forward m [] [VTensor x] (fresh_state init user).

(** Structural accessors. *)
Definition children (m : Module) : list Module :=
  match m with
  | Chain cs | Parallel cs | Distribute cs | Sum cs => cs
  | _ => []
  end.

Definition linear_bias (m : Module) : option bool :=
  match m with
  | Linear _ _ bias => Some bias
  | _ => None
  end.

Definition linear_features (m : Module) : option (nat * nat) :=
  match m with
  | Linear i o _ => Some (i, o)
  | _ => None
  end.

(** Nothing is stored under the conditioning key of the
    "cross_attention_block" context. *)
Definition conditioning_unwritten (key : string) (st : State A) : Prop :=
  match dict_get "cross_attention_block" (contexts st) with
  | None => True
  | Some c => dict_get key c = None
  end.

(** How often a shape was pushed onto, or popped from, an entry. *)
Definition pushes (context key : string) (tr : list Event) : nat :=
  length (filter (fun ev => match ev with
                            | EvPush c k _ => String.eqb c context && String.eqb k key
                            | _ => false
                            end) tr).

Definition pops (context key : string) (tr : list Event) : nat :=
  length (filter (fun ev => match ev with
                            | EvPop c k _ => String.eqb c context && String.eqb k key
                            | _ => false
                            end) tr).

Definition is_kernel (ev : Event) : bool :=
  match ev with
  | EvKernel _ _ => true
  | _ => false
  end.

(** The pushes and pops of a trace, in order. *)
Definition context_events (tr : list Event) : list Event :=
  filter (fun ev => negb (is_kernel ev)) tr.

End ForwardPass.

(* ================================================================== *)
(** ** A concrete numeric collaborator, for examples *)

(** Integer elements.  A weighted layer sums its input and adds its
    position and a marker of its site; attention returns the value
    matrix shifted by the first query element. *)
Definition sum_Z (l : list Z) : Z := fold_right Z.add 0%Z l.

Definition toy_numeric : Numeric Z := {|
  zero := 0%Z;
  add := Z.add;
  mul := Z.mul;
  gelu := fun x => Z.max 0 x;
  linear_k := fun s i o b x n =>
    (sum_Z (data x) + Z.of_nat n + Z.of_nat (length s) + (if b then 1 else 0))%Z;
  layer_norm_k := fun s n x k => (nth k (data x) 0 - 1)%Z;
  group_norm_k := fun s c g x k => (nth k (data x) 0 + 1)%Z;
  conv2d_k := fun s i o k x n => (sum_Z (data x) - Z.of_nat n)%Z;
  attention_k := fun causal l s e ev q k v i j =>
    (nth 0 q 0 + nth 0 k 0 + nth (i mod s * ev + j) v 0
     + (if causal then 1 else 0))%Z
|}.

(** A network whose weights are all zero: every weighted layer
    produces zeros. *)
Definition zero_weights : Numeric Z := {|
  zero := 0%Z;
  add := Z.add;
  mul := Z.mul;
  gelu := fun x => Z.max 0 x;
  linear_k := fun s i o b x n => 0%Z;
  layer_norm_k := fun s n x k => nth k (data x) 0%Z;
  group_norm_k := fun s c g x k => nth k (data x) 0%Z;
  conv2d_k := fun s i o k x n => 0%Z;
  attention_k := fun causal l s e ev q k v i j => nth (i mod s * ev + j) v 0%Z
|}.

(** Small inputs on which the statements below are evaluated. *)
Definition example_sequence : Tensor Z :=
  mkTensor [1; 2; 4] [1; 2; 3; 4; 5; 6; 7; 8]%Z.

Definition example_map : Tensor Z :=
  mkTensor [1; 4; 2; 2] (map Z.of_nat (seq 0 16)).

Definition example_conditioning : Tensor Z :=
  mkTensor [1; 3; 3] (map Z.of_nat (seq 0 9)).

Definition example_block_conv : Module :=
  Eval vm_compute in
    match CrossAttentionBlock2d 4 3 "text" 2 1 2 true false with
    | Ok m => m
    | Err _ => Identity
    end.

Definition example_block_linear : Module :=
  Eval vm_compute in
    match CrossAttentionBlock2d 4 3 "text" 2 3 2 true true with
    | Ok m => m
    | Err _ => Identity
    end.

Definition example_conditioning_branch : Module :=
  Eval vm_compute in
    match conditioning_branch 4 3 "text" 2 true with
    | Ok m => m
    | Err _ => Identity
    end.

Definition example_self_attention_branch : Module :=
  Eval vm_compute in
    match self_attention_branch 4 2 true with
    | Ok m => m
    | Err _ => Identity
    end.

Definition example_cross_attention_block : Module :=
  Eval vm_compute in
    match CrossAttentionBlock 4 3 "text" 2 true with
    | Ok m => m
    | Err _ => Identity
    end.

Definition example_state : State Z :=
  mkState [("cross_attention_block", [("text", VTensor example_conditioning)])] [].

Definition final_state {X} (o : outcome Z X) : State Z :=
  match o with
  | Done _ st => st
  | Fail _ st => st
  end.

(** The states a zero-weight block goes through on [example_sequence]. *)
Definition example_state1 : State Z :=
  Eval vm_compute in
    final_state (forward (H := zero_weights) example_self_attention_branch
                   [0; 1] [VTensor example_sequence] example_state).

Definition example_state2 : State Z :=
  Eval vm_compute in
    final_state (forward (H := zero_weights) example_conditioning_branch
                   [1; 1] [VTensor example_sequence] example_state1).

Definition example_state3 : State Z :=
  Eval vm_compute in
    final_state (forward (H := zero_weights) (feed_forward_branch 4)
                   [2; 1] [VTensor example_sequence] example_state2).

(** Further inputs: a value sequence of three positions, a tensor that
    is already split into two heads, a tall feature map of one channel,
    the two attention chains, and the results of splitting
    [example_sequence] and of flattening [example_map]. *)
Definition example_value : Tensor Z :=
  mkTensor [1; 3; 4] (map Z.of_nat (seq 0 12)).

Definition example_heads : Tensor Z :=
  mkTensor [1; 2; 2; 2] (map Z.of_nat (seq 0 8)).

Definition example_map_tall : Tensor Z :=
  mkTensor [1; 1; 4; 1] (map Z.of_nat (seq 0 4)).

Definition example_attention : Module :=
  Eval vm_compute in
    match Attention 4 2 (Some 3) None true None with
    | Ok m => m
    | Err _ => Identity
    end.

Definition example_self_attention : Module :=
  Eval vm_compute in
    match SelfAttention 4 2 true None with
    | Ok m => m
    | Err _ => Identity
    end.

Definition example_split : Tensor Z :=
  Eval vm_compute in
    match split_to_multi_head (H := toy_numeric) 2 example_sequence with
    | Ok y => y
    | Err _ => example_sequence
    end.

Definition example_map_sequence : Tensor Z :=
  Eval vm_compute in
    match tensor_2d_to_sequence (H := toy_numeric) example_map
            (mkState SelfAttention2d_init_context []) with
    | Done y _ => y
    | Fail _ _ => example_map
    end.

(** A store in which an enclosing module has already pushed a shape. *)
Definition example_nested_state : State Z :=
  mkState
    [ ("flatten", [("sizes", VSizes [[7; 7]])]);
      ("cross_attention_block", [("text", VTensor example_conditioning)]) ]
    [].

(* ================================================================== *)
(** ** Vocabulary of the specifications *)

Section Predicates.

Context {A : Type} `{Numeric A}.

(** [m] started in [st] returns normally, with a result and a final
    state that satisfy [Q]. *)
Definition runs_to {X} (m : M A X) (st : State A)
    (Q : X -> State A -> Prop) : Prop :=
  exists x st', m st = Done x st' /\ Q x st'.

(** Nothing but numeric kernels ran between [st] and [st']: the context
    store is the same. *)
Definition quiet (st st' : State A) : Prop :=
  contexts st' = contexts st
  /\ exists evs, trace st' = trace st ++ evs /\ forallb is_kernel evs = true.

(** The result is one tensor of shape [s], and only kernels ran. *)
Definition yields (s : list nat) (st : State A)
  : list (Value A) -> State A -> Prop :=
  fun vs st' => exists y, vs = [VTensor y] /\ shape y = s /\ quiet st st'.

(** Three tensors of the given shapes, and only kernels ran. *)
Definition yields3 (s1 s2 s3 : list nat) (st : State A)
  : list (Value A) -> State A -> Prop :=
  fun vs st' =>
    exists a b c, vs = [VTensor a; VTensor b; VTensor c]
                  /\ shape a = s1 /\ shape b = s2 /\ shape c = s3
                  /\ quiet st st'.

(** The conditioning tensor is stored under the block's context key. *)
Definition has_conditioning (key : string) (cond : Tensor A) (st : State A)
  : Prop :=
  exists c, dict_get "cross_attention_block" (contexts st) = Some c
            /\ dict_get key c = Some (VTensor cond).

(** Between [st] and [st'] the context store saw exactly the pushes
    and pops [evs], in this order. *)
Definition logged (st st' : State A) (evs : list Event) : Prop :=
  exists tr, trace st' = trace st ++ tr /\ context_events tr = evs.

(** The state after the shape [size] was pushed. *)
Definition pushed (st : State A) (f : dict (Value A)) (stack : list (list nat))
    (size : list nat) : State A :=
  mkState
    (dict_set "flatten" (dict_set "sizes" (VSizes (stack ++ [size])) f)
       (contexts st))
    (trace st ++ [EvPush "flatten" "sizes" size]).

End Predicates.

(* ================================================================== *)
(** * Properties *)

(** ** Row-major index arithmetic *)

Lemma prod_list_app (s s' : list nat) :
  prod_list (s ++ s') = prod_list s * prod_list s'.
Proof.
  induction s as [|d s IH]; simpl.
  - lia.
  - rewrite IH. lia.
Qed.

Lemma ravel_lt (s idx : list nat) :
  Forall2 lt idx s -> ravel s idx < prod_list s.
Proof.
  intros F. induction F as [|i d idx s Hi F IH]; simpl.
  - lia.
  - nia.
Qed.

Lemma unravel_range (s : list nat) : forall n,
  n < prod_list s -> Forall2 lt (unravel s n) s.
Proof.
  induction s as [|d s IH]; intros n Hn; simpl in *.
  - constructor.
  - assert (Hp : prod_list s <> 0) by (intros E; rewrite E in Hn; lia).
    constructor.
    + apply Nat.Div0.div_lt_upper_bound. lia.
    + apply IH. apply Nat.mod_upper_bound. exact Hp.
Qed.

Lemma ravel_unravel (s : list nat) : forall n,
  n < prod_list s -> ravel s (unravel s n) = n.
Proof.
  induction s as [|d s IH]; intros n Hn; simpl in *.
  - lia.
  - assert (Hp : prod_list s <> 0) by (intros E; rewrite E in Hn; lia).
    rewrite IH by (apply Nat.mod_upper_bound; exact Hp).
    pose proof (Nat.div_mod_eq n (prod_list s)). lia.
Qed.

Lemma unravel_ravel (s idx : list nat) :
  Forall2 lt idx s -> unravel s (ravel s idx) = idx.
Proof.
  intros F. induction F as [|i d idx s Hi F IH]; simpl.
  - reflexivity.
  - pose proof (ravel_lt _ _ F) as Hr.
    assert (Hp : prod_list s <> 0) by lia.
    assert (Hq : (i * prod_list s + ravel s idx) / prod_list s = i).
    { rewrite Nat.div_add_l by exact Hp.
      rewrite Nat.div_small by exact Hr. lia. }
    assert (Hm : (i * prod_list s + ravel s idx) mod prod_list s
                 = ravel s idx).
    { replace (i * prod_list s + ravel s idx)
        with (ravel s idx + i * prod_list s) by lia.
      rewrite Nat.Div0.mod_add. apply Nat.mod_small. exact Hr. }
    rewrite Hq, Hm, IH. reflexivity.
Qed.

Lemma length_tabulate {X} (n : nat) (f : nat -> X) :
  length (tabulate n f) = n.
Proof. unfold tabulate. rewrite length_map, length_seq. reflexivity. Qed.

Lemma nth_tabulate {X} (n : nat) (f : nat -> X) (d : X) (i : nat) :
  i < n -> nth i (tabulate n f) d = f i.
Proof.
  intros Hi. unfold tabulate.
  rewrite (nth_indep _ d (f 0)) by (rewrite length_map, length_seq; exact Hi).
  rewrite map_nth, seq_nth by exact Hi. reflexivity.
Qed.

Lemma tabulate_eq_list {X} (n : nat) (f : nat -> X) (l : list X) (d : X) :
  length l = n ->
  (forall i, i < n -> f i = nth i l d) ->
  tabulate n f = l.
Proof.
  intros Hl Hf. apply (nth_ext _ _ d d).
  - rewrite length_tabulate. lia.
  - intros i Hi. rewrite length_tabulate in Hi.
    rewrite nth_tabulate by exact Hi. apply Hf. exact Hi.
Qed.

(** ** Transposing axes 1 and 2 *)

Lemma swap12_shape {X} (a b c : X) (r : list X) :
  swap_dims 1 2 (a :: b :: c :: r) = a :: c :: b :: r.
Proof. reflexivity. Qed.

Section TensorFacts.

Context {A : Type} `{Numeric A}.

Lemma transpose12_shape (t t' : Tensor A) (a b c : nat) (r : list nat) :
  shape t = a :: b :: c :: r ->
  transpose 1 2 t = Ok t' ->
  shape t' = a :: c :: b :: r /\ wf t'.
Proof.
  intros Hs. unfold transpose, rank. rewrite Hs.
  cbn [length Nat.ltb Nat.leb andb]. rewrite swap12_shape.
  intros E. inversion E; subst; clear E. cbn [shape]. split; [reflexivity|].
  unfold wf, numel. cbn [shape data]. apply length_tabulate.
Qed.

Lemma transpose12_twice (t : Tensor A) (a b c : nat) (r : list nat) :
  wf t ->
  shape t = a :: b :: c :: r ->
  exists t', transpose 1 2 t = Ok t' /\ transpose 1 2 t' = Ok t.
Proof.
  intros Hwf Hs. destruct t as [s d]. cbn in Hs. subst s.
  unfold wf, numel in Hwf. cbn [shape data] in Hwf.
  eexists. split.
  - unfold transpose, rank. cbn [shape length Nat.ltb Nat.leb andb].
    rewrite swap12_shape. reflexivity.
  - unfold transpose, rank. cbn [shape length Nat.ltb Nat.leb andb].
    rewrite swap12_shape. f_equal. f_equal.
    apply tabulate_eq_list with (d := zero); [exact Hwf|].
    intros n Hn. unfold get. cbn [shape data].
    pose proof (unravel_range (a :: b :: c :: r) n Hn) as Hr.
    assert (Hr' : Forall2 lt (swap_dims 1 2 (unravel (a :: b :: c :: r) n))
                    (a :: c :: b :: r)).
    { inversion Hr as [|i a' idx1 s1 Hi F1 E1 E2]; subst.
      inversion F1 as [|k c' idx2 s2 Hk F2]; subst.
      inversion F2 as [|j b' idx3 s3 Hj F3]; subst.
      cbn. repeat constructor; assumption. }
    rewrite nth_tabulate by (apply ravel_lt; exact Hr').
    rewrite unravel_ravel by exact Hr'.
        assert (Hinv : swap_dims 1 2 (swap_dims 1 2 (unravel (a :: b :: c :: r) n))
                   = unravel (a :: b :: c :: r) n).
    { inversion Hr as [|i a' idx1 s1 Hi F1 E1 E2]; subst.
      inversion F1 as [|k c' idx2 s2 Hk F2]; subst.
      inversion F2 as [|j b' idx3 s3 Hj F3]; subst.
      reflexivity. }
    rewrite Hinv. rewrite ravel_unravel by exact Hn. reflexivity.
Qed.

End TensorFacts.

Section HeadSplit.

Context {A : Type} `{Numeric A}.

Lemma py_mod_zero (e h : nat) :
  py_mod e h = Ok 0 -> h <> 0 /\ h * (e / h) = e.
Proof.
  unfold py_mod. destruct (Nat.eqb_spec h 0) as [->|Hh]; [discriminate|].
  intros E. assert (Em : e mod h = 0) by congruence. clear E.
  split; [exact Hh|].
  pose proof (Nat.div_mod_eq e h). lia.
Qed.

Lemma split_to_multi_head_ok (num_heads : nat) (x : Tensor A) (b s e : nat) :
  shape x = [b; s; e] ->
  py_mod e num_heads = Ok 0 ->
  exists y,
    split_to_multi_head num_heads x = Ok y
    /\ transpose 1 2 (mkTensor [b; s; num_heads; e / num_heads] (data x)) = Ok y
    /\ shape y = [b; num_heads; s; e / num_heads].
Proof.
  intros Hs Hm. destruct (py_mod_zero _ _ Hm) as [Hh He].
  unfold split_to_multi_head. rewrite Hs, Hm. cbn [rbind Nat.eqb].
  unfold py_floordiv. rewrite (proj2 (Nat.eqb_neq _ _) Hh). cbn [rbind].
  unfold reshape, numel. rewrite Hs.
  replace (prod_list [b; s; num_heads; e / num_heads] =? prod_list [b; s; e])
    with true
    by (symmetry; apply Nat.eqb_eq; cbn [prod_list fold_right]; nia).
  cbn [rbind].
  eexists. split; [|split].
  - unfold transpose, rank. cbn [shape length Nat.ltb Nat.leb andb].
    rewrite swap12_shape. reflexivity.
  - unfold transpose, rank. cbn [shape length Nat.ltb Nat.leb andb].
    rewrite swap12_shape. reflexivity.
  - reflexivity.
Qed.

(** C1.  For a well-formed tensor [x] of shape [(b, s, e)] and a head
    count dividing [e], [split_to_multi_head] succeeds and
    [merge_multi_head] of its result is a tensor of shape [(b, s, e)]
    that equals [x] element for element. *)
Theorem merge_split_round_trip (num_heads : nat) (x : Tensor A) (b s e : nat) :
  wf x ->
  shape x = [b; s; e] ->
  py_mod e num_heads = Ok 0 ->
  exists y z,
    split_to_multi_head num_heads x = Ok y
    /\ merge_multi_head num_heads y = Ok z
    /\ shape z = [b; s; e]
    /\ z = x.
Proof.
  intros Hwf Hs Hm.
  destruct (split_to_multi_head_ok _ x _ _ _ Hs Hm) as (y & Hsplit & Hy & Hshape).
  destruct (py_mod_zero _ _ Hm) as [Hh He].
  set (r := mkTensor [b; s; num_heads; e / num_heads] (data x)) in *.
  assert (Hr : wf r).
  { unfold wf, numel, r in *. cbn [shape data]. rewrite Hwf, Hs.
    cbn [prod_list fold_right]. nia. }
  destruct (transpose12_twice r _ _ _ _ Hr eq_refl) as (y' & Hy' & Hback).
  assert (y' = y) by congruence. subst y'.
  exists y, x. split; [exact Hsplit|].
  assert (Hmerge : merge_multi_head num_heads y = Ok x).
  { unfold merge_multi_head. rewrite Hback, Hshape. cbn [rbind nth_error last].
    unfold reshape, numel, r. cbn [shape data].
    replace (prod_list [b; s; num_heads * (e / num_heads)]
             =? prod_list [b; s; num_heads; e / num_heads]) with true
      by (symmetry; apply Nat.eqb_eq; cbn [prod_list fold_right]; nia).
    rewrite He. destruct x as [sx dx]. cbn in Hs. subst sx. reflexivity. }
  repeat split; [exact Hmerge | exact Hs].
Qed.

End HeadSplit.

(** ** Reasoning about forward computations *)

Section Runs.

Context {A : Type} `{Numeric A}.

Lemma runs_to_ret {X} (x : X) (st : State A) (Q : X -> State A -> Prop) :
  Q x st -> runs_to (ret x) st Q.
Proof. intros HQ. exists x, st. split; [reflexivity | exact HQ]. Qed.

Lemma runs_to_seq {X Y} (m : M A X) (k : X -> M A Y) (st : State A)
    (P : X -> State A -> Prop) (Q : Y -> State A -> Prop) :
  runs_to m st P ->
  (forall x st', P x st' -> runs_to (k x) st' Q) ->
  runs_to (bind m k) st Q.
Proof.
  intros (x & st' & Hm & HP) Hk.
  destruct (Hk x st' HP) as (y & st'' & Hy & HQ).
  exists y, st''. split; [|exact HQ].
  unfold bind. rewrite Hm. exact Hy.
Qed.

Lemma bind_done {X Y} (m : M A X) (k : X -> M A Y) (st st1 : State A) (x : X) :
  m st = Done x st1 -> bind m k st = k x st1.
Proof. intros Hm. unfold bind. rewrite Hm. reflexivity. Qed.

Lemma runs_to_bind_done {X Y} (m : M A X) (k : X -> M A Y) (st st1 : State A)
    (x : X) (Q : Y -> State A -> Prop) :
  m st = Done x st1 ->
  runs_to (k x) st1 Q ->
  runs_to (bind m k) st Q.
Proof.
  intros Hm (y & st2 & Hk & HQ). exists y, st2. split; [|exact HQ].
  unfold bind. rewrite Hm. exact Hk.
Qed.

Lemma runs_to_weaken {X} (m : M A X) (st : State A)
    (P Q : X -> State A -> Prop) :
  runs_to m st P -> (forall x st', P x st' -> Q x st') -> runs_to m st Q.
Proof.
  intros (x & st' & Hm & HP) HPQ. exists x, st'. split; [exact Hm|].
  apply HPQ. exact HP.
Qed.

Ltac run_step L :=
  eapply runs_to_seq; [ L | ].

Lemma quiet_refl (st : State A) : quiet st st.
Proof.
  split; [reflexivity|]. exists []. rewrite app_nil_r. split; reflexivity.
Qed.

Lemma quiet_trans (st1 st2 st3 : State A) :
  quiet st1 st2 -> quiet st2 st3 -> quiet st1 st3.
Proof.
  intros [Hc1 (e1 & Ht1 & Hk1)] [Hc2 (e2 & Ht2 & Hk2)].
  split; [congruence|]. exists (e1 ++ e2). split.
  - rewrite Ht2, Ht1, app_assoc. reflexivity.
  - rewrite forallb_app, Hk1, Hk2. reflexivity.
Qed.

Lemma quiet_kernel (st : State A) (layer : string) (s : site) :
  quiet st (mkState (contexts st) (trace st ++ [EvKernel layer s])).
Proof.
  split; [reflexivity|]. exists [EvKernel layer s]. split; reflexivity.
Qed.

Lemma last_snoc {X} (l : list X) (x d : X) : last (l ++ [x]) d = x.
Proof. apply last_last. Qed.

Lemma rank_snoc (x : Tensor A) (pre : list nat) (n : nat) :
  shape x = pre ++ [n] -> (0 <? rank x) = true.
Proof.
  intros Hs. unfold rank. rewrite Hs, length_app.
  apply Nat.ltb_lt. cbn [length]. lia.
Qed.

Lemma Linear_spec (s : site) (i o : nat) (b : bool) (x : Tensor A)
    (pre : list nat) (st : State A) :
  shape x = pre ++ [i] ->
  runs_to (forward (Linear i o b) s [VTensor x]) st (yields (pre ++ [o]) st).
Proof.
  intros Hs. cbn [forward unary]. unfold forward_Linear.
  rewrite (rank_snoc x pre i Hs), Hs, last_snoc, Nat.eqb_refl, removelast_last.
  cbn [andb].
  eexists. eexists. split; [reflexivity|].
  eexists. split; [reflexivity|]. split; [reflexivity | apply quiet_kernel].
Qed.

Lemma LayerNorm_spec (s : site) (n : nat) (x : Tensor A)
    (pre : list nat) (st : State A) :
  shape x = pre ++ [n] ->
  runs_to (forward (LayerNorm n) s [VTensor x]) st (yields (pre ++ [n]) st).
Proof.
  intros Hs. cbn [forward unary]. unfold forward_LayerNorm.
  rewrite (rank_snoc x pre n Hs), Hs, last_snoc, Nat.eqb_refl.
  cbn [andb].
  eexists. eexists. split; [reflexivity|].
  eexists. split; [reflexivity|]. split; [reflexivity | apply quiet_kernel].
Qed.

Lemma GroupNorm_spec (s : site) (c g : nat) (x : Tensor A)
    (b : nat) (rest : list nat) (st : State A) :
  shape x = b :: c :: rest ->
  runs_to (forward (GroupNorm c g) s [VTensor x]) st (yields (b :: c :: rest) st).
Proof.
  intros Hs. cbn [forward unary]. unfold forward_GroupNorm.
  rewrite Hs. cbn [nth_error]. rewrite Nat.eqb_refl.
  eexists. eexists. split; [reflexivity|].
  eexists. split; [reflexivity|]. split; [reflexivity | apply quiet_kernel].
Qed.

Lemma Conv2d_1x1_spec (s : site) (c o : nat) (x : Tensor A)
    (b h w : nat) (st : State A) :
  shape x = [b; c; h; w] ->
  0 < h -> 0 < w ->
  runs_to (forward (Conv2d c o 1) s [VTensor x]) st (yields [b; o; h; w] st).
Proof.
  intros Hs Hh Hw. cbn [forward unary]. unfold forward_Conv2d.
  rewrite Hs, Nat.eqb_refl.
  rewrite (proj2 (Nat.leb_le 1 h)) by lia.
  rewrite (proj2 (Nat.leb_le 1 w)) by lia.
  cbn [andb].
  eexists. eexists. split; [reflexivity|].
  eexists. split; [reflexivity|]. split; [|apply quiet_kernel].
  cbn [shape]. f_equal. f_equal. f_equal; [lia|]. f_equal. lia.
Qed.


Lemma firstn_batch (bs : list nat) (l e : nat) :
  firstn (length (bs ++ [l; e]) - 2) (bs ++ [l; e]) = bs
  /\ skipn (length (bs ++ [l; e]) - 2) (bs ++ [l; e]) = [l; e].
Proof.
  rewrite length_app. cbn [length].
  replace (length bs + 2 - 2) with (length bs + 0) by lia.
  rewrite firstn_app_2, Nat.add_0_r, skipn_app, skipn_all, Nat.sub_diag.
  cbn [firstn skipn app]. rewrite app_nil_r. split; reflexivity.
Qed.

Lemma scaled_dot_product_attention_eq (q k v : Tensor A) (c : bool)
    (bs : list nat) (l s e ev : nat) :
  shape q = bs ++ [l; e] ->
  shape k = bs ++ [s; e] ->
  shape v = bs ++ [s; ev] ->
  scaled_dot_product_attention q k v c
  = Ok (mkTensor (bs ++ [l; ev])
          (tabulate (prod_list bs * (l * ev))
             (fun n =>
                attention_k c l s e ev
                  (chunk (l * e) (n / (l * ev)) (data q))
                  (chunk (s * e) (n / (l * ev)) (data k))
                  (chunk (s * ev) (n / (l * ev)) (data v))
                  (n mod (l * ev) / ev) (n mod (l * ev) mod ev)))).
Proof.
  intros Hq Hk Hv. unfold scaled_dot_product_attention, rank.
  rewrite Hq, Hk, Hv.
  destruct (firstn_batch bs l e) as [-> ->].
  destruct (firstn_batch bs s e) as [-> ->].
  destruct (firstn_batch bs s ev) as [-> ->].
  rewrite !Nat.eqb_refl.
  destruct (list_eq_dec Nat.eq_dec bs bs) as [_|N]; [|contradiction].
  reflexivity.
Qed.

Lemma merge_multi_head_shape (h : nat) (o : Tensor A) (b l d : nat) :
  shape o = [b; h; l; d] ->
  exists z, merge_multi_head h o = Ok z /\ shape z = [b; l; h * d].
Proof.
  intros Ho. unfold merge_multi_head, transpose, rank. rewrite Ho.
  cbn [length Nat.ltb Nat.leb andb rbind nth_error last].
  rewrite swap12_shape. unfold reshape, numel. cbn [shape data].
  replace (prod_list [b; l; h * d] =? prod_list [b; l; h; d]) with true
    by (symmetry; apply Nat.eqb_eq; cbn [prod_list fold_right]; nia).
  eexists. split; reflexivity.
Qed.

Lemma sdpa_forward_shape (h : nat) (ic call : option bool)
    (q k v : Tensor A) (b l s e : nat) :
  shape q = [b; l; e] ->
  shape k = [b; s; e] ->
  shape v = [b; s; e] ->
  py_mod e h = Ok 0 ->
  exists o, sdpa_forward h ic q k v call = Ok o /\ shape o = [b; l; e].
Proof.
  intros Hq Hk Hv Hm.
  destruct (split_to_multi_head_ok h q _ _ _ Hq Hm) as (q' & Eq & _ & Sq).
  destruct (split_to_multi_head_ok h k _ _ _ Hk Hm) as (k' & Ek & _ & Sk).
  destruct (split_to_multi_head_ok h v _ _ _ Hv Hm) as (v' & Ev & _ & Sv).
  unfold sdpa_forward. rewrite Eq, Ek, Ev. cbn [rbind].
  rewrite (scaled_dot_product_attention_eq q' k' v' _ [b; h] l s (e / h) (e / h))
    by assumption.
  cbn [rbind].
  destruct (py_mod_zero _ _ Hm) as [_ He].
  match goal with
  | |- context [merge_multi_head h ?o] =>
      destruct (merge_multi_head_shape h o b l (e / h) eq_refl) as (z & Ez & Sz)
  end.
  exists z. split; [exact Ez|]. rewrite Sz, He. reflexivity.
Qed.


Lemma Attention_inv (e h : nat) (kd vd : option nat) (bias : bool)
    (ic : option bool) (m : Module) :
  Attention e h kd vd bias ic = Ok m ->
  py_mod e h = Ok 0
  /\ m = Chain
           [ Distribute
               [ Linear e e bias;
                 Linear (py_or kd e) e bias;
                 Linear (py_or vd e) e bias ];
             ScaledDotProductAttention h ic;
             Linear e e true ].
Proof.
  unfold Attention. destruct (py_mod e h) as [r|err]; cbn [rbind]; [|discriminate].
  destruct (Nat.eqb_spec r 0) as [->|_]; [|discriminate].
  unfold ScaledDotProductAttention_init. cbn [rbind].
  intros E. inversion E. split; reflexivity.
Qed.

Lemma ScaledDotProductAttention_spec (s : site) (h : nat) (ic : option bool)
    (q k v : Tensor A) (b l sk e : nat) (st : State A) :
  shape q = [b; l; e] ->
  shape k = [b; sk; e] ->
  shape v = [b; sk; e] ->
  py_mod e h = Ok 0 ->
  runs_to (forward (ScaledDotProductAttention h ic) s
             [VTensor q; VTensor k; VTensor v]) st
    (yields [b; l; e] st).
Proof.
  intros Hq Hk Hv Hm. cbn [forward]. unfold forward_ScaledDotProductAttention.
  destruct (sdpa_forward_shape h ic None q k v b l sk e Hq Hk Hv Hm)
    as (o & Eo & So).
  rewrite Eo.
  eexists. eexists. split; [reflexivity|].
  eexists. split; [reflexivity|]. split; [exact So | apply quiet_kernel].
Qed.



Lemma forward_Chain (cs : list Module) (s : site) (args : list (Value A)) :
  forward (Chain cs) s args = chain_run forward s 0 cs args.
Proof. reflexivity. Qed.

Lemma forward_Parallel (cs : list Module) (s : site) (args : list (Value A)) :
  forward (Parallel cs) s args = parallel_run forward s 0 cs args.
Proof. reflexivity. Qed.

Lemma forward_Distribute (cs : list Module) (s : site) (args : list (Value A)) :
  forward (Distribute cs) s args = distribute_run forward s 0 cs args.
Proof. reflexivity. Qed.

Lemma forward_Sum (cs : list Module) (s : site) (args : list (Value A)) :
  forward (Sum cs) s args = sum_run forward s 0 cs args None.
Proof. reflexivity. Qed.

Lemma Distribute_Linear_spec (s : site) (e kd vd : nat) (bias : bool)
    (q k v : Tensor A) (b l sk : nat) (st : State A) :
  shape q = [b; l; e] ->
  shape k = [b; sk; kd] ->
  shape v = [b; sk; vd] ->
  runs_to
    (forward (Distribute [Linear e e bias; Linear kd e bias; Linear vd e bias])
       s [VTensor q; VTensor k; VTensor v]) st
    (yields3 [b; l; e] [b; sk; e] [b; sk; e] st).
Proof.
  intros Hq Hk Hv.
  rewrite forward_Distribute. cbn [distribute_run].
  destruct (Linear_spec (s ++ [0]) e e bias q [b; l] st Hq)
    as (vq & st1 & E1 & q' & -> & Sq & Q1).
  destruct (Linear_spec (s ++ [1]) kd e bias k [b; sk] st1 Hk)
    as (vk & st2 & E2 & k' & -> & Sk & Q2).
  destruct (Linear_spec (s ++ [2]) vd e bias v [b; sk] st2 Hv)
    as (vv & st3 & E3 & v' & -> & Sv & Q3).
  exists [VTensor q'; VTensor k'; VTensor v'], st3. split.
  - unfold bind. rewrite E1. cbv beta match.
    rewrite E2. cbv beta match. rewrite E3. reflexivity.
  - exists q', k', v'. repeat split; try assumption.
    + rewrite (proj1 Q3), (proj1 Q2), (proj1 Q1). reflexivity.
    + apply (quiet_trans _ _ _ Q1 (quiet_trans _ _ _ Q2 Q3)).
Qed.

Lemma Attention_run_spec (s : site) (i : nat) (e h kd vd : nat) (bias : bool)
    (ic : option bool) (q k v : Tensor A) (b l sk : nat) (st : State A) :
  py_mod e h = Ok 0 ->
  shape q = [b; l; e] ->
  shape k = [b; sk; kd] ->
  shape v = [b; sk; vd] ->
  runs_to
    (chain_run forward s i
       [ Distribute [Linear e e bias; Linear kd e bias; Linear vd e bias];
         ScaledDotProductAttention h ic;
         Linear e e true ]
       [VTensor q; VTensor k; VTensor v]) st
    (yields [b; l; e] st).
Proof.
  intros Hm Hq Hk Hv.
  cbn [chain_run].
  run_step ltac:(apply (Distribute_Linear_spec _ e kd vd bias q k v b l sk);
                 assumption).
  intros vs st1 (q' & k' & v' & -> & Sq & Sk & Sv & Q1).
  run_step ltac:(apply (ScaledDotProductAttention_spec _ h ic q' k' v' b l sk e);
                 assumption).
  intros vo st2 (o & -> & So & Q2).
  run_step ltac:(apply (Linear_spec _ e e true o [b; l]); exact So).
  intros vz st3 (z & -> & Sz & Q3). apply runs_to_ret.
  exists z. repeat split; try assumption.
  - rewrite (proj1 Q3), (proj1 Q2), (proj1 Q1). reflexivity.
  - apply (quiet_trans _ _ _ Q1 (quiet_trans _ _ _ Q2 Q3)).
Qed.

Lemma Identity3_spec (s : site) (x : Tensor A) (st : State A) :
  forward (Parallel [Identity; Identity; Identity]) s [VTensor x] st
  = Done [VTensor x; VTensor x; VTensor x] st.
Proof. reflexivity. Qed.

Lemma SelfAttention_inv (e h : nat) (bias : bool) (ic : option bool)
    (m : Module) :
  SelfAttention e h bias ic = Ok m ->
  py_mod e h = Ok 0
  /\ m = Chain
           [ Parallel [Identity; Identity; Identity];
             Distribute [Linear e e bias; Linear e e bias; Linear e e bias];
             ScaledDotProductAttention h ic;
             Linear e e true ].
Proof.
  unfold SelfAttention.
  destruct (Attention e h None None bias ic) as [a|err] eqn:Ea;
    cbn [rbind]; [|discriminate].
  destruct (Attention_inv _ _ _ _ _ _ _ Ea) as [Hm ->].
  cbn. intros E. inversion E. split; [exact Hm | reflexivity].
Qed.

Lemma SelfAttention_chain_spec (s : site) (e h : nat) (bias : bool)
    (ic : option bool) (x : Tensor A) (b l : nat) (st : State A) :
  py_mod e h = Ok 0 ->
  shape x = [b; l; e] ->
  runs_to
    (forward
       (Chain
          [ Parallel [Identity; Identity; Identity];
            Distribute [Linear e e bias; Linear e e bias; Linear e e bias];
            ScaledDotProductAttention h ic;
            Linear e e true ])
       s [VTensor x]) st
    (yields [b; l; e] st).
Proof.
  intros Hm Hx.
  rewrite forward_Chain.
  change (chain_run forward s 0 (?c :: ?cs) ?args)
    with (bind (forward c (s ++ [0]) args) (chain_run forward s 1 cs)).
  eapply runs_to_bind_done; [apply Identity3_spec|].
  apply (Attention_run_spec s 1 e h e e bias ic x x x b l l st Hm Hx Hx Hx).
Qed.

Lemma has_conditioning_quiet (key : string) (cond : Tensor A)
    (st st' : State A) :
  quiet st st' -> has_conditioning key cond st -> has_conditioning key cond st'.
Proof.
  intros [Hc _] (c & H1 & H2). exists c. rewrite Hc. auto.
Qed.

Lemma UseContext_conditioning (s : site) (key : string)
    (args : list (Value A)) (cond : Tensor A) (st : State A) :
  has_conditioning key cond st ->
  forward (UseContext "cross_attention_block" key UseValue) s args st
  = Done [VTensor cond] st.
Proof.
  intros (c & H1 & H2). cbn [forward].
  unfold forward_UseContext, bind. rewrite H1, H2. reflexivity.
Qed.

Lemma conditioning_Parallel_spec (s : site) (key : string)
    (x cond : Tensor A) (st : State A) :
  has_conditioning key cond st ->
  forward
    (Parallel [Identity;
               UseContext "cross_attention_block" key UseValue;
               UseContext "cross_attention_block" key UseValue])
    s [VTensor x] st
  = Done [VTensor x; VTensor cond; VTensor cond] st.
Proof.
  intros Hc.
  rewrite forward_Parallel. cbn [parallel_run].
  unfold bind.
  change (forward Identity (s ++ [0]) [VTensor x] st) with (Done [VTensor x] st).
  cbv beta match.
  rewrite (UseContext_conditioning _ key _ cond st Hc). cbv beta match.
  rewrite (UseContext_conditioning _ key _ cond st Hc). reflexivity.
Qed.

(** Branch 1: layer norm, then self-attention. *)
Lemma self_attention_branch_spec (s : site) (e h : nat) (bias : bool)
    (m : Module) (x : Tensor A) (b l : nat) (st : State A) :
  self_attention_branch e h bias = Ok m ->
  shape x = [b; l; e] ->
  runs_to (forward m s [VTensor x]) st (yields [b; l; e] st).
Proof.
  unfold self_attention_branch.
  destruct (SelfAttention e h bias None) as [sa|err] eqn:Esa;
    cbn [rbind]; [|discriminate].
  destruct (SelfAttention_inv _ _ _ _ _ Esa) as [Hm ->].
  intros E Hx. inversion E; subst m; clear E.
  rewrite forward_Chain. cbn [chain_run].
  run_step ltac:(apply (LayerNorm_spec _ e x [b; l]); exact Hx).
  intros vn st1 (n & -> & Sn & Q1).
  run_step ltac:(apply (SelfAttention_chain_spec _ e h bias None n b l);
                 assumption).
  intros vo st2 (o & -> & So & Q2). apply runs_to_ret.
  exists o. repeat split; try assumption.
  - rewrite (proj1 Q2), (proj1 Q1). reflexivity.
  - apply (quiet_trans _ _ _ Q1 Q2).
Qed.

(** Branch 2: layer norm, the conditioning tensor read twice, attention. *)
Lemma conditioning_branch_spec (s : site) (e ce : nat) (key : string)
    (h : nat) (bias : bool) (m : Module) (x cond : Tensor A)
    (b l sk : nat) (st : State A) :
  conditioning_branch e ce key h bias = Ok m ->
  shape x = [b; l; e] ->
  has_conditioning key cond st ->
  shape cond = [b; sk; py_or (Some ce) e] ->
  runs_to (forward m s [VTensor x]) st (yields [b; l; e] st).
Proof.
  unfold conditioning_branch.
  destruct (Attention e h (Some ce) (Some ce) bias None) as [att|err] eqn:Ea;
    cbn [rbind]; [|discriminate].
  destruct (Attention_inv _ _ _ _ _ _ _ Ea) as [Hm ->].
  intros E Hx Hc Hcond. inversion E; subst m; clear E.
  rewrite forward_Chain. cbn [chain_run].
  run_step ltac:(apply (LayerNorm_spec _ e x [b; l]); exact Hx).
  intros vn st1 (n & -> & Sn & Q1).
  eapply runs_to_bind_done.
  { apply conditioning_Parallel_spec.
    apply (has_conditioning_quiet _ _ _ _ Q1 Hc). }
  run_step ltac:(
    rewrite forward_Chain;
    apply (Attention_run_spec _ 0 e h _ _ bias None n cond cond b l sk);
    assumption).
  intros vo st2 (o & -> & So & Q2). apply runs_to_ret.
  exists o. repeat split; try assumption.
  - rewrite (proj1 Q2), (proj1 Q1). reflexivity.
  - apply (quiet_trans _ _ _ Q1 Q2).
Qed.


Lemma half_chunk_shape (which : nat) (x : Tensor A) (pre : list nat) (k : nat) :
  shape x = pre ++ [2 * k] ->
  shape (half_chunk which x) = pre ++ [k].
Proof.
  intros Hx. unfold half_chunk. cbn [shape].
  rewrite Hx, last_snoc, removelast_last.
  rewrite (Nat.mul_comm 2 k), Nat.div_mul by lia. reflexivity.
Qed.

Lemma GLU_GeLU_spec (s : site) (x : Tensor A) (pre : list nat) (k : nat)
    (st : State A) :
  shape x = pre ++ [2 * k] ->
  runs_to (forward (GLU GeLU) s [VTensor x]) st (yields (pre ++ [k]) st).
Proof.
  intros Hx. cbn [forward unary].
  rewrite (rank_snoc x pre (2 * k) Hx).
  replace (last (shape x) 0 mod 2 =? 0) with true.
  2:{ rewrite Hx, last_snoc, (Nat.mul_comm 2 k), Nat.Div0.mod_mul. reflexivity. }
  unfold forward_GeLU, bind, emit, ret. cbv beta match.
  unfold tensor_mul. cbn [shape].
  destruct (list_eq_dec Nat.eq_dec (shape (half_chunk 0 x))
              (shape (half_chunk 1 x))) as [Heq|Hne].
  - cbn [lift ret]. eexists. eexists. split; [reflexivity|].
    eexists. split; [reflexivity|]. cbn [shape]. split.
    + apply half_chunk_shape. exact Hx.
    + split; [reflexivity|]. cbn [trace].
      exists [EvKernel "GeLU" (s ++ [0]); EvKernel "GLU" s].
      rewrite <- app_assoc. split; reflexivity.
  - exfalso. apply Hne.
    rewrite (half_chunk_shape 0 x pre k Hx), (half_chunk_shape 1 x pre k Hx).
    reflexivity.
Qed.

(** Branch 3: layer norm, expansion, gated activation, projection. *)
Lemma feed_forward_branch_spec (s : site) (e : nat) (x : Tensor A)
    (b l : nat) (st : State A) :
  shape x = [b; l; e] ->
  runs_to (forward (feed_forward_branch e) s [VTensor x]) st
    (yields [b; l; e] st).
Proof.
  intros Hx. unfold feed_forward_branch.
  rewrite forward_Chain. cbn [chain_run].
  run_step ltac:(apply (LayerNorm_spec _ e x [b; l]); exact Hx).
  intros vn st1 (n & -> & Sn & Q1).
  run_step ltac:(apply (Linear_spec _ e (2 * 4 * e) true n [b; l]); exact Sn).
  intros vu st2 (u & -> & Su & Q2).
  run_step ltac:(apply (GLU_GeLU_spec _ u [b; l] (4 * e));
                 rewrite Su; f_equal; f_equal; lia).
  intros vg st3 (g & -> & Sg & Q3).
  run_step ltac:(apply (Linear_spec _ (4 * e) e true g [b; l]); exact Sg).
  intros vo st4 (o & -> & So & Q4). apply runs_to_ret.
  exists o. repeat split; try assumption.
  - rewrite (proj1 Q4), (proj1 Q3), (proj1 Q2), (proj1 Q1). reflexivity.
  - apply (quiet_trans _ _ _ Q1
             (quiet_trans _ _ _ Q2 (quiet_trans _ _ _ Q3 Q4))).
Qed.

(** A residual connection keeps the shape of its input, and leaves
    the state as its branch left it. *)
Lemma residual_run (s : site) (branch : Module) (x : Tensor A)
    (st : State A) (R : State A -> Prop) :
  runs_to (forward branch (s ++ [1]) [VTensor x]) st
    (fun vs st' => exists y, vs = [VTensor y] /\ shape y = shape x /\ R st') ->
  runs_to (forward (Sum [Identity; branch]) s [VTensor x]) st
    (fun vs st' => exists y, vs = [VTensor y] /\ shape y = shape x /\ R st').
Proof.
  intros (vy & st1 & E & y & -> & Sy & HR).
  rewrite forward_Sum. cbn [sum_run].
  eapply runs_to_bind_done; [reflexivity|].
  cbn [lift].
  eapply runs_to_bind_done; [reflexivity|].
  eapply runs_to_bind_done; [exact E|].
  unfold tensor_add.
  destruct (list_eq_dec Nat.eq_dec (shape x) (shape y)) as [_|Hne];
    [|congruence].
  cbn [lift].
  eapply runs_to_bind_done; [reflexivity|].
  apply runs_to_ret. eexists. split; [reflexivity|].
  split; [reflexivity | exact HR].
Qed.

Lemma residual_spec (s : site) (branch : Module) (x : Tensor A)
    (st : State A) :
  runs_to (forward branch (s ++ [1]) [VTensor x]) st (yields (shape x) st) ->
  runs_to (forward (Sum [Identity; branch]) s [VTensor x]) st
    (yields (shape x) st).
Proof. apply residual_run. Qed.

Lemma CrossAttentionBlock_spec (s : site) (e ce : nat) (key : string)
    (h : nat) (bias : bool) (m : Module) (x cond : Tensor A)
    (b l sk : nat) (st : State A) :
  CrossAttentionBlock e ce key h bias = Ok m ->
  shape x = [b; l; e] ->
  has_conditioning key cond st ->
  shape cond = [b; sk; py_or (Some ce) e] ->
  runs_to (forward m s [VTensor x]) st (yields [b; l; e] st).
Proof.
  unfold CrossAttentionBlock.
  destruct (self_attention_branch e h bias) as [b1|err] eqn:E1;
    cbn [rbind]; [|discriminate].
  destruct (conditioning_branch e ce key h bias) as [b2|err] eqn:E2;
    cbn [rbind]; [|discriminate].
  intros E Hx Hc Hcond. inversion E; subst m; clear E.
  rewrite forward_Chain. cbn [chain_run].
  run_step ltac:(apply residual_spec; rewrite Hx;
                 apply (self_attention_branch_spec _ e h bias b1 x b l);
                 assumption).
  intros v1 st1 (y1 & -> & S1 & Q1).
  assert (S1' : shape y1 = [b; l; e]) by (rewrite S1; exact Hx).
  run_step ltac:(apply residual_spec; rewrite S1';
                 apply (conditioning_branch_spec _ e ce key h bias b2 y1 cond b l sk);
                 [assumption | assumption
                 | apply (has_conditioning_quiet _ _ _ _ Q1 Hc) | assumption]).
  intros v2 st2 (y2 & -> & S2 & Q2).
  assert (S2' : shape y2 = [b; l; e]) by (rewrite S2; exact S1').
  run_step ltac:(apply residual_spec; rewrite S2';
                 apply (feed_forward_branch_spec _ e y2 b l); assumption).
  intros v3 st3 (y3 & -> & S3 & Q3). apply runs_to_ret.
  exists y3. repeat split.
  - rewrite S3. exact S2'.
  - rewrite (proj1 Q3), (proj1 Q2), (proj1 Q1). reflexivity.
  - apply (quiet_trans _ _ _ Q1 (quiet_trans _ _ _ Q2 Q3)).
Qed.


Lemma repeat_init_inv {X} (n : nat) (f : result X) (xs : list X) :
  repeat_init n f = Ok xs ->
  length xs = n /\ Forall (fun x => f = Ok x) xs.
Proof.
  revert xs. induction n as [|n IH]; intros xs; cbn [repeat_init].
  - intros E. inversion E. split; [reflexivity | constructor].
  - destruct f as [x|err] eqn:Ef; cbn [rbind]; [|discriminate].
    destruct (repeat_init n (Ok x)) as [xs'|err]; cbn [rbind]; [|discriminate].
    intros E. inversion E; subst xs; clear E.
    destruct (IH xs' eq_refl) as [Hl Hall].
    split; [cbn; lia | constructor; [reflexivity | exact Hall]].
Qed.

Lemma layers_run_spec (e ce : nat) (key : string) (h : nat) (bias : bool)
    (cond : Tensor A) (b l sk : nat) (layers : list Module) :
  Forall (fun m => CrossAttentionBlock e ce key h bias = Ok m) layers ->
  shape cond = [b; sk; py_or (Some ce) e] ->
  forall (s : site) (i : nat) (x : Tensor A) (st : State A),
    shape x = [b; l; e] ->
    has_conditioning key cond st ->
    runs_to (chain_run forward s i layers [VTensor x]) st (yields [b; l; e] st).
Proof.
  intros Hall Hcond. induction Hall as [|m layers Hm Hall IH];
    intros s i x st Hx Hc; cbn [chain_run].
  - apply runs_to_ret. exists x. split; [reflexivity|].
    split; [exact Hx | apply quiet_refl].
  - run_step ltac:(apply (CrossAttentionBlock_spec _ e ce key h bias m x cond b l sk);
                   assumption).
    intros v1 st1 (y & -> & Sy & Q1).
    eapply runs_to_weaken.
    + apply IH; [exact Sy | apply (has_conditioning_quiet _ _ _ _ Q1 Hc)].
    + intros vs st2 (z & -> & Sz & Q2). exists z. split; [reflexivity|].
      split; [exact Sz | apply (quiet_trans _ _ _ Q1 Q2)].
Qed.

(** *** The dictionary of contexts *)

Lemma dict_get_set_eq {V} (k : string) (v : V) (d : dict V) :
  dict_get k (dict_set k v d) = Some v.
Proof.
  induction d as [|[k' v'] d IH]; cbn.
  - rewrite String.eqb_refl. reflexivity.
  - destruct (String.eqb k k') eqn:E; cbn.
    + rewrite String.eqb_refl. reflexivity.
    + rewrite E. exact IH.
Qed.

Lemma dict_get_set_ne {V} (k k' : string) (v : V) (d : dict V) :
  String.eqb k k' = false ->
  dict_get k (dict_set k' v d) = dict_get k d.
Proof.
  intros Hne. induction d as [|[k0 v0] d IH]; cbn.
  - rewrite Hne. reflexivity.
  - destruct (String.eqb k' k0) eqn:E; cbn.
    + apply String.eqb_eq in E. subst k0. rewrite Hne. reflexivity.
    + destruct (String.eqb k k0); [reflexivity | exact IH].
Qed.

Lemma dict_set_set {V} (k : string) (v v' : V) (d : dict V) :
  dict_set k v (dict_set k v' d) = dict_set k v d.
Proof.
  induction d as [|[k0 v0] d IH]; cbn.
  - rewrite String.eqb_refl. reflexivity.
  - destruct (String.eqb k k0) eqn:E; cbn.
    + rewrite String.eqb_refl. reflexivity.
    + rewrite E, IH. reflexivity.
Qed.

Lemma dict_set_get {V} (k : string) (v : V) (d : dict V) :
  dict_get k d = Some v -> dict_set k v d = d.
Proof.
  induction d as [|[k0 v0] d IH]; cbn.
  - discriminate.
  - destruct (String.eqb k k0) eqn:E.
    + apply String.eqb_eq in E. subst k0. intros E'. inversion E'. reflexivity.
    + intros Hd. rewrite (IH Hd). reflexivity.
Qed.


(** *** Counting pushes and pops *)

Lemma context_events_app (a b : list Event) :
  context_events (a ++ b) = context_events a ++ context_events b.
Proof. apply filter_app. Qed.

Lemma context_events_kernels (tr : list Event) :
  forallb is_kernel tr = true -> context_events tr = [].
Proof.
  induction tr as [|ev tr IH]; cbn [forallb context_events filter].
  - reflexivity.
  - intros Hk. apply andb_true_iff in Hk. destruct Hk as [Hev Hk].
    rewrite Hev. cbn [negb]. apply IH. exact Hk.
Qed.

Lemma pushes_context_events (c k : string) (tr : list Event) :
  pushes c k (context_events tr) = pushes c k tr.
Proof.
  unfold pushes. induction tr as [|ev tr IH]; [reflexivity|].
  cbn [context_events filter]. fold (context_events tr).
  destruct ev as [layer at_site|c' k' size|c' k' size]; cbn [is_kernel negb filter].
  - exact IH.
  - destruct (String.eqb c' c && String.eqb k' k); cbn [length];
      rewrite IH; reflexivity.
  - exact IH.
Qed.

Lemma pops_context_events (c k : string) (tr : list Event) :
  pops c k (context_events tr) = pops c k tr.
Proof.
  unfold pops. induction tr as [|ev tr IH]; [reflexivity|].
  cbn [context_events filter]. fold (context_events tr).
  destruct ev as [layer at_site|c' k' size|c' k' size]; cbn [is_kernel negb filter].
  - exact IH.
  - exact IH.
  - destruct (String.eqb c' c && String.eqb k' k); cbn [length];
      rewrite IH; reflexivity.
Qed.

Lemma logged_quiet (st st' : State A) : quiet st st' -> logged st st' [].
Proof.
  intros [_ (tr & Ht & Hk)]. exists tr. split; [exact Ht|].
  apply context_events_kernels. exact Hk.
Qed.

Lemma logged_trans (st1 st2 st3 : State A) (e1 e2 : list Event) :
  logged st1 st2 e1 -> logged st2 st3 e2 -> logged st1 st3 (e1 ++ e2).
Proof.
  intros (t1 & T1 & E1) (t2 & T2 & E2).
  exists (t1 ++ t2). rewrite T2, T1, app_assoc, context_events_app, E1, E2.
  split; reflexivity.
Qed.

(** *** Flattening and unflattening through the shape stack *)

Lemma pushed_size_2d (x : Tensor A) (b c h w : nat) :
  shape x = [b; c; h; w] -> pushed_size 2 (-1) x = [h; w].
Proof. intros Hx. unfold pushed_size, rank. rewrite Hx. reflexivity. Qed.

Lemma flatten_2d (x : Tensor A) (b c h w : nat) :
  shape x = [b; c; h; w] ->
  flatten 2 (-1) x = Ok (mkTensor [b; c; prod_list [h; w]] (data x)).
Proof. intros Hx. unfold flatten, rank. rewrite Hx. reflexivity. Qed.

Lemma StatefulFlatten_spec (s : site) (x : Tensor A) (b c h w : nat)
    (f : dict (Value A)) (stack : list (list nat)) (st : State A) :
  shape x = [b; c; h; w] ->
  dict_get "flatten" (contexts st) = Some f ->
  dict_get "sizes" f = Some (VSizes stack) ->
  forward (StatefulFlatten "flatten" "sizes" 2 (-1)) s [VTensor x] st
  = Done [VTensor (mkTensor [b; c; prod_list [h; w]] (data x))]
      (pushed st f stack [h; w]).
Proof.
  intros Hx Hf Hs. unfold StatefulFlatten.
  rewrite forward_Chain. cbn [chain_run forward unary].
  unfold forward_SetContext, use_context, bind.
  rewrite Hf. cbv beta match. rewrite Hs. unfold push.
  rewrite (pushed_size_2d x b c h w Hx).
  unfold set_context, emit, ret. cbv beta match.
  cbn [unary contexts trace]. unfold bind.
  rewrite (flatten_2d x b c h w Hx).
  reflexivity.
Qed.

Lemma pop_spec (s : site) (args : list (Value A))
    (f : dict (Value A)) (stack : list (list nat)) (size : list nat)
    (st : State A) :
  dict_get "flatten" (contexts st) = Some f ->
  dict_get "sizes" f = Some (VSizes (stack ++ [size])) ->
  forward (UseContext "flatten" "sizes" UsePop) s args st
  = Done [VSize size]
      (mkState
         (dict_set "flatten" (dict_set "sizes" (VSizes stack) f) (contexts st))
         (trace st ++ [EvPop "flatten" "sizes" size])).
Proof.
  intros Hf Hs. cbn [forward]. unfold forward_UseContext, bind.
  rewrite Hf, Hs, rev_app_distr. cbn [rev app].
  rewrite rev_involutive. reflexivity.
Qed.

Lemma unflatten_2d (x : Tensor A) (b c h w : nat) :
  shape x = [b; c; prod_list [h; w]] ->
  unflatten 2 [h; w] x = Ok (mkTensor [b; c; h; w] (data x)).
Proof.
  intros Hx. unfold unflatten. rewrite Hx. cbn [nth_error].
  rewrite Nat.eqb_refl. reflexivity.
Qed.

Lemma Transpose12_spec (s : site) (x : Tensor A) (a b c : nat) (st : State A) :
  shape x = [a; b; c] ->
  runs_to (forward (Transpose 1 2) s [VTensor x]) st (yields [a; c; b] st).
Proof.
  intros Hx. cbn [forward unary]. unfold transpose, rank. rewrite Hx.
  cbn [length Nat.ltb Nat.leb andb lift]. rewrite swap12_shape.
  eexists. eexists. split; [reflexivity|].
  eexists. split; [reflexivity|]. split; [reflexivity | apply quiet_refl].
Qed.


Lemma in_block_spec (s : site) (c g : nat) (lin : bool) (x : Tensor A)
    (b h w : nat) (f : dict (Value A)) (stack : list (list nat))
    (st : State A) :
  shape x = [b; c; h; w] ->
  0 < h -> 0 < w ->
  dict_get "flatten" (contexts st) = Some f ->
  dict_get "sizes" f = Some (VSizes stack) ->
  runs_to (forward (in_block (GroupNorm c g) c lin) s [VTensor x]) st
    (fun vs st' =>
       exists y, vs = [VTensor y]
                 /\ shape y = [b; prod_list [h; w]; c]
                 /\ contexts st'
                    = dict_set "flatten"
                        (dict_set "sizes" (VSizes (stack ++ [[h; w]])) f)
                        (contexts st)
                 /\ logged st st' [EvPush "flatten" "sizes" [h; w]]).
Proof.
  intros Hx Hh Hw Hf Hs.
  assert (Cpush : forall st1,
            logged st1 (pushed st1 f stack [h; w])
              [EvPush "flatten" "sizes" [h; w]]).
  { intros st1. exists [EvPush "flatten" "sizes" [h; w]].
    split; reflexivity. }
  destruct lin; unfold in_block; rewrite forward_Chain; cbn [chain_run].
  - run_step ltac:(apply (GroupNorm_spec _ c g x b [h; w]); exact Hx).
    intros v1 st1 (y1 & -> & S1 & Q1).
    eapply runs_to_bind_done.
    { apply (StatefulFlatten_spec _ y1 b c h w f stack st1 S1).
      - rewrite (proj1 Q1). exact Hf.
      - exact Hs. }
    run_step ltac:(apply (Transpose12_spec _ _ b c (prod_list [h; w]));
                   reflexivity).
    intros v2 st2 (y2 & -> & S2 & Q2).
    run_step ltac:(apply (Linear_spec _ c c true y2 [b; prod_list [h; w]]);
                   exact S2).
    intros v3 st3 (y3 & -> & S3 & Q3). apply runs_to_ret.
    exists y3. split; [reflexivity|]. split; [exact S3|]. split.
    + rewrite (proj1 Q3), (proj1 Q2). cbn [pushed contexts].
      rewrite (proj1 Q1). reflexivity.
    + apply (logged_trans _ _ _ [] _ (logged_quiet _ _ Q1)).
      rewrite <- (app_nil_r [EvPush "flatten" "sizes" [h; w]]).
      apply (logged_trans _ _ _ _ [] (Cpush st1)).
      apply logged_quiet. apply (quiet_trans _ _ _ Q2 Q3).
  - run_step ltac:(apply (GroupNorm_spec _ c g x b [h; w]); exact Hx).
    intros v1 st1 (y1 & -> & S1 & Q1).
    run_step ltac:(apply (Conv2d_1x1_spec _ c c y1 b h w); assumption).
    intros v2 st2 (y2 & -> & S2 & Q2).
    eapply runs_to_bind_done.
    { apply (StatefulFlatten_spec _ y2 b c h w f stack st2 S2).
      - rewrite (proj1 Q2), (proj1 Q1). exact Hf.
      - exact Hs. }
    run_step ltac:(apply (Transpose12_spec _ _ b c (prod_list [h; w]));
                   reflexivity).
    intros v3 st3 (y3 & -> & S3 & Q3). apply runs_to_ret.
    exists y3. split; [reflexivity|]. split; [exact S3|]. split.
    + rewrite (proj1 Q3). cbn [pushed contexts].
      rewrite (proj1 Q2), (proj1 Q1). reflexivity.
    + apply (logged_trans _ _ _ [] _
               (logged_quiet _ _ (quiet_trans _ _ _ Q1 Q2))).
      rewrite <- (app_nil_r [EvPush "flatten" "sizes" [h; w]]).
      apply (logged_trans _ _ _ _ [] (Cpush st2)).
      apply logged_quiet. exact Q3.
Qed.

Lemma Parallel_pop_spec (s : site) (x : Tensor A)
    (f : dict (Value A)) (stack : list (list nat)) (size : list nat)
    (st : State A) :
  dict_get "flatten" (contexts st) = Some f ->
  dict_get "sizes" f = Some (VSizes (stack ++ [size])) ->
  forward (Parallel [Identity; UseContext "flatten" "sizes" UsePop])
    s [VTensor x] st
  = Done [VTensor x; VSize size]
      (mkState
         (dict_set "flatten" (dict_set "sizes" (VSizes stack) f) (contexts st))
         (trace st ++ [EvPop "flatten" "sizes" size])).
Proof.
  intros Hf Hs.
  rewrite forward_Parallel. cbn [parallel_run].
  unfold bind.
  change (forward Identity (s ++ [0]) [VTensor x] st)
    with (Done [VTensor x] st).
  cbv beta match.
  rewrite (pop_spec _ _ f stack size st Hf Hs).
  reflexivity.
Qed.

Lemma Unflatten_spec (s : site) (x : Tensor A) (b c h w : nat) (st : State A) :
  shape x = [b; c; prod_list [h; w]] ->
  forward (Unflatten 2) s [VTensor x; VSize [h; w]] st
  = Done [VTensor (mkTensor [b; c; h; w] (data x))] st.
Proof.
  intros Hx. cbn [forward]. unfold bind.
  rewrite (unflatten_2d x b c h w Hx). reflexivity.
Qed.

Lemma out_block_spec (s : site) (c : nat) (lin : bool) (x : Tensor A)
    (b h w : nat) (f : dict (Value A)) (stack : list (list nat))
    (st : State A) :
  shape x = [b; prod_list [h; w]; c] ->
  0 < h -> 0 < w ->
  dict_get "flatten" (contexts st) = Some f ->
  dict_get "sizes" f = Some (VSizes (stack ++ [[h; w]])) ->
  runs_to (forward (out_block c lin) s [VTensor x]) st
    (fun vs st' =>
       exists y, vs = [VTensor y]
                 /\ shape y = [b; c; h; w]
                 /\ contexts st'
                    = dict_set "flatten" (dict_set "sizes" (VSizes stack) f)
                        (contexts st)
                 /\ logged st st' [EvPop "flatten" "sizes" [h; w]]).
Proof.
  intros Hx Hh Hw Hf Hs.
  assert (Cpop : forall st1 : State A,
            logged st1
              (mkState
                 (dict_set "flatten" (dict_set "sizes" (VSizes stack) f)
                    (contexts st1))
                 (trace st1 ++ [EvPop "flatten" "sizes" [h; w]]))
              [EvPop "flatten" "sizes" [h; w]]).
  { intros st1. exists [EvPop "flatten" "sizes" [h; w]].
    split; reflexivity. }
  destruct lin; unfold out_block; rewrite forward_Chain; cbn [chain_run].
  - run_step ltac:(apply (Linear_spec _ c c true x [b; prod_list [h; w]]);
                   exact Hx).
    intros v1 st1 (y1 & -> & S1 & Q1).
    run_step ltac:(apply (Transpose12_spec _ y1 b (prod_list [h; w]) c);
                   exact S1).
    intros v2 st2 (y2 & -> & S2 & Q2).
    eapply runs_to_bind_done.
    { apply (Parallel_pop_spec _ y2 f stack [h; w] st2).
      - rewrite (proj1 Q2), (proj1 Q1). exact Hf.
      - exact Hs. }
    eapply runs_to_bind_done.
    { apply (Unflatten_spec _ y2 b c h w). exact S2. }
    apply runs_to_ret.
    eexists. split; [reflexivity|]. split; [reflexivity|]. split.
    + cbn [contexts]. rewrite (proj1 Q2), (proj1 Q1). reflexivity.
    + apply (logged_trans _ _ _ [] _
               (logged_quiet _ _ (quiet_trans _ _ _ Q1 Q2))).
      apply Cpop.
  - run_step ltac:(apply (Transpose12_spec _ x b (prod_list [h; w]) c);
                   exact Hx).
    intros v1 st1 (y1 & -> & S1 & Q1).
    eapply runs_to_bind_done.
    { apply (Parallel_pop_spec _ y1 f stack [h; w] st1).
      - rewrite (proj1 Q1). exact Hf.
      - exact Hs. }
    eapply runs_to_bind_done.
    { apply (Unflatten_spec _ y1 b c h w). exact S1. }
    run_step ltac:(apply (Conv2d_1x1_spec _ c c _ b h w);
                   [reflexivity | assumption | assumption]).
    intros v2 st2 (y2 & -> & S2 & Q2). apply runs_to_ret.
    exists y2. split; [reflexivity|]. split; [exact S2|]. split.
    + rewrite (proj1 Q2). cbn [contexts]. rewrite (proj1 Q1). reflexivity.
    + apply (logged_trans _ _ _ [] _ (logged_quiet _ _ Q1)).
      rewrite <- (app_nil_r [EvPop "flatten" "sizes" [h; w]]).
      apply (logged_trans _ _ _ _ [] (Cpop st1)).
      apply logged_quiet. exact Q2.
Qed.


Lemma CrossAttentionBlock2d_inv (c ce : nat) (key : string) (h n g : nat)
    (bias lin : bool) (blk : Module) :
  CrossAttentionBlock2d c ce key h n g bias lin = Ok blk ->
  exists layers,
    length layers = n
    /\ Forall (fun m => CrossAttentionBlock c ce key h bias = Ok m) layers
    /\ blk = Sum [ Identity;
                   Chain [ in_block (GroupNorm c g) c lin;
                           Chain layers;
                           out_block c lin ] ].
Proof.
  unfold CrossAttentionBlock2d.
  destruct (py_mod c h) as [r|err]; cbn [rbind]; [|discriminate].
  destruct (r =? 0); [|discriminate].
  unfold GroupNorm_init.
  destruct (py_mod c g) as [r'|err]; cbn [rbind]; [|discriminate].
  destruct (r' =? 0); [|discriminate]. cbn [rbind].
  destruct (repeat_init n (CrossAttentionBlock c ce key h bias))
    as [layers|err] eqn:El; cbn [rbind]; [|discriminate].
  intros E. inversion E; subst blk; clear E.
  destruct (repeat_init_inv _ _ _ El) as [Hl Hall].
  exists layers. repeat split; assumption.
Qed.

(** One forward pass of the block, from any state that holds the
    conditioning tensor and a shape stack. *)
Lemma CrossAttentionBlock2d_run (s : site) (c ce : nat) (key : string)
    (h n g : nat) (bias lin : bool) (blk : Module) (x cond : Tensor A)
    (b hh w sk : nat) (f : dict (Value A)) (stack : list (list nat))
    (st : State A) :
  CrossAttentionBlock2d c ce key h n g bias lin = Ok blk ->
  shape x = [b; c; hh; w] ->
  0 < hh -> 0 < w ->
  has_conditioning key cond st ->
  shape cond = [b; sk; py_or (Some ce) c] ->
  dict_get "flatten" (contexts st) = Some f ->
  dict_get "sizes" f = Some (VSizes stack) ->
  runs_to (forward blk s [VTensor x]) st
    (fun vs st' =>
       exists y, vs = [VTensor y]
                 /\ shape y = shape x
                 /\ (contexts st' = contexts st
                     /\ logged st st'
                          [ EvPush "flatten" "sizes" [hh; w];
                            EvPop "flatten" "sizes" [hh; w] ])).
Proof.
  intros Hblk Hx Hh Hw Hc Hcond Hf Hs.
  destruct (CrossAttentionBlock2d_inv _ _ _ _ _ _ _ _ _ Hblk)
    as (layers & Hl & Hall & ->).
  apply residual_run.
  rewrite forward_Chain. cbn [chain_run].
  run_step ltac:(apply (in_block_spec _ c g lin x b hh w f stack st);
                 assumption).
  intros v1 st1 (y1 & -> & S1 & C1 & N1).
  assert (Hf1 : dict_get "flatten" (contexts st1)
                = Some (dict_set "sizes" (VSizes (stack ++ [[hh; w]])) f)).
  { rewrite C1. apply dict_get_set_eq. }
  assert (Hc1 : has_conditioning key cond st1).
  { destruct Hc as (cc & H1 & H2). exists cc. split; [|exact H2].
    rewrite C1, dict_get_set_ne by reflexivity. exact H1. }
  run_step ltac:(rewrite forward_Chain;
                 apply (layers_run_spec c ce key h bias cond b
                          (prod_list [hh; w]) sk layers Hall Hcond);
                 assumption).
  intros v2 st2 (y2 & -> & S2 & Q2).
  run_step ltac:(apply (out_block_spec _ c lin y2 b hh w
                          (dict_set "sizes" (VSizes (stack ++ [[hh; w]])) f)
                          stack st2);
                 [ assumption | assumption | assumption
                 | rewrite (proj1 Q2); exact Hf1
                 | apply dict_get_set_eq ]).
  intros v3 st3 (y3 & -> & S3 & C3 & N3). apply runs_to_ret.
  exists y3. split; [reflexivity|]. split; [rewrite S3, Hx; reflexivity|].
  split.
  - rewrite C3, (proj1 Q2), C1.
    rewrite dict_set_set, dict_set_set.
    rewrite (dict_set_get _ _ _ Hs). apply dict_set_get. exact Hf.
  - apply (logged_trans _ _ _ [EvPush "flatten" "sizes" [hh; w]] _ N1).
    apply (logged_trans _ _ _ [] _ (logged_quiet _ _ Q2) N3).
Qed.

Lemma fresh_state_conditioning (key : string) (cond : Tensor A) :
  let st := fresh_state CrossAttentionBlock2d_init_context
              [("cross_attention_block", [(key, VTensor cond)])] in
  has_conditioning key cond st
  /\ dict_get "flatten" (contexts st) = Some [("sizes", VSizes [])]
  /\ trace st = [].
Proof.
  cbn. split; [|split; reflexivity].
  exists [(key, VTensor cond)]. split; [reflexivity|].
  cbn. rewrite String.eqb_refl. reflexivity.
Qed.

(** C3.  A [CrossAttentionBlock2d] built with either projection
    variant and any positive number of attention layers, called on an
    input of shape [(b, c, hh, w)] of its channel count while the
    conditioning tensor [(b, sk, key_embedding_dim)] is stored under its
    context key, returns one tensor of exactly the shape
    [(b, c, hh, w)]. *)
Theorem CrossAttentionBlock2d_output_shape
    (c ce : nat) (key : string) (h n g : nat) (bias lin : bool)
    (blk : Module) (x cond : Tensor A) (b hh w sk : nat) :
  CrossAttentionBlock2d c ce key h n g bias lin = Ok blk ->
  1 <= n ->
  shape x = [b; c; hh; w] ->
  0 < hh -> 0 < w ->
  shape cond = [b; sk; py_or (Some ce) c] ->
  exists y st',
    call CrossAttentionBlock2d_init_context
      [("cross_attention_block", [(key, VTensor cond)])] blk x
    = Done [VTensor y] st'
    /\ shape y = [b; c; hh; w].
Proof.
  intros Hblk Hn Hx Hh Hw Hcond.
  destruct (fresh_state_conditioning key cond) as (Hc & Hf & _).
  destruct (CrossAttentionBlock2d_run [] c ce key h n g bias lin blk x cond
              b hh w sk _ [] _ Hblk Hx Hh Hw Hc Hcond Hf eq_refl)
    as (vs & st' & E & y & -> & Sy & _).
  exists y, st'. split; [exact E | rewrite Sy; exact Hx].
Qed.

(** C4.  During one forward pass of [CrossAttentionBlock2d] the shape
    stack under context "flatten", key "sizes" receives exactly one push
    and, after it, exactly one pop, both of the input's spatial shape,
    whatever the number of attention layers, and it is empty again when
    the pass completes. *)
Theorem CrossAttentionBlock2d_stack_balanced
    (c ce : nat) (key : string) (h n g : nat) (bias lin : bool)
    (blk : Module) (x cond : Tensor A) (b hh w sk : nat) :
  CrossAttentionBlock2d c ce key h n g bias lin = Ok blk ->
  1 <= n ->
  shape x = [b; c; hh; w] ->
  0 < hh -> 0 < w ->
  shape cond = [b; sk; py_or (Some ce) c] ->
  exists y st',
    call CrossAttentionBlock2d_init_context
      [("cross_attention_block", [(key, VTensor cond)])] blk x
    = Done [VTensor y] st'
    /\ context_events (trace st')
       = [EvPush "flatten" "sizes" [hh; w]; EvPop "flatten" "sizes" [hh; w]]
    /\ pushes "flatten" "sizes" (trace st') = 1
    /\ pops "flatten" "sizes" (trace st') = 1
    /\ exists f, dict_get "flatten" (contexts st') = Some f
                 /\ dict_get "sizes" f = Some (VSizes []).
Proof.
  intros Hblk Hn Hx Hh Hw Hcond.
  destruct (fresh_state_conditioning key cond) as (Hc & Hf & Ht).
  destruct (CrossAttentionBlock2d_run [] c ce key h n g bias lin blk x cond
              b hh w sk _ [] _ Hblk Hx Hh Hw Hc Hcond Hf eq_refl)
    as (vs & st' & E & y & -> & Sy & Hctx & (tr & Htr & Hev)).
  exists y, st'. split; [exact E|].
  rewrite Htr, Ht. cbn [app]. split; [exact Hev|].
  rewrite <- (pushes_context_events _ _ tr), <- (pops_context_events _ _ tr), Hev.
  split; [reflexivity|]. split; [reflexivity|].
  exists [("sizes", VSizes [])]. rewrite Hctx. split; [exact Hf | reflexivity].
Qed.

End Runs.

(** ** The causal flag *)

Section CausalFlag.

Context {A : Type} `{Numeric A}.

Lemma effective_is_causal_order (self_is_causal is_causal : option bool) :
  effective_is_causal self_is_causal is_causal
  = first_given_flag [is_causal; self_is_causal].
Proof. destruct is_causal, self_is_causal; reflexivity. Qed.

(** C6.  The flag handed to the attention primitive by [forward] is the
    call-time [is_causal] when it is given, else the instance's
    [is_causal] when it is given, else [false]. *)
Theorem causal_flag_resolution (num_heads : nat)
    (self_is_causal is_causal : option bool) (query key value : Tensor A) :
  effective_is_causal self_is_causal is_causal
  = match is_causal with
    | Some b => b
    | None => match self_is_causal with
              | Some b => b
              | None => false
              end
    end
  /\ sdpa_forward num_heads self_is_causal query key value is_causal
     = (q <- split_to_multi_head num_heads query ;;
        k <- split_to_multi_head num_heads key ;;
        v <- split_to_multi_head num_heads value ;;
        o <- scaled_dot_product_attention q k v
               (first_given_flag [is_causal; self_is_causal]) ;;
        merge_multi_head num_heads o)%res.
Proof.
  split.
  - destruct is_causal, self_is_causal; reflexivity.
  - unfold sdpa_forward. rewrite effective_is_causal_order. reflexivity.
Qed.

End CausalFlag.

(** ** The projections of Attention *)

Section Projections.

Context {A : Type} `{Numeric A}.

(** C7.  Whatever [use_bias] is, a constructed [Attention] is the chain
    of a Distribute over three linear projections that carry
    [use_bias], the multi-head attention, and a final linear projection
    [embedding_dim -> embedding_dim] whose bias is enabled; a
    [SelfAttention] is the same chain behind its Parallel of
    identities.  Every completed forward pass returns what the linear
    kernel of that last layer computes with its bias enabled. *)
Theorem Attention_output_projection_bias
    (embedding_dim num_heads : nat)
    (key_embedding_dim value_embedding_dim : option nat)
    (use_bias : bool) (is_causal : option bool) :
  py_mod embedding_dim num_heads = Ok 0 ->
  exists attention self_attention projections sdpa output,
    Attention embedding_dim num_heads key_embedding_dim value_embedding_dim
      use_bias is_causal = Ok attention
    /\ SelfAttention embedding_dim num_heads use_bias is_causal
       = Ok self_attention
    /\ children attention = [Distribute projections; sdpa; output]
    /\ skipn 1 (children self_attention)
       = [ Distribute
             [ Linear embedding_dim embedding_dim use_bias;
               Linear embedding_dim embedding_dim use_bias;
               Linear embedding_dim embedding_dim use_bias ];
           sdpa; output ]
    /\ projections
       = [ Linear embedding_dim embedding_dim use_bias;
           Linear (py_or key_embedding_dim embedding_dim) embedding_dim use_bias;
           Linear (py_or value_embedding_dim embedding_dim) embedding_dim use_bias ]
    /\ map linear_bias projections
       = [Some use_bias; Some use_bias; Some use_bias]
    /\ output = Linear embedding_dim embedding_dim true
    /\ linear_bias output = Some true
    /\ (forall (s : site) (args vs : list (Value A)) (st st' : State A),
           forward attention s args st = Done vs st' ->
           exists o,
             let out := removelast (shape o) ++ [embedding_dim] in
             vs = [VTensor
                     (mkTensor out
                        (tabulate (prod_list out)
                           (linear_k (s ++ [2]) embedding_dim embedding_dim
                              true o)))]).
Proof.
  intros Hm. unfold SelfAttention, Attention. rewrite Hm. cbn [rbind Nat.eqb].
  unfold ScaledDotProductAttention_init. cbn [rbind chain_insert firstn skipn app].
  do 5 eexists.
  do 8 (split; [reflexivity|]).
  intros s args vs st st'. rewrite forward_Chain. cbn [chain_run]. unfold bind.
  destruct (forward (Distribute _) (s ++ [0]) args st) as [v1 st1|];
    [|discriminate].
  destruct (forward (ScaledDotProductAttention _ _) (s ++ [1]) v1 st1)
    as [v2 st2|]; [|discriminate].
  cbn [forward].
  destruct v2 as [|[| | | |o] [|]]; cbn [unary]; unfold fail;
    try discriminate.
  unfold forward_Linear, bind, fail.
  destruct ((0 <? rank o) && (last (shape o) 0 =? embedding_dim));
    [|discriminate].
  cbn [emit ret]. intros E. inversion E. exists o. reflexivity.
Qed.

End Projections.

(** ** A missing conditioning tensor *)

Section ContextMiss.

Context {A : Type} `{Numeric A}.

(** C8.  When nothing was written under the conditioning key, the
    conditioning-attention branch of [CrossAttentionBlock] fails with
    a context-not-found error for that key, raised by the first
    [UseContext]: the layer norm before it is the only kernel that
    ran, and no projection or attention kernel of the branch did. *)
Theorem conditioning_context_miss (s : site)
    (embedding_dim context_embedding_dim : nat) (context_key : string)
    (num_heads : nat) (use_bias : bool) (branch : Module)
    (x : Tensor A) (pre : list nat) (st : State A) :
  conditioning_branch embedding_dim context_embedding_dim context_key
    num_heads use_bias = Ok branch ->
  shape x = pre ++ [embedding_dim] ->
  conditioning_unwritten context_key st ->
  forward branch s [VTensor x] st
  = Fail (ContextNotFound "cross_attention_block" context_key)
      (mkState (contexts st) (trace st ++ [EvKernel "LayerNorm" (s ++ [0])])).
Proof.
  unfold conditioning_branch.
  destruct (Attention embedding_dim num_heads (Some context_embedding_dim)
              (Some context_embedding_dim) use_bias None) as [att|err];
    cbn [rbind]; [|discriminate].
  intros E Hx Hmiss. inversion E; subst branch; clear E.
  rewrite forward_Chain. cbn [chain_run].
  unfold bind at 1. cbn [forward unary]. unfold forward_LayerNorm.
  rewrite (rank_snoc x pre embedding_dim Hx), Hx, last_snoc, Nat.eqb_refl.
  cbn [andb]. unfold bind at 1. unfold bind at 1. unfold emit, ret.
  cbv beta match.
  unfold bind at 1.
  change (forward (Parallel ?cs) ?s0 ?args) with (parallel_run forward s0 0 cs args).
  cbn [parallel_run]. unfold bind at 1.
  unfold bind at 1.
  match goal with
  | |- context [forward Identity ?s0 ?args ?st0] =>
      change (forward Identity s0 args st0) with (Done args st0)
  end.
  cbv beta match. unfold bind at 1. unfold bind at 1.
  cbn [forward]. unfold forward_UseContext. unfold bind at 1.
  cbn [contexts].
  unfold conditioning_unwritten in Hmiss.
  destruct (dict_get "cross_attention_block" (contexts st)) as [c|].
  - rewrite Hmiss. reflexivity.
  - reflexivity.
Qed.

End ContextMiss.

(** ** Residual connections *)

Section Residual.

Context {A : Type} `{Numeric A}.

(** The element arithmetic has [zero] as a right identity of [add]. *)
Hypothesis add_zero_r : forall a : A, add a zero = a.

Lemma zip_with_add_zero (l : list A) : forall n,
  length l <= n -> zip_with add l (repeat zero n) = l.
Proof.
  induction l as [|a l IH]; intros n Hn.
  - reflexivity.
  - destruct n as [|n]; cbn in Hn; [lia|].
    cbn [repeat zip_with]. rewrite add_zero_r, IH by lia. reflexivity.
Qed.

Lemma tensor_add_zeros (x : Tensor A) :
  wf x -> tensor_add x (zeros_like x) = Ok x.
Proof.
  intros Hwf. unfold tensor_add, zeros_like. cbn [shape data].
  destruct (list_eq_dec Nat.eq_dec (shape x) (shape x)) as [_|N];
    [|contradiction].
  rewrite zip_with_add_zero by (rewrite Hwf; lia).
  destruct x; reflexivity.
Qed.

Lemma residual_zero_branch (s : site) (branch : Module) (x : Tensor A)
    (st st' : State A) :
  wf x ->
  forward branch (s ++ [1]) [VTensor x] st = Done [VTensor (zeros_like x)] st' ->
  forward (Sum [Identity; branch]) s [VTensor x] st = Done [VTensor x] st'.
Proof.
  intros Hwf E. rewrite forward_Sum. cbn [sum_run].
  unfold bind at 1.
  change (forward Identity (s ++ [0]) [VTensor x] st) with (Done [VTensor x] st).
  cbv beta match. cbn [lift]. unfold bind at 1. unfold ret at 1.
  unfold bind at 1. rewrite E. cbv beta match.
  rewrite (tensor_add_zeros x Hwf). reflexivity.
Qed.

(** C5.  If the self-attention branch, the conditioning-attention
    branch and the feed-forward branch of a [CrossAttentionBlock] each
    evaluate to an all-zero tensor of the input's shape (each residual
    sum then hands [x] on, so every branch is evaluated on [x]), the
    block's output is [x] itself. *)
Theorem residual_zero_branches (s : site)
    (embedding_dim context_embedding_dim : nat) (context_key : string)
    (num_heads : nat) (use_bias : bool) (block b1 b2 : Module)
    (x : Tensor A) (st st1 st2 st3 : State A) :
  CrossAttentionBlock embedding_dim context_embedding_dim context_key
    num_heads use_bias = Ok block ->
  self_attention_branch embedding_dim num_heads use_bias = Ok b1 ->
  conditioning_branch embedding_dim context_embedding_dim context_key
    num_heads use_bias = Ok b2 ->
  wf x ->
  forward b1 ((s ++ [0]) ++ [1]) [VTensor x] st
  = Done [VTensor (zeros_like x)] st1 ->
  forward b2 ((s ++ [1]) ++ [1]) [VTensor x] st1
  = Done [VTensor (zeros_like x)] st2 ->
  forward (feed_forward_branch embedding_dim) ((s ++ [2]) ++ [1]) [VTensor x] st2
  = Done [VTensor (zeros_like x)] st3 ->
  forward block s [VTensor x] st = Done [VTensor x] st3.
Proof.
  intros Hblock Hb1 Hb2 Hwf E1 E2 E3.
  unfold CrossAttentionBlock in Hblock. rewrite Hb1, Hb2 in Hblock.
  cbn [rbind] in Hblock. inversion Hblock; subst block; clear Hblock.
  rewrite forward_Chain. cbn [chain_run].
  rewrite (bind_done _ _ _ _ _ (residual_zero_branch _ _ _ _ _ Hwf E1)).
  rewrite (bind_done _ _ _ _ _ (residual_zero_branch _ _ _ _ _ Hwf E2)).
  rewrite (bind_done _ _ _ _ _ (residual_zero_branch _ _ _ _ _ Hwf E3)).
  reflexivity.
Qed.

End Residual.

(** ** SelfAttention2d's reshape pair *)

Section Reshape2d.

Context {A : Type} `{Numeric A}.

(** C9.  For a well-formed tensor [x] of shape [(b, c, h, w)],
    [tensor_2d_to_sequence] returns a tensor of shape [(b, h*w, c)]
    and replaces the "reshape" context by the single record of [h] and
    [w]; [sequence_to_tensor_2d] on that result, in that state, returns
    [x], shape and values. *)
Theorem sequence_round_trip (x : Tensor A) (b c h w : nat) (st : State A) :
  wf x ->
  shape x = [b; c; h; w] ->
  exists y st1,
    tensor_2d_to_sequence x st = Done y st1
    /\ shape y = [b; h * w; c]
    /\ contexts st1
       = dict_set "reshape" [("height", VInt h); ("width", VInt w)]
           (contexts st)
    /\ dict_get "reshape" (contexts st1)
       = Some [("height", VInt h); ("width", VInt w)]
    /\ sequence_to_tensor_2d y st1 = Done x st1.
Proof.
  intros Hwf Hx.
  set (r := mkTensor [b; c; h * w] (data x)).
  assert (Hr : wf r).
  { unfold wf, numel, r in *. cbn [shape data]. rewrite Hwf, Hx.
    cbn [prod_list fold_right]. nia. }
  destruct (transpose12_twice r _ _ _ _ Hr eq_refl) as (y & Hy & Hback).
  destruct (transpose12_shape r y _ _ _ _ eq_refl Hy) as [Sy _].
  set (st1 := mkState
                (dict_set "reshape" [("height", VInt h); ("width", VInt w)]
                   (contexts st)) (trace st)).
  assert (Ereshape : reshape [b; c; h * w] x = Ok r).
  { unfold reshape, numel. rewrite Hx.
    replace (prod_list [b; c; h * w] =? prod_list [b; c; h; w]) with true
      by (symmetry; apply Nat.eqb_eq; cbn [prod_list fold_right]; nia).
    reflexivity. }
  exists y, st1. split; [|split; [exact Sy | split; [reflexivity | split]]].
  - unfold tensor_2d_to_sequence, rank. rewrite Hx.
    cbn [length Nat.sub skipn nth_error].
    rewrite Ereshape. cbn [rbind]. rewrite Hy. reflexivity.
  - apply dict_get_set_eq.
  - unfold sequence_to_tensor_2d, use_context, bind.
    replace (dict_get "reshape" (contexts st1))
      with (Some [("height", @VInt A h); ("width", VInt w)])
      by (symmetry; apply dict_get_set_eq).
    cbn [dict_values map snd]. rewrite Hback, Sy. cbn [rbind nth_error].
    unfold reshape, numel, r. cbn [shape data].
    replace (prod_list [b; c; h; w] =? prod_list [b; c; h * w]) with true
      by (symmetry; apply Nat.eqb_eq; cbn [prod_list fold_right]; nia).
    cbn [lift ret]. destruct x as [sx dx]. cbn in Hx. subst sx. reflexivity.
Qed.

End Reshape2d.

(** ** A single head *)

Section SingleHead.

Context {A : Type} `{Numeric A}.

(** Exchanging a unit axis with its neighbour moves no element. *)
Lemma transpose12_unit (t : Tensor A) (a b c d : nat) :
  wf t ->
  shape t = [a; b; c; d] ->
  b = 1 \/ c = 1 ->
  transpose 1 2 t = Ok (mkTensor [a; c; b; d] (data t)).
Proof.
  intros Hwf Hs Hunit. unfold transpose, rank. rewrite Hs.
  cbn [length Nat.ltb Nat.leb andb]. rewrite swap12_shape.
  f_equal. f_equal.
  assert (Hp : prod_list [a; c; b; d] = prod_list [a; b; c; d])
    by (cbn [prod_list fold_right]; lia).
  apply tabulate_eq_list with (d := zero).
  - rewrite Hp. unfold wf, numel in Hwf. rewrite Hs in Hwf. exact Hwf.
  - intros n Hn. unfold get. rewrite Hs. f_equal.
    pose proof (unravel_range [a; c; b; d] n Hn) as Hr.
    pose proof (ravel_unravel [a; c; b; d] n Hn) as Hn'.
    remember (unravel [a; c; b; d] n) as idx eqn:Eidx. clear Eidx.
    inversion Hr as [|i a' idx1 s1 Hi F1]; subst.
    inversion F1 as [|k c' idx2 s2 Hk F2]; subst.
    inversion F2 as [|j b' idx3 s3 Hj F3]; subst.
    inversion F3 as [|l d' idx4 s4 Hl F4]; subst.
    inversion F4; subst.
    cbn [swap_dims nth_error list_set ravel prod_list fold_right].
    cbn [ravel prod_list fold_right]. destruct Hunit; subst; nia.
Qed.

Lemma split_single_head (x : Tensor A) (b s e : nat) :
  wf x ->
  shape x = [b; s; e] ->
  split_to_multi_head 1 x = Ok (mkTensor [b; 1; s; e] (data x)).
Proof.
  intros Hwf Hs.
  assert (Hm : py_mod e 1 = Ok 0).
  { unfold py_mod. cbn [Nat.eqb]. rewrite Nat.mod_1_r. reflexivity. }
  destruct (split_to_multi_head_ok 1 x b s e Hs Hm) as (y & E & Ey & _).
  rewrite E, <- Ey. rewrite Nat.div_1_r.
  apply (transpose12_unit (mkTensor [b; s; 1; e] (data x)) b s 1 e);
    [| reflexivity | right; reflexivity].
  unfold wf, numel in *. cbn [shape data]. rewrite Hwf, Hs.
  cbn [prod_list fold_right]. lia.
Qed.

Lemma merge_single_head (o : Tensor A) (b l d : nat) :
  wf o ->
  shape o = [b; 1; l; d] ->
  merge_multi_head 1 o = Ok (mkTensor [b; l; d] (data o)).
Proof.
  intros Hwf Hs. unfold merge_multi_head.
  rewrite (transpose12_unit o b 1 l d Hwf Hs (or_introl eq_refl)).
  rewrite Hs. cbn [rbind nth_error last].
  unfold reshape, numel. cbn [shape data].
  replace (prod_list [b; l; 1 * d] =? prod_list [b; l; 1; d]) with true
    by (symmetry; apply Nat.eqb_eq; cbn [prod_list fold_right]; lia).
  rewrite Nat.mul_1_l. reflexivity.
Qed.

(** C10.  With a single head, on well-formed rank-3 inputs, [forward]
    returns what the attention primitive returns on the unsplit
    inputs with the resolved causal flag: the same tensor, or the
    same error. *)
Theorem single_head_is_primitive (self_is_causal is_causal : option bool)
    (query key value : Tensor A) (bq lq eq bk lk ek bv lv ev : nat) :
  wf query -> wf key -> wf value ->
  shape query = [bq; lq; eq] ->
  shape key = [bk; lk; ek] ->
  shape value = [bv; lv; ev] ->
  sdpa_forward 1 self_is_causal query key value is_causal
  = scaled_dot_product_attention query key value
      (effective_is_causal self_is_causal is_causal).
Proof.
  intros Wq Wk Wv Sq Sk Sv. unfold sdpa_forward.
  rewrite (split_single_head query bq lq eq Wq Sq).
  rewrite (split_single_head key bk lk ek Wk Sk).
  rewrite (split_single_head value bv lv ev Wv Sv).
  cbn [rbind].
  unfold scaled_dot_product_attention, rank. rewrite Sq, Sk, Sv.
  cbn [shape data length Nat.sub firstn skipn].
  destruct ((eq =? ek) && (lk =? lv)) eqn:Edims; cbn [andb].
  2:{ reflexivity. }
  destruct (list_eq_dec Nat.eq_dec [bq; 1] [bk; 1]) as [E1|N1];
    destruct (list_eq_dec Nat.eq_dec [bq] [bk]) as [E1'|N1'];
    try (exfalso; congruence); cbn [andb]; [|reflexivity].
  destruct (list_eq_dec Nat.eq_dec [bq; 1] [bv; 1]) as [E2|N2];
    destruct (list_eq_dec Nat.eq_dec [bq] [bv]) as [E2'|N2'];
    try (exfalso; congruence); [|reflexivity].
  cbn [rbind app].
  rewrite (merge_single_head _ bq lq ev).
  - reflexivity.
  - unfold wf, numel. cbn [shape data]. rewrite length_tabulate.
    cbn [prod_list fold_right]. lia.
  - reflexivity.
Qed.

End SingleHead.

(** ** Where divisibility is checked *)

Section Divisibility.

Context {A : Type} `{Numeric A}.

Lemma py_mod_nonzero (e h : nat) :
  py_mod e h <> Ok 0 ->
  py_mod e h = Err ZeroDivisionError
  \/ exists r, py_mod e h = Ok (S r).
Proof.
  unfold py_mod. destruct (h =? 0); [left; reflexivity|].
  destruct (e mod h) as [|r]; [congruence|]. intros _. right. exists r. reflexivity.
Qed.

(** C2, as the code has it.  When [num_heads] does not divide the
    embedding dimension, constructing [Attention], [SelfAttention] or
    [SelfAttention2d] fails.  [ScaledDotProductAttention] is built from
    a head count alone and its construction always succeeds: there the
    check is made at call time, where [split_to_multi_head] (and with
    it [forward]) fails on a rank-3 input whose last dimension
    [num_heads] does not divide. *)
Theorem divisibility_checks (embedding_dim num_heads : nat) :
  py_mod embedding_dim num_heads <> Ok 0 ->
  (forall kd vd use_bias is_causal,
      exists err,
        Attention embedding_dim num_heads kd vd use_bias is_causal = Err err)
  /\ (forall use_bias is_causal,
         exists err,
           SelfAttention embedding_dim num_heads use_bias is_causal = Err err)
  /\ (forall use_bias is_causal,
         exists err,
           SelfAttention2d embedding_dim num_heads use_bias is_causal = Err err)
  /\ (forall is_causal,
         ScaledDotProductAttention_init num_heads is_causal
         = Ok (ScaledDotProductAttention num_heads is_causal))
  /\ (forall (x : Tensor A) b s,
         shape x = [b; s; embedding_dim] ->
         exists err, split_to_multi_head num_heads x = Err err)
  /\ (forall self_is_causal is_causal (q k v : Tensor A) b s,
         shape q = [b; s; embedding_dim] ->
         exists err,
           sdpa_forward num_heads self_is_causal q k v is_causal = Err err).
Proof.
  intros Hm.
  assert (Hsplit : forall (x : Tensor A) b s,
             shape x = [b; s; embedding_dim] ->
             exists err, split_to_multi_head num_heads x = Err err).
  { intros x b s Hx. unfold split_to_multi_head. rewrite Hx.
    destruct (py_mod_nonzero _ _ Hm) as [E|[r E]]; rewrite E; cbn [rbind Nat.eqb];
      eexists; reflexivity. }
  assert (Hatt : forall kd vd use_bias is_causal,
             exists err,
               Attention embedding_dim num_heads kd vd use_bias is_causal
               = Err err).
  { intros. unfold Attention.
    destruct (py_mod_nonzero _ _ Hm) as [E|[r E]]; rewrite E; cbn [rbind Nat.eqb];
      eexists; reflexivity. }
  split; [exact Hatt|]. split; [|split; [|split; [|split]]].
  - intros. unfold SelfAttention.
    destruct (Hatt None None use_bias is_causal) as [err ->].
    eexists; reflexivity.
  - intros. unfold SelfAttention2d.
    destruct (py_mod_nonzero _ _ Hm) as [E|[r E]]; rewrite E; cbn [rbind Nat.eqb];
      eexists; reflexivity.
  - reflexivity.
  - exact Hsplit.
  - intros sc ic q k v b s Hq. unfold sdpa_forward.
    destruct (Hsplit q b s Hq) as [err ->]. eexists; reflexivity.
Qed.

End Divisibility.

(* ================================================================== *)
(** * Further properties of attentions.py *)

(** ** Which element goes where *)

Section Elements.

Context {A : Type} `{Numeric A}.

Lemma Ok_inj {X} (x y : X) : Ok x = Ok y -> x = y.
Proof. congruence. Qed.

Lemma get_mkTensor (s : list nat) (d : list A) (idx : list nat) :
  get (mkTensor s d) idx = nth (ravel s idx) d zero.
Proof. reflexivity. Qed.

(** Element [(i, k, j, ..)] of [t.transpose(1, 2)] is element
    [(i, j, k, ..)] of [t]. *)
Lemma get_transpose12 (t t' : Tensor A) (a b c : nat) (r : list nat)
    (i j k : nat) (rest : list nat) :
  shape t = a :: b :: c :: r ->
  transpose 1 2 t = Ok t' ->
  i < a -> j < b -> k < c -> Forall2 lt rest r ->
  get t' (i :: k :: j :: rest) = get t (i :: j :: k :: rest).
Proof.
  intros Hs Ht Hi Hj Hk Hrest. unfold transpose, rank in Ht. rewrite Hs in Ht.
  cbn [length Nat.ltb Nat.leb andb] in Ht. rewrite swap12_shape in Ht.
  apply Ok_inj in Ht. subst t'.
  assert (Hr : Forall2 lt (i :: k :: j :: rest) (a :: c :: b :: r))
    by (repeat constructor; assumption).
  rewrite get_mkTensor.
  rewrite nth_tabulate by (apply ravel_lt; exact Hr).
  cbv beta. rewrite unravel_ravel by exact Hr. reflexivity.
Qed.

(** X1.  [split_to_multi_head] hands head [h] the features
    [h*D .. (h+1)*D) of every position: element [(i, h, j, d)] of the
    result is element [(i, j, h*D + d)] of the input, where
    [D = e // num_heads]. *)
Theorem split_to_multi_head_elements (num_heads : nat) (x y : Tensor A)
    (b s e : nat) (i h j d : nat) :
  shape x = [b; s; e] ->
  split_to_multi_head num_heads x = Ok y ->
  i < b -> h < num_heads -> j < s -> d < e / num_heads ->
  shape y = [b; num_heads; s; e / num_heads]
  /\ get y [i; h; j; d] = get x [i; j; h * (e / num_heads) + d].
Proof.
  intros Hs Hy Hi Hh Hj Hd.
  assert (Hm : py_mod e num_heads = Ok 0).
  { revert Hy. unfold split_to_multi_head. rewrite Hs.
    destruct (py_mod e num_heads) as [r|err]; cbn [rbind]; [|discriminate].
    destruct (Nat.eqb_spec r 0) as [->|_]; [reflexivity | discriminate]. }
  destruct (split_to_multi_head_ok num_heads x b s e Hs Hm)
    as (y' & Ey & Et & Sy).
  assert (y' = y) by congruence. subst y'.
  split; [exact Sy|].
  destruct (py_mod_zero _ _ Hm) as [_ He].
  rewrite (get_transpose12
             (mkTensor [b; s; num_heads; e / num_heads] (data x)) y
             b s num_heads [e / num_heads] i j h [d]
             eq_refl Et Hi Hj Hh) by (repeat constructor; exact Hd).
  rewrite get_mkTensor. unfold get. rewrite Hs. f_equal.
  cbn [ravel prod_list fold_right]. nia.
Qed.

(** X2.  [tensor_2d_to_sequence] lays the feature map out row by row:
    element [(i, p, k)] of the sequence is element
    [(i, k, p / w, p mod w)] of the map. *)
Theorem tensor_2d_to_sequence_elements (x y : Tensor A) (st st' : State A)
    (b c h w : nat) (i p k : nat) :
  shape x = [b; c; h; w] ->
  tensor_2d_to_sequence x st = Done y st' ->
  i < b -> p < h * w -> k < c ->
  shape y = [b; h * w; c]
  /\ get y [i; p; k] = get x [i; k; p / w; p mod w].
Proof.
  intros Hs Hy Hi Hp Hk.
  unfold tensor_2d_to_sequence, rank in Hy. rewrite Hs in Hy.
  cbn [length Nat.sub skipn nth_error] in Hy.
  unfold reshape, numel in Hy. rewrite Hs in Hy.
  replace (prod_list [b; c; h * w] =? prod_list [b; c; h; w]) with true in Hy
    by (symmetry; apply Nat.eqb_eq; cbn [prod_list fold_right]; nia).
  cbn [rbind] in Hy. unfold bind, set_context in Hy.
  destruct (transpose 1 2 (mkTensor [b; c; h * w] (data x))) as [t|err] eqn:Et;
    cbn [lift] in Hy; [|discriminate].
  inversion Hy; subst y st'; clear Hy.
  destruct (transpose12_shape (mkTensor [b; c; h * w] (data x)) t
              b c (h * w) [] eq_refl Et) as [St _].
  split; [exact St|].
  rewrite (get_transpose12 (mkTensor [b; c; h * w] (data x)) t
             b c (h * w) [] i k p [] eq_refl Et Hi Hk Hp)
    by constructor.
  rewrite get_mkTensor. unfold get. rewrite Hs. f_equal.
  cbn [ravel prod_list fold_right].
  assert (Hw : w <> 0) by (intros ->; lia).
  pose proof (Nat.div_mod_eq p w). nia.
Qed.

End Elements.

(** ** Splitting and merging heads *)

Section Heads.

Context {A : Type} `{Numeric A}.

(** X3.  [merge_multi_head] followed by [split_to_multi_head] gives
    the tensor back: on a well-formed [(b, num_heads, s, d)] tensor
    with at least one head, merging succeeds with shape
    [(b, s, num_heads * d)] and splitting the result returns the
    input. *)
Theorem split_merge_round_trip (num_heads : nat) (y : Tensor A) (b s d : nat) :
  wf y ->
  shape y = [b; num_heads; s; d] ->
  0 < num_heads ->
  exists z,
    merge_multi_head num_heads y = Ok z
    /\ shape z = [b; s; num_heads * d]
    /\ wf z
    /\ split_to_multi_head num_heads z = Ok y.
Proof.
  intros Hwf Hs Hh.
  destruct (transpose12_twice y _ _ _ _ Hwf Hs) as (yt & Hyt & Hback).
  destruct (transpose12_shape y yt _ _ _ _ Hs Hyt) as [Syt Wyt].
  assert (Hmerge : merge_multi_head num_heads y
                   = Ok (mkTensor [b; s; num_heads * d] (data yt))).
  { unfold merge_multi_head. rewrite Hyt, Hs. cbn [rbind nth_error last].
    unfold reshape, numel. rewrite Syt.
    replace (prod_list [b; s; num_heads * d] =? prod_list [b; s; num_heads; d])
      with true
      by (symmetry; apply Nat.eqb_eq; cbn [prod_list fold_right]; nia).
    reflexivity. }
  eexists. split; [exact Hmerge|]. split; [reflexivity|]. split.
  - unfold wf, numel in *. cbn [shape data]. rewrite Wyt, Syt.
    cbn [prod_list fold_right]. nia.
  - unfold split_to_multi_head, py_mod, py_floordiv. cbn [shape].
    replace (num_heads =? 0) with false by (symmetry; apply Nat.eqb_neq; lia).
    cbn [rbind]. rewrite (Nat.mul_comm num_heads d), Nat.Div0.mod_mul.
    cbn [Nat.eqb rbind]. rewrite Nat.div_mul by lia.
    unfold reshape, numel. cbn [shape data].
    replace (prod_list [b; s; num_heads; d] =? prod_list [b; s; d * num_heads])
      with true
      by (symmetry; apply Nat.eqb_eq; cbn [prod_list fold_right]; nia).
    cbn [rbind]. rewrite <- Hback. f_equal.
    destruct yt as [syt dyt]. cbn in Syt. subst syt. reflexivity.
Qed.

(** X4.  The outcome of [split_to_multi_head] by cases: a tensor that
    is not of rank 3 fails the rank assertion, whatever the head
    count; with rank 3, a head count of zero raises the division
    error, a head count that does not divide the last dimension fails
    the divisibility assertion, and every other input succeeds. *)
Theorem split_to_multi_head_outcome (num_heads : nat) (x : Tensor A) :
  (rank x <> 3 ->
   split_to_multi_head num_heads x
   = Err (AssertionError
            "Expected tensor with shape (batch_size sequence_length embedding_dim)"))
  /\ (forall b s e,
         shape x = [b; s; e] ->
         (num_heads = 0 ->
          split_to_multi_head num_heads x = Err ZeroDivisionError)
         /\ (num_heads <> 0 -> e mod num_heads <> 0 ->
             split_to_multi_head num_heads x
             = Err (AssertionError
                      "Embedding dim must be divisible by num heads"))
         /\ (num_heads <> 0 -> e mod num_heads = 0 ->
             exists y, split_to_multi_head num_heads x = Ok y
                       /\ shape y = [b; num_heads; s; e / num_heads]
                       /\ wf y)).
Proof.
  split.
  - unfold rank, split_to_multi_head. intros Hr.
    destruct (shape x) as [|b [|s [|e [|? ?]]]]; try reflexivity.
    exfalso. apply Hr. reflexivity.
  - intros b s e Hs. split; [|split].
    + intros ->. unfold split_to_multi_head. rewrite Hs. reflexivity.
    + intros Hh Hm. unfold split_to_multi_head, py_mod. rewrite Hs.
      rewrite (proj2 (Nat.eqb_neq _ _) Hh). cbn [rbind].
      rewrite (proj2 (Nat.eqb_neq _ _) Hm). reflexivity.
    + intros Hh Hm.
      assert (Hpm : py_mod e num_heads = Ok 0).
      { unfold py_mod. rewrite (proj2 (Nat.eqb_neq _ _) Hh), Hm. reflexivity. }
      destruct (split_to_multi_head_ok num_heads x b s e Hs Hpm)
        as (y & Ey & Et & Sy).
      exists y. split; [exact Ey|]. split; [exact Sy|].
      apply (transpose12_shape
               (mkTensor [b; s; num_heads; e / num_heads] (data x)) y
               b s num_heads [e / num_heads] eq_refl Et).
Qed.

(** X5.  [ScaledDotProductAttention.forward] returns a well-formed
    tensor of the query's shape: for a query [(b, l, e)] and a key and
    a value [(b, s, e)], of any sequence lengths [l] and [s], with a
    head count dividing [e]. *)
Theorem sdpa_forward_query_shape (num_heads : nat)
    (self_is_causal is_causal : option bool)
    (query key value : Tensor A) (b l s e : nat) :
  shape query = [b; l; e] ->
  shape key = [b; s; e] ->
  shape value = [b; s; e] ->
  py_mod e num_heads = Ok 0 ->
  exists o,
    sdpa_forward num_heads self_is_causal query key value is_causal = Ok o
    /\ shape o = [b; l; e]
    /\ wf o.
Proof.
  intros Hq Hk Hv Hm.
  destruct (split_to_multi_head_ok num_heads query _ _ _ Hq Hm)
    as (q' & Eq & _ & Sq).
  destruct (split_to_multi_head_ok num_heads key _ _ _ Hk Hm)
    as (k' & Ek & _ & Sk).
  destruct (split_to_multi_head_ok num_heads value _ _ _ Hv Hm)
    as (v' & Ev & _ & Sv).
  destruct (py_mod_zero _ _ Hm) as [_ He].
  unfold sdpa_forward. rewrite Eq, Ek, Ev. cbn [rbind].
  rewrite (scaled_dot_product_attention_eq q' k' v' _ [b; num_heads] l s
             (e / num_heads) (e / num_heads)) by assumption.
  cbn [rbind app].
  match goal with
  | |- context [merge_multi_head num_heads ?o] => set (att := o)
  end.
  destruct (transpose 1 2 att) as [t|err] eqn:Et.
  2:{ unfold transpose, rank, att in Et. cbn in Et. discriminate. }
  destruct (transpose12_shape att t _ _ _ _ eq_refl Et) as [St Wt].
  unfold merge_multi_head. rewrite Et. cbn [rbind att shape nth_error last].
  unfold reshape, numel. rewrite St.
  replace (prod_list [b; l; num_heads * (e / num_heads)]
           =? prod_list [b; l; num_heads; e / num_heads]) with true
    by (symmetry; apply Nat.eqb_eq; cbn [prod_list fold_right]; nia).
  eexists. split; [reflexivity|]. cbn [shape]. split.
  - rewrite He. reflexivity.
  - unfold wf, numel in *. cbn [shape data]. rewrite Wt, St.
    cbn [prod_list fold_right]. nia.
Qed.

End Heads.

(** ** Constructors *)

(** X6.  The three input projections of [Attention] map
    [embedding_dim], [key_embedding_dim] and [value_embedding_dim] to
    [embedding_dim]; a key or value dimension that is [None] or [0]
    stands for [embedding_dim] (Python's [or]). *)
Theorem Attention_projection_features
    (embedding_dim num_heads : nat)
    (key_embedding_dim value_embedding_dim : option nat)
    (use_bias : bool) (is_causal : option bool) (attention : Module) :
  Attention embedding_dim num_heads key_embedding_dim value_embedding_dim
    use_bias is_causal = Ok attention ->
  let given d := match d with
                 | Some 0 | None => embedding_dim
                 | Some n => n
                 end in
  exists projections,
    nth_error (children attention) 0 = Some (Distribute projections)
    /\ map linear_features projections
       = [ Some (embedding_dim, embedding_dim);
           Some (given key_embedding_dim, embedding_dim);
           Some (given value_embedding_dim, embedding_dim) ]
    /\ Attention embedding_dim num_heads
         (Some (given key_embedding_dim)) (Some (given value_embedding_dim))
         use_bias is_causal = Ok attention.
Proof.
  intros Ha given.
  destruct (Attention_inv _ _ _ _ _ _ _ Ha) as [Hm ->].
  eexists. split; [reflexivity|]. split.
  - cbn [map linear_features]. unfold given.
    destruct key_embedding_dim as [[|?]|], value_embedding_dim as [[|?]|];
      reflexivity.
  - unfold Attention. rewrite Hm. cbn [rbind Nat.eqb].
    unfold ScaledDotProductAttention_init. cbn [rbind]. unfold given.
    destruct key_embedding_dim as [[|?]|], value_embedding_dim as [[|?]|];
      try reflexivity;
      destruct embedding_dim; reflexivity.
Qed.

(** X7.  [CrossAttentionBlock] can be constructed exactly when
    [num_heads] divides [embedding_dim]; it is then a chain of three
    sums, each of an [Identity] and one branch, the last branch being
    the feed-forward chain through [8 * embedding_dim] and
    [4 * embedding_dim] features. *)
Theorem CrossAttentionBlock_constructs
    (embedding_dim context_embedding_dim : nat) (context_key : string)
    (num_heads : nat) (use_bias : bool) :
  ((exists block,
       CrossAttentionBlock embedding_dim context_embedding_dim context_key
         num_heads use_bias = Ok block)
   <-> py_mod embedding_dim num_heads = Ok 0)
  /\ (forall block,
         CrossAttentionBlock embedding_dim context_embedding_dim context_key
           num_heads use_bias = Ok block ->
         exists b1 b2,
           children block
           = [ Sum [Identity; b1];
               Sum [Identity; b2];
               Sum [ Identity;
                     Chain
                       [ LayerNorm embedding_dim;
                         Linear embedding_dim (8 * embedding_dim) true;
                         GLU GeLU;
                         Linear (4 * embedding_dim) embedding_dim true ] ] ]).
Proof.
  split; [split|].
  - intros [block Hb]. revert Hb.
    unfold CrossAttentionBlock, self_attention_branch.
    destruct (SelfAttention embedding_dim num_heads use_bias None)
      as [sa|err] eqn:Esa; cbn [rbind]; [|discriminate].
    intros _. apply (SelfAttention_inv _ _ _ _ _ Esa).
  - intros Hm.
    unfold CrossAttentionBlock, self_attention_branch, conditioning_branch,
      SelfAttention, Attention.
    rewrite Hm. cbn [rbind Nat.eqb].
    unfold ScaledDotProductAttention_init. cbn [rbind chain_insert].
    eexists. reflexivity.
  - intros block.
    unfold CrossAttentionBlock.
    destruct (self_attention_branch embedding_dim num_heads use_bias)
      as [b1|err]; cbn [rbind]; [|discriminate].
    destruct (conditioning_branch embedding_dim context_embedding_dim
                context_key num_heads use_bias) as [b2|err];
      cbn [rbind]; [|discriminate].
    intros E. apply Ok_inj in E. subst block. exists b1, b2.
    unfold feed_forward_branch. cbn [children].
    replace (2 * 4 * embedding_dim) with (8 * embedding_dim) by lia.
    reflexivity.
Qed.

(** X8.  [CrossAttentionBlock2d] checks the head count before anything
    else: whatever the number of layers (zero included) and of groups,
    a head count of zero raises the division error and a head count
    that does not divide [channels] fails the assertion. *)
Theorem CrossAttentionBlock2d_asserts_first
    (channels context_embedding_dim : nat) (context_key : string)
    (num_attention_heads num_attention_layers num_groups : nat)
    (use_bias use_linear_projection : bool) :
  (num_attention_heads = 0 ->
   CrossAttentionBlock2d channels context_embedding_dim context_key
     num_attention_heads num_attention_layers num_groups
     use_bias use_linear_projection
   = Err ZeroDivisionError)
  /\ (num_attention_heads <> 0 ->
      channels mod num_attention_heads <> 0 ->
      CrossAttentionBlock2d channels context_embedding_dim context_key
        num_attention_heads num_attention_layers num_groups
        use_bias use_linear_projection
      = Err (AssertionError
               "in_channels must be divisible by num_attention_heads")).
Proof.
  split.
  - intros ->. reflexivity.
  - intros Hh Hm. unfold CrossAttentionBlock2d, py_mod.
    rewrite (proj2 (Nat.eqb_neq _ _) Hh). cbn [rbind].
    rewrite (proj2 (Nat.eqb_neq _ _) Hm). reflexivity.
Qed.

(** ** Forward passes of the attention modules *)

Section AttentionForward.

Context {A : Type} `{Numeric A}.


(** X9.  A forward pass of [Attention] on a query [(b, l, e)], a key
    [(b, sk, key_embedding_dim)] and a value
    [(b, sk, value_embedding_dim)] returns one tensor of the query's
    shape [(b, l, e)], whatever the length [sk] of the key and value
    sequences; only numeric kernels run and the context store is not
    touched. *)
Theorem Attention_forward_shape (s : site)
    (embedding_dim num_heads : nat)
    (key_embedding_dim value_embedding_dim : option nat)
    (use_bias : bool) (is_causal : option bool) (attention : Module)
    (q k v : Tensor A) (b l sk : nat) (st : State A) :
  Attention embedding_dim num_heads key_embedding_dim value_embedding_dim
    use_bias is_causal = Ok attention ->
  shape q = [b; l; embedding_dim] ->
  shape k = [b; sk; py_or key_embedding_dim embedding_dim] ->
  shape v = [b; sk; py_or value_embedding_dim embedding_dim] ->
  exists y st',
    forward attention s [VTensor q; VTensor k; VTensor v] st
    = Done [VTensor y] st'
    /\ shape y = [b; l; embedding_dim]
    /\ quiet st st'.
Proof.
  intros Ha Hq Hk Hv.
  destruct (Attention_inv _ _ _ _ _ _ _ Ha) as [Hm ->].
  rewrite forward_Chain.
  destruct (Attention_run_spec s 0 embedding_dim num_heads _ _ use_bias
              is_causal q k v b l sk st Hm Hq Hk Hv)
    as (vs & st' & E & y & -> & Sy & Q).
  exists y, st'. auto.
Qed.

(** X10.  A forward pass of [SelfAttention] keeps the shape of its
    input [(b, l, e)]; only numeric kernels run and the context store
    is not touched. *)
Theorem SelfAttention_forward_shape (s : site)
    (embedding_dim num_heads : nat) (use_bias : bool)
    (is_causal : option bool) (self_attention : Module)
    (x : Tensor A) (b l : nat) (st : State A) :
  SelfAttention embedding_dim num_heads use_bias is_causal
  = Ok self_attention ->
  shape x = [b; l; embedding_dim] ->
  exists y st',
    forward self_attention s [VTensor x] st = Done [VTensor y] st'
    /\ shape y = [b; l; embedding_dim]
    /\ quiet st st'.
Proof.
  intros Ha Hx.
  destruct (SelfAttention_inv _ _ _ _ _ Ha) as [Hm ->].
  destruct (SelfAttention_chain_spec s embedding_dim num_heads use_bias
              is_causal x b l st Hm Hx)
    as (vs & st' & E & y & -> & Sy & Q).
  exists y, st'. auto.
Qed.

Lemma tensor_2d_to_sequence_spec (x : Tensor A) (b c h w : nat) (st : State A) :
  shape x = [b; c; h; w] ->
  exists y,
    tensor_2d_to_sequence x st
    = Done y (mkState
                (dict_set "reshape" [("height", VInt h); ("width", VInt w)]
                   (contexts st)) (trace st))
    /\ shape y = [b; h * w; c].
Proof.
  intros Hs. unfold tensor_2d_to_sequence, rank. rewrite Hs.
  cbn [length Nat.sub skipn nth_error].
  unfold reshape, numel. rewrite Hs.
  replace (prod_list [b; c; h * w] =? prod_list [b; c; h; w]) with true
    by (symmetry; apply Nat.eqb_eq; cbn [prod_list fold_right]; nia).
  cbn [rbind]. unfold transpose, rank.
  cbn [shape length Nat.ltb Nat.leb andb]. rewrite swap12_shape.
  eexists. split; reflexivity.
Qed.




(** X12.  A forward pass of [CrossAttentionBlock] on a hidden state
    [(b, l, e)], with a conditioning tensor
    [(b, sk, context_embedding_dim)] stored under its key, returns one
    tensor of the shape [(b, l, e)]; only numeric kernels run, and
    the context store, the conditioning tensor included, is as it
    was. *)
Theorem CrossAttentionBlock_forward_shape (s : site)
    (embedding_dim context_embedding_dim : nat) (context_key : string)
    (num_heads : nat) (use_bias : bool) (block : Module)
    (x conditioning : Tensor A) (b l sk : nat) (st : State A) :
  CrossAttentionBlock embedding_dim context_embedding_dim context_key
    num_heads use_bias = Ok block ->
  0 < context_embedding_dim ->
  shape x = [b; l; embedding_dim] ->
  shape conditioning = [b; sk; context_embedding_dim] ->
  has_conditioning context_key conditioning st ->
  exists y st',
    forward block s [VTensor x] st = Done [VTensor y] st'
    /\ shape y = [b; l; embedding_dim]
    /\ quiet st st'
    /\ has_conditioning context_key conditioning st'.
Proof.
  intros Hb Hce Hx Hcond Hc.
  assert (Hcond' : shape conditioning
                   = [b; sk; py_or (Some context_embedding_dim) embedding_dim]).
  { rewrite Hcond. destruct context_embedding_dim; [lia | reflexivity]. }
  destruct (CrossAttentionBlock_spec s _ _ _ _ _ block x conditioning b l sk st
              Hb Hx Hc Hcond')
    as (vs & st' & E & y & -> & Sy & Q).
  exists y, st'. split; [exact E|]. split; [exact Sy|]. split; [exact Q|].
  apply (has_conditioning_quiet _ _ _ _ Q Hc).
Qed.

End AttentionForward.

(** ** The reshape record of SelfAttention2d *)

Section ReshapeRecord.

Context {A : Type} `{Numeric A}.

(** X13.  The "reshape" context holds one record, not a stack: after
    two feature maps were flattened one after the other it holds the
    height and width of the second.  Restoring the first sequence then
    uses the second map's record: it returns the first map's elements
    under the shape [(b1, c1, h2, w2)] when the two maps have as many
    positions, and fails otherwise. *)
Theorem reshape_record_is_overwritten (x1 x2 : Tensor A)
    (b1 c1 h1 w1 b2 c2 h2 w2 : nat) (st : State A) :
  wf x1 ->
  shape x1 = [b1; c1; h1; w1] ->
  shape x2 = [b2; c2; h2; w2] ->
  exists y1 st1 y2 st2,
    tensor_2d_to_sequence x1 st = Done y1 st1
    /\ tensor_2d_to_sequence x2 st1 = Done y2 st2
    /\ contexts st2
       = dict_set "reshape" [("height", VInt h2); ("width", VInt w2)]
           (contexts st)
    /\ (h2 * w2 = h1 * w1 ->
        sequence_to_tensor_2d y1 st2
        = Done (mkTensor [b1; c1; h2; w2] (data x1)) st2)
    /\ (b1 * c1 * (h2 * w2) <> b1 * c1 * (h1 * w1) ->
        exists err, sequence_to_tensor_2d y1 st2 = Fail err st2).
Proof.
  intros Hwf H1 H2.
  set (r1 := mkTensor [b1; c1; h1 * w1] (data x1)).
  assert (Hr : wf r1).
  { unfold wf, numel, r1 in *. cbn [shape data]. rewrite Hwf, H1.
    cbn [prod_list fold_right]. nia. }
  destruct (transpose12_twice r1 _ _ _ _ Hr eq_refl) as (y1 & Hy1 & Hback).
  destruct (transpose12_shape r1 y1 _ _ _ _ eq_refl Hy1) as [Sy1 _].
  set (st1 := mkState
                (dict_set "reshape" [("height", VInt h1); ("width", VInt w1)]
                   (contexts st)) (trace st)).
  assert (E1 : tensor_2d_to_sequence x1 st = Done y1 st1).
  { unfold tensor_2d_to_sequence, rank. rewrite H1.
    cbn [length Nat.sub skipn nth_error].
    unfold reshape, numel. rewrite H1.
    replace (prod_list [b1; c1; h1 * w1] =? prod_list [b1; c1; h1; w1])
      with true
      by (symmetry; apply Nat.eqb_eq; cbn [prod_list fold_right]; nia).
    cbn [rbind]. fold r1. rewrite Hy1. reflexivity. }
  destruct (tensor_2d_to_sequence_spec x2 b2 c2 h2 w2 st1 H2) as (y2 & E2 & _).
  exists y1, st1, y2. eexists. split; [exact E1|]. split; [exact E2|].
  cbn [contexts st1]. rewrite dict_set_set.
  split; [reflexivity|].
  assert (Hrec : forall st2 : State A,
            contexts st2
            = dict_set "reshape" [("height", VInt h2); ("width", VInt w2)]
                (contexts st) ->
            sequence_to_tensor_2d y1 st2
            = lift (reshape [b1; c1; h2; w2] r1) st2).
  { intros st2 Hc. unfold sequence_to_tensor_2d, use_context, bind.
    rewrite Hc, dict_get_set_eq. cbn [dict_values map snd].
    rewrite Hback, Sy1. reflexivity. }
  split.
  - intros Hp. rewrite Hrec by reflexivity.
    unfold reshape, numel, r1. cbn [shape data].
    replace (prod_list [b1; c1; h2; w2] =? prod_list [b1; c1; h1 * w1])
      with true
      by (symmetry; apply Nat.eqb_eq; cbn [prod_list fold_right];
          rewrite !Nat.mul_1_r, Hp; reflexivity).
    reflexivity.
  - intros Hp. rewrite Hrec by reflexivity.
    unfold reshape, numel, r1. cbn [shape data].
    replace (prod_list [b1; c1; h2; w2] =? prod_list [b1; c1; h1 * w1])
      with false.
    2:{ symmetry. apply Nat.eqb_neq. intros Heq. apply Hp.
        cbn [prod_list fold_right] in Heq. rewrite !Nat.mul_1_r in Heq.
        rewrite <- !Nat.mul_assoc. exact Heq. }
    eexists. reflexivity.
Qed.

(** X14.  [sequence_to_tensor_2d] needs a flatten before it: on a
    sequence [(b, n, c)], with the record as [init_context] leaves it
    (height and width [None]) it raises a type error, and without a
    "reshape" context the read fails; in neither case is a tensor
    returned or the state changed. *)
Theorem sequence_to_tensor_2d_needs_record (y : Tensor A) (b n c : nat)
    (st : State A) :
  shape y = [b; n; c] ->
  (dict_get "reshape" (contexts st)
   = dict_get "reshape" SelfAttention2d_init_context ->
   sequence_to_tensor_2d y st = Fail TypeError st)
  /\ (dict_get "reshape" (contexts st) = None ->
      sequence_to_tensor_2d y st = Fail (ContextNotFound "reshape" "") st).
Proof.
  intros _.
  split; intros Hc; unfold sequence_to_tensor_2d, use_context, bind;
    rewrite Hc; reflexivity.
Qed.

End ReshapeRecord.

(* ================================================================== *)
(** * Further properties of cross_attention.py *)

(** ** What StatefulFlatten pushes *)

Section PushedSizes.

Context {A : Type} `{Numeric A}.

Lemma norm_dim_bound (n : nat) (d : Z) (k : nat) :
  norm_dim n d = Ok k -> k < n /\ slice_bound n d = k.
Proof.
  unfold norm_dim, slice_bound.
  destruct (Z.ltb_spec d 0) as [Hneg|Hpos].
  - destruct (Z.leb_spec 0 (Z.of_nat n + d)) as [Hge|Hlt]; [|discriminate].
    intros E. apply Ok_inj in E. lia.
  - destruct (Z.ltb_spec d (Z.of_nat n)) as [Hlt|Hge]; [|discriminate].
    intros E. apply Ok_inj in E. lia.
Qed.

Lemma norm_dim_stop (n : nat) (d : Z) (k : nat) :
  norm_dim n d = Ok k ->
  slice_bound n (if (0 <=? d)%Z then d + 1 else Z.of_nat n + d + 1)%Z = k + 1.
Proof.
  unfold norm_dim, slice_bound.
  destruct (Z.ltb_spec d 0) as [Hneg|Hpos].
  - destruct (Z.leb_spec 0 (Z.of_nat n + d)) as [Hge|Hlt]; [|discriminate].
    intros E. apply Ok_inj in E.
    destruct (Z.leb_spec 0 d) as [?|_]; [lia|].
    destruct (Z.ltb_spec (Z.of_nat n + d + 1) 0); lia.
  - destruct (Z.ltb_spec d (Z.of_nat n)) as [Hlt|Hge]; [|discriminate].
    intros E. apply Ok_inj in E.
    destruct (Z.leb_spec 0 d) as [_|?]; [|lia].
    destruct (Z.ltb_spec (d + 1) 0); lia.
Qed.

Lemma slice_partition {X} (l : list X) (s e : nat) :
  s <= e -> e < length l ->
  firstn s l ++ py_slice s (e + 1) l ++ skipn (e + 1) l = l.
Proof.
  intros Hse He. unfold py_slice.
  replace (skipn (e + 1) l) with (skipn (e + 1 - s) (skipn s l))
    by (rewrite skipn_skipn; f_equal; lia).
  rewrite firstn_skipn. apply firstn_skipn.
Qed.

(** X15.  The slice of the shape that [StatefulFlatten.push] records
    is exactly the run of axes that [Flatten(start_dim, end_dim)]
    collapses, for every valid pair of axes, negative ones included.
    So the recorded sizes multiply to the flattened axis, and
    unflattening that axis with them gives the tensor back. *)
Theorem push_records_flattened_axes (start_dim end_dim : Z) (x : Tensor A)
    (s e : nat) :
  norm_dim (rank x) start_dim = Ok s ->
  norm_dim (rank x) end_dim = Ok e ->
  s <= e ->
  pushed_size start_dim end_dim x = py_slice s (e + 1) (shape x)
  /\ exists t,
       flatten start_dim end_dim x = Ok t
       /\ nth_error (shape t) s
          = Some (prod_list (pushed_size start_dim end_dim x))
       /\ length (shape t) + (e - s) = rank x
       /\ unflatten s (pushed_size start_dim end_dim x) t = Ok x.
Proof.
  intros Hs He Hse.
  destruct (norm_dim_bound _ _ _ Hs) as [Hs1 Hs2].
  destruct (norm_dim_bound _ _ _ He) as [He1 _].
  pose proof (norm_dim_stop _ _ _ He) as He2.
  assert (Hp : pushed_size start_dim end_dim x = py_slice s (e + 1) (shape x)).
  { unfold pushed_size, py_slice_int. fold (rank x). rewrite Hs2, He2.
    reflexivity. }
  split; [exact Hp|].
  unfold flatten. rewrite Hs, He. cbn [rbind].
  rewrite (proj2 (Nat.leb_le s e) Hse).
  eexists. split; [reflexivity|].
  unfold rank in *.
  assert (Hlen : length (firstn s (shape x)) = s)
    by (rewrite length_firstn; lia).
  assert (Hnth : nth_error
                   (firstn s (shape x)
                    ++ [prod_list (py_slice s (e + 1) (shape x))]
                    ++ skipn (e + 1) (shape x)) s
                 = Some (prod_list (py_slice s (e + 1) (shape x)))).
  { rewrite nth_error_app2 by lia. rewrite Hlen, Nat.sub_diag. reflexivity. }
  cbn [shape]. split; [rewrite Hp; exact Hnth|]. split.
  - rewrite !length_app, Hlen, length_skipn. cbn [length]. lia.
  - unfold unflatten. cbn [shape data]. rewrite Hnth, Hp, Nat.eqb_refl.
    f_equal.
    replace (firstn s (firstn s (shape x)
                       ++ [prod_list (py_slice s (e + 1) (shape x))]
                       ++ skipn (e + 1) (shape x)))
      with (firstn s (shape x)).
    2:{ rewrite firstn_app, Hlen, Nat.sub_diag. cbn [firstn].
        rewrite app_nil_r, firstn_firstn, Nat.min_id. reflexivity. }
    replace (skipn (s + 1) (firstn s (shape x)
                            ++ [prod_list (py_slice s (e + 1) (shape x))]
                            ++ skipn (e + 1) (shape x)))
      with (skipn (e + 1) (shape x)).
    2:{ rewrite skipn_app.
        rewrite (skipn_all2 (n := s + 1) (firstn s (shape x))) by lia.
        replace (s + 1 - length (firstn s (shape x))) with 1 by lia.
        reflexivity. }
    rewrite slice_partition by lia.
    destruct x; reflexivity.
Qed.

End PushedSizes.

(** ** The shape stack *)

Section ShapeStack.

Context {A : Type} `{Numeric A}.

Lemma bind_fail {X Y} (m : M A X) (k : X -> M A Y) (st st1 : State A)
    (e : Error) :
  m st = Fail e st1 -> bind m k st = Fail e st1.
Proof. intros Hm. unfold bind. rewrite Hm. reflexivity. Qed.

Lemma push_step (s : site) (context key : string) (start_dim end_dim : Z)
    (x : Tensor A) (c : dict (Value A)) (stack : list (list nat))
    (st : State A) :
  dict_get context (contexts st) = Some c ->
  dict_get key c = Some (VSizes stack) ->
  forward (SetContext context key (Some (PushSizes start_dim end_dim))) s
    [VTensor x] st
  = Done [VTensor x]
      (mkState
         (dict_set context
            (dict_set key (VSizes (stack ++ [pushed_size start_dim end_dim x])) c)
            (contexts st))
         (trace st ++ [EvPush context key (pushed_size start_dim end_dim x)])).
Proof.
  intros Hc Hk. cbn [forward]. unfold forward_SetContext, use_context, bind.
  rewrite Hc. cbv beta match. rewrite Hk. reflexivity.
Qed.

Lemma pop_step (s : site) (context key : string) (args : list (Value A))
    (c : dict (Value A)) (stack : list (list nat)) (top : list nat)
    (st : State A) :
  dict_get context (contexts st) = Some c ->
  dict_get key c = Some (VSizes (stack ++ [top])) ->
  forward (UseContext context key UsePop) s args st
  = Done [VSize top]
      (mkState
         (dict_set context (dict_set key (VSizes stack) c) (contexts st))
         (trace st ++ [EvPop context key top])).
Proof.
  intros Hc Hk. cbn [forward]. unfold forward_UseContext, bind.
  rewrite Hc, Hk, rev_app_distr. cbn [rev app].
  rewrite rev_involutive. reflexivity.
Qed.

(** X16.  The shape stack is last-in, first-out: after the shapes of
    [x1] and then [x2] were pushed, the first pop returns the slice of
    [x2] and the second that of [x1], and the context store is then
    exactly as it was before the pushes. *)
Theorem shape_stack_is_lifo (s1 s2 s3 s4 : site) (context key : string)
    (start_dim end_dim : Z) (x1 x2 : Tensor A) (args3 args4 : list (Value A))
    (c : dict (Value A)) (stack : list (list nat)) (st : State A) :
  dict_get context (contexts st) = Some c ->
  dict_get key c = Some (VSizes stack) ->
  exists st1 st2 st3 st4,
    forward (SetContext context key (Some (PushSizes start_dim end_dim))) s1
      [VTensor x1] st = Done [VTensor x1] st1
    /\ forward (SetContext context key (Some (PushSizes start_dim end_dim))) s2
         [VTensor x2] st1 = Done [VTensor x2] st2
    /\ forward (UseContext context key UsePop) s3 args3 st2
       = Done [VSize (pushed_size start_dim end_dim x2)] st3
    /\ forward (UseContext context key UsePop) s4 args4 st3
       = Done [VSize (pushed_size start_dim end_dim x1)] st4
    /\ contexts st4 = contexts st
    /\ trace st4
       = trace st
         ++ [ EvPush context key (pushed_size start_dim end_dim x1);
              EvPush context key (pushed_size start_dim end_dim x2);
              EvPop context key (pushed_size start_dim end_dim x2);
              EvPop context key (pushed_size start_dim end_dim x1) ].
Proof.
  intros Hc Hk.
  set (p1 := pushed_size start_dim end_dim x1).
  set (p2 := pushed_size start_dim end_dim x2).
  do 4 eexists.
  split; [apply (push_step s1 context key start_dim end_dim x1 c stack st Hc Hk)|].
  split.
  { apply push_step; cbn [contexts]; apply dict_get_set_eq. }
  split.
  { apply pop_step; cbn [contexts]; apply dict_get_set_eq. }
  split.
  { apply pop_step; cbn [contexts]; [apply dict_get_set_eq|].
    rewrite dict_set_set. apply dict_get_set_eq. }
  cbn [contexts trace]. split.
  - rewrite !dict_set_set. rewrite (dict_set_get _ _ _ Hk).
    apply dict_set_get. exact Hc.
  - rewrite <- !app_assoc. reflexivity.
Qed.


End ShapeStack.

(** ** A missing conditioning tensor, seen from the blocks *)

Section BlockContextMiss.

Context {A : Type} `{Numeric A}.

Lemma conditioning_unwritten_quiet (key : string) (st st' : State A) :
  quiet st st' -> conditioning_unwritten key st ->
  conditioning_unwritten key st'.
Proof.
  intros [Hc _]. unfold conditioning_unwritten. rewrite Hc. auto.
Qed.

Lemma conditioning_branch_fails (s : site) (e ce : nat) (key : string)
    (h : nat) (bias : bool) (branch : Module) (x : Tensor A)
    (pre : list nat) (st : State A) :
  conditioning_branch e ce key h bias = Ok branch ->
  shape x = pre ++ [e] ->
  conditioning_unwritten key st ->
  exists st',
    forward branch s [VTensor x] st
    = Fail (ContextNotFound "cross_attention_block" key) st'
    /\ quiet st st'.
Proof.
  unfold conditioning_branch.
  destruct (Attention e h (Some ce) (Some ce) bias None) as [att|err];
    cbn [rbind]; [|discriminate].
  intros E Hx Hmiss. apply Ok_inj in E. subst branch.
  destruct (LayerNorm_spec (s ++ [0]) e x pre st Hx)
    as (v1 & st1 & E1 & y1 & -> & S1 & Q1).
  exists st1. split; [|exact Q1].
  rewrite forward_Chain. cbn [chain_run].
  rewrite (bind_done _ _ _ _ _ E1). apply bind_fail.
  rewrite forward_Parallel. cbn [parallel_run].
  unfold bind at 1.
  change (forward Identity ((s ++ [1]) ++ [0]) [VTensor y1] st1)
    with (Done [VTensor y1] st1).
  cbv beta match. apply bind_fail. apply bind_fail.
  cbn [forward]. unfold forward_UseContext, bind.
  pose proof (conditioning_unwritten_quiet key st st1 Q1 Hmiss) as Hmiss1.
  unfold conditioning_unwritten in Hmiss1.
  destruct (dict_get "cross_attention_block" (contexts st1)) as [c|].
  - rewrite Hmiss1. reflexivity.
  - reflexivity.
Qed.

Lemma residual_fails (s : site) (branch : Module) (x : Tensor A)
    (st st' : State A) (e : Error) :
  forward branch (s ++ [1]) [VTensor x] st = Fail e st' ->
  forward (Sum [Identity; branch]) s [VTensor x] st = Fail e st'.
Proof.
  intros E. rewrite forward_Sum. cbn [sum_run].
  unfold bind at 1.
  change (forward Identity (s ++ [0]) [VTensor x] st) with (Done [VTensor x] st).
  cbv beta match. cbn [lift]. unfold bind at 1. unfold ret at 1.
  apply bind_fail. exact E.
Qed.

Lemma CrossAttentionBlock_fails (s : site) (e ce : nat) (key : string)
    (h : nat) (bias : bool) (block : Module) (x : Tensor A)
    (b l : nat) (st : State A) :
  CrossAttentionBlock e ce key h bias = Ok block ->
  shape x = [b; l; e] ->
  conditioning_unwritten key st ->
  exists st',
    forward block s [VTensor x] st
    = Fail (ContextNotFound "cross_attention_block" key) st'
    /\ quiet st st'.
Proof.
  unfold CrossAttentionBlock.
  destruct (self_attention_branch e h bias) as [b1|err] eqn:E1;
    cbn [rbind]; [|discriminate].
  destruct (conditioning_branch e ce key h bias) as [b2|err] eqn:E2;
    cbn [rbind]; [|discriminate].
  intros E Hx Hmiss. apply Ok_inj in E. subst block.
  assert (R1 : runs_to (forward (Sum [Identity; b1]) (s ++ [0]) [VTensor x]) st
                 (yields (shape x) st)).
  { apply residual_spec. rewrite Hx.
    apply (self_attention_branch_spec _ e h bias b1 x b l); assumption. }
  destruct R1 as (v1 & st1 & Ev1 & y1 & -> & S1 & Q1).
  assert (S1' : shape y1 = [b; l] ++ [e]) by (rewrite S1; exact Hx).
  destruct (conditioning_branch_fails ((s ++ [1]) ++ [1]) e ce key h bias b2
              y1 [b; l] st1 E2 S1'
              (conditioning_unwritten_quiet _ _ _ Q1 Hmiss))
    as (st2 & Ef & Q2).
  exists st2. split; [|apply (quiet_trans _ _ _ Q1 Q2)].
  rewrite forward_Chain. cbn [chain_run].
  rewrite (bind_done _ _ _ _ _ Ev1). apply bind_fail.
  apply residual_fails. exact Ef.
Qed.

(** X18.  Without a conditioning tensor under its key, a forward pass
    of [CrossAttentionBlock] on a hidden state [(b, l, e)] fails with
    the context-not-found error for that key, after its self-attention
    sub-block has run: no tensor is returned, and the context store is
    as it was. *)
Theorem CrossAttentionBlock_context_miss (s : site)
    (embedding_dim context_embedding_dim : nat) (context_key : string)
    (num_heads : nat) (use_bias : bool) (block : Module) (x : Tensor A)
    (b l : nat) (st : State A) :
  CrossAttentionBlock embedding_dim context_embedding_dim context_key
    num_heads use_bias = Ok block ->
  shape x = [b; l; embedding_dim] ->
  conditioning_unwritten context_key st ->
  exists st',
    forward block s [VTensor x] st
    = Fail (ContextNotFound "cross_attention_block" context_key) st'
    /\ contexts st' = contexts st
    /\ exists tr, trace st' = trace st ++ tr /\ context_events tr = [].
Proof.
  intros Hb Hx Hmiss.
  destruct (CrossAttentionBlock_fails s _ _ _ _ _ block x b l st Hb Hx Hmiss)
    as (st' & E & Q).
  exists st'. split; [exact E|]. split; [exact (proj1 Q)|].
  exact (logged_quiet _ _ Q).
Qed.

(** X19.  Without a conditioning tensor, a forward pass of
    [CrossAttentionBlock2d] fails inside its first attention layer with
    the context-not-found error, after the in-projection has pushed:
    the failed pass leaves the spatial shape on the stack, pushed and
    never popped. *)
Theorem CrossAttentionBlock2d_context_miss
    (c ce : nat) (key : string) (h n g : nat) (bias lin : bool)
    (blk : Module) (x : Tensor A) (b hh w : nat) :
  CrossAttentionBlock2d c ce key h n g bias lin = Ok blk ->
  1 <= n ->
  shape x = [b; c; hh; w] ->
  0 < hh -> 0 < w ->
  exists st',
    call CrossAttentionBlock2d_init_context [] blk x
    = Fail (ContextNotFound "cross_attention_block" key) st'
    /\ dict_get "flatten" (contexts st') = Some [("sizes", VSizes [[hh; w]])]
    /\ context_events (trace st') = [EvPush "flatten" "sizes" [hh; w]].
Proof.
  intros Hblk Hn Hx Hh Hw.
  destruct (CrossAttentionBlock2d_inv _ _ _ _ _ _ _ _ _ Hblk)
    as (layers & Hl & Hall & ->).
  destruct layers as [|layer layers]; [cbn in Hl; lia|].
  inversion Hall as [|? ? Hlayer _]; subst.
  unfold call.
  set (st := fresh_state CrossAttentionBlock2d_init_context []).
  assert (Hf : dict_get "flatten" (contexts st) = Some [("sizes", @VSizes A [])])
    by reflexivity.
  destruct (in_block_spec (([] ++ [1]) ++ [0]) c g lin x b hh w _ [] st
              Hx Hh Hw Hf eq_refl)
    as (v1 & st1 & E1 & y1 & -> & S1 & C1 & N1).
  assert (Hmiss : conditioning_unwritten key st1).
  { unfold conditioning_unwritten. rewrite C1. reflexivity. }
  destruct (CrossAttentionBlock_fails ((([] ++ [1]) ++ [1]) ++ [0])
              c ce key h bias layer y1 b (prod_list [hh; w]) st1
              Hlayer S1 Hmiss)
    as (st2 & E2 & Q2).
  exists st2. split; [|split].
  - apply residual_fails. rewrite forward_Chain. cbn [chain_run].
    rewrite (bind_done _ _ _ _ _ E1). apply bind_fail.
    rewrite forward_Chain. cbn [chain_run]. apply bind_fail. exact E2.
  - rewrite (proj1 Q2), C1. reflexivity.
  - destruct (logged_trans _ _ _ _ _ N1 (logged_quiet _ _ Q2))
      as (tr & Htr & Hev).
    rewrite Htr. exact Hev.
Qed.

(** X20.  A forward pass of [CrossAttentionBlock2d] restores the
    context store it found: whatever shapes are already on the stack
    stay there, under the one push and the one pop of the pass, and
    every context is afterwards exactly as before. *)
Theorem CrossAttentionBlock2d_restores_store (s : site)
    (c ce : nat) (key : string) (h n g : nat) (bias lin : bool)
    (blk : Module) (x cond : Tensor A) (b hh w sk : nat)
    (f : dict (Value A)) (stack : list (list nat)) (st : State A) :
  CrossAttentionBlock2d c ce key h n g bias lin = Ok blk ->
  1 <= n ->
  shape x = [b; c; hh; w] ->
  0 < hh -> 0 < w ->
  has_conditioning key cond st ->
  shape cond = [b; sk; py_or (Some ce) c] ->
  dict_get "flatten" (contexts st) = Some f ->
  dict_get "sizes" f = Some (VSizes stack) ->
  exists y st' tr,
    forward blk s [VTensor x] st = Done [VTensor y] st'
    /\ shape y = [b; c; hh; w]
    /\ contexts st' = contexts st
    /\ trace st' = trace st ++ tr
    /\ context_events tr
       = [EvPush "flatten" "sizes" [hh; w]; EvPop "flatten" "sizes" [hh; w]].
Proof.
  intros Hblk Hn Hx Hh Hw Hc Hcond Hf Hs.
  destruct (CrossAttentionBlock2d_run s c ce key h n g bias lin blk x cond
              b hh w sk f stack st Hblk Hx Hh Hw Hc Hcond Hf Hs)
    as (vs & st' & E & y & -> & Sy & Hctx & (tr & Htr & Hev)).
  exists y, st', tr. rewrite Sy. auto.
Qed.

End BlockContextMiss.

(* ================================================================== *)
(** * The statements on concrete inputs *)

Lemma merge_split_round_trip_example :
  exists y z,
    split_to_multi_head (H := toy_numeric) 2 example_sequence = Ok y
    /\ merge_multi_head (H := toy_numeric) 2 y = Ok z
    /\ shape z = [1; 2; 4]
    /\ z = example_sequence.
Proof.
  apply (@merge_split_round_trip Z toy_numeric 2 example_sequence 1 2 4);
    reflexivity.
Defined.

(** With four features and three heads the attention layer is built
    without complaint; the failure comes with the first call. *)
Lemma sdpa_init_ignores_divisibility :
  py_mod 4 3 = Ok 1
  /\ ScaledDotProductAttention_init 3 None
     = Ok (ScaledDotProductAttention 3 None)
  /\ sdpa_forward (H := toy_numeric) 3 None
       example_sequence example_sequence example_sequence None
     = Err (AssertionError "Embedding dim must be divisible by num heads").
Proof. repeat split. Qed.

Lemma divisibility_checks_example :
  (forall kd vd use_bias is_causal,
      exists err, Attention 4 3 kd vd use_bias is_causal = Err err)
  /\ (forall use_bias is_causal,
         exists err, SelfAttention 4 3 use_bias is_causal = Err err)
  /\ (forall use_bias is_causal,
         exists err, SelfAttention2d 4 3 use_bias is_causal = Err err)
  /\ (forall is_causal,
         ScaledDotProductAttention_init 3 is_causal
         = Ok (ScaledDotProductAttention 3 is_causal))
  /\ (forall (x : Tensor Z) b s,
         shape x = [b; s; 4] ->
         exists err, split_to_multi_head (H := toy_numeric) 3 x = Err err)
  /\ (forall self_is_causal is_causal (q k v : Tensor Z) b s,
         shape q = [b; s; 4] ->
         exists err,
           sdpa_forward (H := toy_numeric) 3 self_is_causal q k v is_causal
           = Err err).
Proof.
  apply (@divisibility_checks Z toy_numeric 4 3). vm_compute. discriminate.
Defined.

Lemma CrossAttentionBlock2d_output_shape_example :
  exists y st',
    call (H := toy_numeric) CrossAttentionBlock2d_init_context
      [("cross_attention_block", [("text", VTensor example_conditioning)])]
      example_block_conv example_map
    = Done [VTensor y] st'
    /\ shape y = [1; 4; 2; 2].
Proof.
  apply (@CrossAttentionBlock2d_output_shape Z toy_numeric
           4 3 "text" 2 1 2 true false
           example_block_conv example_map example_conditioning 1 2 2 3);
    try reflexivity; lia.
Defined.

Lemma CrossAttentionBlock2d_stack_balanced_example :
  exists y st',
    call (H := toy_numeric) CrossAttentionBlock2d_init_context
      [("cross_attention_block", [("text", VTensor example_conditioning)])]
      example_block_linear example_map
    = Done [VTensor y] st'
    /\ context_events (trace st')
       = [EvPush "flatten" "sizes" [2; 2]; EvPop "flatten" "sizes" [2; 2]]
    /\ pushes "flatten" "sizes" (trace st') = 1
    /\ pops "flatten" "sizes" (trace st') = 1
    /\ exists f, dict_get "flatten" (contexts st') = Some f
                 /\ dict_get "sizes" f = Some (VSizes []).
Proof.
  apply (@CrossAttentionBlock2d_stack_balanced Z toy_numeric
           4 3 "text" 2 3 2 true true
           example_block_linear example_map example_conditioning 1 2 2 3);
    try reflexivity; lia.
Defined.

Lemma residual_zero_branches_example :
  forward (H := zero_weights) example_cross_attention_block []
    [VTensor example_sequence] example_state
  = Done [VTensor example_sequence] example_state3.
Proof.
  apply (@residual_zero_branches Z zero_weights Z.add_0_r []
           4 3 "text" 2 true example_cross_attention_block
           example_self_attention_branch example_conditioning_branch
           example_sequence example_state
           example_state1 example_state2 example_state3);
    reflexivity.
Defined.

Lemma Attention_output_projection_bias_example :
  exists attention self_attention projections sdpa output,
    Attention 4 2 (Some 3) None false None = Ok attention
    /\ SelfAttention 4 2 false None = Ok self_attention
    /\ children attention = [Distribute projections; sdpa; output]
    /\ skipn 1 (children self_attention)
       = [ Distribute [Linear 4 4 false; Linear 4 4 false; Linear 4 4 false];
           sdpa; output ]
    /\ projections
       = [ Linear 4 4 false;
           Linear (py_or (Some 3) 4) 4 false;
           Linear (py_or None 4) 4 false ]
    /\ map linear_bias projections = [Some false; Some false; Some false]
    /\ output = Linear 4 4 true
    /\ linear_bias output = Some true
    /\ (forall (s : site) (args vs : list (Value Z)) (st st' : State Z),
           forward (H := toy_numeric) attention s args st = Done vs st' ->
           exists o,
             let out := removelast (shape o) ++ [4] in
             vs = [VTensor
                     (mkTensor out
                        (tabulate (prod_list out)
                           (linear_k (Numeric := toy_numeric) (s ++ [2])
                              4 4 true o)))]).
Proof.
  apply (@Attention_output_projection_bias Z toy_numeric
           4 2 (Some 3) None false None).
  reflexivity.
Defined.

Lemma conditioning_context_miss_example :
  forward (H := toy_numeric) example_conditioning_branch [1; 1]
    [VTensor example_sequence] (mkState [] [])
  = Fail (ContextNotFound "cross_attention_block" "text")
      (mkState [] [EvKernel "LayerNorm" [1; 1; 0]]).
Proof.
  apply (@conditioning_context_miss Z toy_numeric [1; 1] 4 3 "text" 2 true
           example_conditioning_branch example_sequence [1; 2] (mkState [] []));
    [reflexivity | reflexivity | exact I].
Defined.

Lemma sequence_round_trip_example :
  exists y st1,
    tensor_2d_to_sequence (H := toy_numeric) example_map
      (mkState SelfAttention2d_init_context [])
    = Done y st1
    /\ shape y = [1; 2 * 2; 4]
    /\ contexts st1
       = dict_set "reshape" [("height", VInt 2); ("width", VInt 2)]
           SelfAttention2d_init_context
    /\ dict_get "reshape" (contexts st1)
       = Some [("height", VInt 2); ("width", VInt 2)]
    /\ sequence_to_tensor_2d (H := toy_numeric) y st1 = Done example_map st1.
Proof.
  apply (@sequence_round_trip Z toy_numeric example_map 1 4 2 2
           (mkState SelfAttention2d_init_context [])); reflexivity.
Defined.

Lemma single_head_is_primitive_example :
  sdpa_forward (H := toy_numeric) 1 (Some true)
    example_sequence example_sequence example_sequence None
  = scaled_dot_product_attention (H := toy_numeric)
      example_sequence example_sequence example_sequence
      (effective_is_causal (Some true) None).
Proof.
  apply (@single_head_is_primitive Z toy_numeric (Some true) None
           example_sequence example_sequence example_sequence
           1 2 4 1 2 4 1 2 4); reflexivity.
Defined.

(** ** Further properties, on concrete inputs *)

Lemma split_to_multi_head_elements_example :
  shape example_split = [1; 2; 2; 4 / 2]
  /\ get (H := toy_numeric) example_split [0; 1; 1; 0]
     = get (H := toy_numeric) example_sequence [0; 1; 1 * (4 / 2) + 0].
Proof.
  apply (@split_to_multi_head_elements Z toy_numeric 2
           example_sequence example_split 1 2 4 0 1 1 0);
    try reflexivity; vm_compute; lia.
Defined.

Lemma tensor_2d_to_sequence_elements_example :
  shape example_map_sequence = [1; 2 * 2; 4]
  /\ get (H := toy_numeric) example_map_sequence [0; 3; 1]
     = get (H := toy_numeric) example_map [0; 1; 3 / 2; 3 mod 2].
Proof.
  apply (@tensor_2d_to_sequence_elements Z toy_numeric
           example_map example_map_sequence
           (mkState SelfAttention2d_init_context [])
           (final_state
              (tensor_2d_to_sequence (H := toy_numeric) example_map
                 (mkState SelfAttention2d_init_context [])))
           1 4 2 2 0 3 1);
    try reflexivity; vm_compute; lia.
Defined.

Lemma split_merge_round_trip_example :
  exists z,
    merge_multi_head (H := toy_numeric) 2 example_heads = Ok z
    /\ shape z = [1; 2; 2 * 2]
    /\ wf z
    /\ split_to_multi_head (H := toy_numeric) 2 z = Ok example_heads.
Proof.
  apply (@split_merge_round_trip Z toy_numeric 2 example_heads 1 2 2);
    [reflexivity | reflexivity | lia].
Defined.

Lemma sdpa_forward_query_shape_example :
  exists o,
    sdpa_forward (H := toy_numeric) 2 None
      example_sequence example_value example_value None = Ok o
    /\ shape o = [1; 2; 4]
    /\ wf o.
Proof.
  apply (@sdpa_forward_query_shape Z toy_numeric 2 None None
           example_sequence example_value example_value 1 2 3 4);
    reflexivity.
Defined.

Lemma Attention_projection_features_example :
  exists projections,
    nth_error (children example_attention) 0 = Some (Distribute projections)
    /\ map linear_features projections
       = [Some (4, 4); Some (3, 4); Some (4, 4)]
    /\ Attention 4 2 (Some 3) (Some 4) true None = Ok example_attention.
Proof.
  apply (Attention_projection_features 4 2 (Some 3) None true None
           example_attention).
  reflexivity.
Defined.

Lemma Attention_forward_shape_example :
  exists y st',
    forward (H := toy_numeric) example_attention []
      [VTensor example_sequence; VTensor example_conditioning;
       VTensor example_value]
      (mkState [] [])
    = Done [VTensor y] st'
    /\ shape y = [1; 2; 4]
    /\ quiet (mkState [] []) st'.
Proof.
  apply (@Attention_forward_shape Z toy_numeric [] 4 2 (Some 3) None true None
           example_attention
           example_sequence example_conditioning example_value 1 2 3
           (mkState [] []));
    reflexivity.
Defined.

Lemma SelfAttention_forward_shape_example :
  exists y st',
    forward (H := toy_numeric) example_self_attention []
      [VTensor example_sequence] (mkState [] [])
    = Done [VTensor y] st'
    /\ shape y = [1; 2; 4]
    /\ quiet (mkState [] []) st'.
Proof.
  apply (@SelfAttention_forward_shape Z toy_numeric [] 4 2 true None
           example_self_attention example_sequence 1 2 (mkState [] []));
    reflexivity.
Defined.


Lemma CrossAttentionBlock_forward_shape_example :
  exists y st',
    forward (H := toy_numeric) example_cross_attention_block []
      [VTensor example_sequence] example_state
    = Done [VTensor y] st'
    /\ shape y = [1; 2; 4]
    /\ quiet example_state st'
    /\ has_conditioning "text" example_conditioning st'.
Proof.
  apply (@CrossAttentionBlock_forward_shape Z toy_numeric [] 4 3 "text" 2 true
           example_cross_attention_block
           example_sequence example_conditioning 1 2 3 example_state);
    [ reflexivity | lia | reflexivity | reflexivity
    | exists [("text", VTensor example_conditioning)]; split; reflexivity ].
Defined.

Lemma reshape_record_is_overwritten_example :
  exists y1 st1 y2 st2,
    tensor_2d_to_sequence (H := toy_numeric) example_map
      (mkState SelfAttention2d_init_context [])
    = Done y1 st1
    /\ tensor_2d_to_sequence (H := toy_numeric) example_map_tall st1
       = Done y2 st2
    /\ contexts st2
       = dict_set "reshape" [("height", VInt 4); ("width", VInt 1)]
           SelfAttention2d_init_context
    /\ (4 * 1 = 2 * 2 ->
        sequence_to_tensor_2d (H := toy_numeric) y1 st2
        = Done (mkTensor [1; 4; 4; 1] (data example_map)) st2)
    /\ (1 * 4 * (4 * 1) <> 1 * 4 * (2 * 2) ->
        exists err, sequence_to_tensor_2d (H := toy_numeric) y1 st2
                    = Fail err st2).
Proof.
  apply (@reshape_record_is_overwritten Z toy_numeric
           example_map example_map_tall 1 4 2 2 1 1 4 1
           (mkState SelfAttention2d_init_context []));
    reflexivity.
Defined.

Lemma sequence_to_tensor_2d_needs_record_example :
  sequence_to_tensor_2d (H := toy_numeric) example_sequence
    (mkState SelfAttention2d_init_context [])
  = Fail TypeError (mkState SelfAttention2d_init_context [])
  /\ sequence_to_tensor_2d (H := toy_numeric) example_sequence (mkState [] [])
     = Fail (ContextNotFound "reshape" "") (mkState [] []).
Proof.
  split.
  - apply (@sequence_to_tensor_2d_needs_record Z toy_numeric
             example_sequence 1 2 4 (mkState SelfAttention2d_init_context []));
      reflexivity.
  - apply (@sequence_to_tensor_2d_needs_record Z toy_numeric
             example_sequence 1 2 4 (mkState [] []));
      reflexivity.
Defined.

Lemma push_records_flattened_axes_example :
  pushed_size 2%Z (-1)%Z example_map = py_slice 2 (3 + 1) (shape example_map)
  /\ exists t,
       flatten 2%Z (-1)%Z example_map = Ok t
       /\ nth_error (shape t) 2
          = Some (prod_list (pushed_size 2%Z (-1)%Z example_map))
       /\ length (shape t) + (3 - 2) = rank example_map
       /\ unflatten 2 (pushed_size 2%Z (-1)%Z example_map) t = Ok example_map.
Proof.
  apply (push_records_flattened_axes 2%Z (-1)%Z example_map 2 3);
    [reflexivity | reflexivity | lia].
Defined.

Lemma shape_stack_is_lifo_example :
  let st := mkState (A := Z) CrossAttentionBlock2d_init_context [] in
  exists st1 st2 st3 st4,
    forward (H := toy_numeric)
      (SetContext "flatten" "sizes" (Some (PushSizes 2%Z (-1)%Z))) [0]
      [VTensor example_map] st = Done [VTensor example_map] st1
    /\ forward (H := toy_numeric)
         (SetContext "flatten" "sizes" (Some (PushSizes 2%Z (-1)%Z))) [1]
         [VTensor example_map_tall] st1 = Done [VTensor example_map_tall] st2
    /\ forward (H := toy_numeric) (UseContext "flatten" "sizes" UsePop) [2]
         [] st2
       = Done [VSize (pushed_size 2%Z (-1)%Z example_map_tall)] st3
    /\ forward (H := toy_numeric) (UseContext "flatten" "sizes" UsePop) [3]
         [] st3
       = Done [VSize (pushed_size 2%Z (-1)%Z example_map)] st4
    /\ contexts st4 = contexts st
    /\ trace st4
       = trace st
         ++ [ EvPush "flatten" "sizes" (pushed_size 2%Z (-1)%Z example_map);
              EvPush "flatten" "sizes" (pushed_size 2%Z (-1)%Z example_map_tall);
              EvPop "flatten" "sizes" (pushed_size 2%Z (-1)%Z example_map_tall);
              EvPop "flatten" "sizes" (pushed_size 2%Z (-1)%Z example_map) ].
Proof.
  apply (@shape_stack_is_lifo Z toy_numeric [0] [1] [2] [3]
           "flatten" "sizes" 2%Z (-1)%Z example_map example_map_tall [] []
           [("sizes", VSizes [])] []
           (mkState CrossAttentionBlock2d_init_context []));
    reflexivity.
Defined.


Lemma CrossAttentionBlock_context_miss_example :
  exists st',
    forward (H := toy_numeric) example_cross_attention_block []
      [VTensor example_sequence] (mkState [] [])
    = Fail (ContextNotFound "cross_attention_block" "text") st'
    /\ contexts st' = []
    /\ exists tr, trace st' = [] ++ tr /\ context_events tr = [].
Proof.
  apply (@CrossAttentionBlock_context_miss Z toy_numeric [] 4 3 "text" 2 true
           example_cross_attention_block example_sequence 1 2
           (mkState [] []));
    [reflexivity | reflexivity | exact I].
Defined.

Lemma CrossAttentionBlock2d_context_miss_example :
  exists st',
    call (H := toy_numeric) CrossAttentionBlock2d_init_context []
      example_block_conv example_map
    = Fail (ContextNotFound "cross_attention_block" "text") st'
    /\ dict_get "flatten" (contexts st') = Some [("sizes", VSizes [[2; 2]])]
    /\ context_events (trace st') = [EvPush "flatten" "sizes" [2; 2]].
Proof.
  apply (@CrossAttentionBlock2d_context_miss Z toy_numeric
           4 3 "text" 2 1 2 true false example_block_conv example_map 1 2 2);
    try reflexivity; lia.
Defined.

Lemma CrossAttentionBlock2d_restores_store_example :
  exists y st' tr,
    forward (H := toy_numeric) example_block_linear [] [VTensor example_map]
      example_nested_state
    = Done [VTensor y] st'
    /\ shape y = [1; 4; 2; 2]
    /\ contexts st' = contexts example_nested_state
    /\ trace st' = trace example_nested_state ++ tr
    /\ context_events tr
       = [EvPush "flatten" "sizes" [2; 2]; EvPop "flatten" "sizes" [2; 2]].
Proof.
  apply (@CrossAttentionBlock2d_restores_store Z toy_numeric []
           4 3 "text" 2 3 2 true true example_block_linear
           example_map example_conditioning 1 2 2 3
           [("sizes", VSizes [[7; 7]])] [[7; 7]] example_nested_state);
    [ reflexivity | lia | reflexivity | lia | lia
    | exists [("text", VTensor example_conditioning)]; split; reflexivity
    | reflexivity | reflexivity | reflexivity ].
Defined.
